(** * Student-Database: the record store of [student_management_system.py]

    A shallow embedding of the classes [Student] and
    [StudentManagementSystem] and of the handlers of
    [StudentManagementGUI], the properties of the store that the
    specification states, and further properties of the store and of the
    window read off the code.

    Conventions of the model.
    - A Python [str] is the Rocq [string] of its UTF-8 bytes.  Equality,
      [in], [split] and the order of [<] on [str] are then those of the
      byte strings: UTF-8 keeps the order of the code points and the
      boundaries of the characters.
    - [str.lower] and [int] follow Unicode tables and interpreter settings
      that are not spelled out here.  They are the operations of an
      interface, [Py.Python], together with what the proofs use of them:
      on ASCII text they are the ASCII case folding and the ASCII integer
      literals, the latter up to the interpreter's bound on the digits of an
      integer text (4300 by default since Python 3.11, none before).
      Nothing is assumed about them on other text.  [ascii_python] is the
      instance that the examples run on.
    - Python [int] values are [Z]; floats are the binary64 numbers of
      IEEE 754, computed by the Standard Library's [SpecFloat].
    - The object state ([self.filename], [self.students]) and the world the
      store acts on (the files, the message boxes shown, the calls of the
      progress callback) are one record, threaded through a state monad.
    - The [json] and [csv] modules are library code: a JSON file is the
      document it holds, a CSV file is its list of rows.
    - What the environment answers (whether a file can be opened for writing,
      the answer to a yes/no dialog, the path picked in a file dialog, the
      step at which an export is interrupted) is an argument of the
      operation that asks. *)

From Stdlib Require Import List String Ascii ZArith QArith Bool Lia.
From Stdlib Require Import Sorting Permutation.
From Stdlib Require OrderedTypeEx.
From Stdlib Require DecimalString DecimalZ DecimalPos.
From Stdlib Require Import Qpower Lqa.
From Stdlib Require SpecFloat.
Import ListNotations.

Set Warnings "-register-all".

Local Open Scope string_scope.
Local Open Scope list_scope.
Local Open Scope Z_scope.

(* ================================================================= *)
(** ** Python primitives used by the store *)

Module Py.

(** Truth value of a string: [if s:] holds for the non-empty ones. *)
Definition truthy (s : string) : bool := negb (s =? "")%string.

(** Truth value of an optional argument ([None] or a string). *)
Definition truthy_opt (o : option string) : bool :=
  match o with
  | Some s => truthy s
  | None => false
  end.

(** White space skipped by [int]: space, \t, \n, \v, \f, \r. *)
Definition is_space (c : ascii) : bool :=
  let n := nat_of_ascii c in
  (n =? 32)%nat || ((9 <=? n)%nat && (n <=? 13)%nat).

Definition is_digit (c : ascii) : bool :=
  let n := nat_of_ascii c in (48 <=? n)%nat && (n <=? 57)%nat.

Definition digit_val (c : ascii) : Z := Z.of_nat (nat_of_ascii c) - 48.

Fixpoint lstrip (s : string) : string :=
  match s with
  | String c r => if is_space c then lstrip r else s
  | EmptyString => EmptyString
  end.

Fixpoint rstrip (s : string) : string :=
  match s with
  | String c r =>
      match rstrip r with
      | EmptyString => if is_space c then EmptyString else String c EmptyString
      | r' => String c r'
      end
  | EmptyString => EmptyString
  end.

Definition strip (s : string) : string := rstrip (lstrip s).

(** The digits after the first one: single underscores may separate
    digits, the literal ends with a digit. *)
Fixpoint digits_from (acc : Z) (after_underscore : bool) (s : string)
  : option Z :=
  match s with
  | EmptyString => if after_underscore then None else Some acc
  | String c r =>
      if is_digit c then digits_from (10 * acc + digit_val c) false r
      else if Ascii.eqb c "_" then
        if after_underscore then None else digits_from acc true r
      else None
  end.

Definition parse_digits (s : string) : option Z :=
  match s with
  | String c r => if is_digit c then digits_from (digit_val c) false r else None
  | EmptyString => None
  end.

(** What [int(s)] is for an ASCII string [s] of no more characters than the
    interpreter's bound on digits, base 10; [None] is [ValueError]: white
    space around, an optional sign, then digits. *)
Definition ascii_int (s : string) : option Z :=
  match strip s with
  | String "+" r => parse_digits r
  | String "-" r => option_map Z.opp (parse_digits r)
  | body => parse_digits body
  end.

Definition lower_char (c : ascii) : ascii :=
  let n := nat_of_ascii c in
  if (65 <=? n)%nat && (n <=? 90)%nat then ascii_of_nat (n + 32) else c.

(** What [s.lower()] is for an ASCII string [s]. *)
Fixpoint ascii_lower (s : string) : string :=
  match s with
  | String c r => String (lower_char c) (ascii_lower r)
  | EmptyString => EmptyString
  end.

(** Text of ASCII characters only: every byte is below 128. *)
Fixpoint is_ascii (s : string) : bool :=
  match s with
  | String c r => (nat_of_ascii c <? 128)%nat && is_ascii r
  | EmptyString => true
  end.

(** [s.startswith(q)] *)
Fixpoint starts_with (q s : string) : bool :=
  match q, s with
  | EmptyString, _ => true
  | String a q', String b s' => Ascii.eqb a b && starts_with q' s'
  | String _ _, EmptyString => false
  end.

(** [q in s] *)
Fixpoint contains (q s : string) : bool :=
  starts_with q s ||
  match s with
  | String _ r => contains q r
  | EmptyString => false
  end.

(** A stable sort, as [list.sort(key=...)] is: [x] goes in front of the
    first element that is not smaller, so it stays in front of the equal
    ones that followed it. *)
Section Sort.
Context {A K : Type} (key : A -> K) (leb : K -> K -> bool).

Fixpoint insert (x : A) (l : list A) : list A :=
  match l with
  | [] => [x]
  | y :: r => if leb (key x) (key y) then x :: l else y :: insert x r
  end.

Fixpoint sort (l : list A) : list A :=
  match l with
  | [] => []
  | x :: r => insert x (sort r)
  end.

(** The order the sort puts the list in. *)
Definition le_by (x y : A) : Prop := leb (key x) (key y) = true.
End Sort.

Definition upper_char (c : ascii) : ascii :=
  let n := nat_of_ascii c in
  if (97 <=? n)%nat && (n <=? 122)%nat then ascii_of_nat (n - 32) else c.

(** [s.upper()] *)
Fixpoint upper (s : string) : string :=
  match s with
  | String c r => String (upper_char c) (upper r)
  | EmptyString => EmptyString
  end.

(** [str(z)] for an integer, which is also what an f-string puts for it:
    the decimal digits, after a minus sign for a negative one.  It is
    applied to the ages of stored records and to nothing else.  (Where the
    interpreter bounds the digits of an integer text, [str] raises beyond
    the bound; [int] does not return such an integer, see [fits].) *)
Definition str (z : Z) : string :=
  DecimalString.NilZero.string_of_int (Z.to_int z).

(** [s.split(sep)] for a non-empty [sep], read from the left: the piece up
    to the next occurrence of [sep], and the pieces after it.  [skip]
    counts the characters of an occurrence still to pass over. *)
Fixpoint split_from (sep : string) (skip : nat) (s : string)
  : string * list string :=
  match s with
  | EmptyString => (EmptyString, [])
  | String c r =>
      match skip with
      | S k => split_from sep k r
      | O =>
          if starts_with sep s then
            (EmptyString,
             let (p, ps) := split_from sep (String.length sep - 1) r in p :: ps)
          else
            let (p, ps) := split_from sep 0 r in (String c p, ps)
      end
  end.

Definition split (sep s : string) : list string :=
  let (p, ps) := split_from sep 0 s in p :: ps.

(** Floats: the binary64 numbers, with the operations as IEEE 754 rounds
    them (to nearest, ties to even). *)
Definition float : Type := SpecFloat.spec_float.

(** [float(z)] for an integer. *)
Definition float_of_int (z : Z) : float :=
  SpecFloat.binary_normalize 53 1024 z 0 false.

(** [a / b] for integers [a] and [b <> 0]: the float nearest to the
    quotient.  For operands below 2^53 in size, the ones a list length
    can be, that is the quotient of the two floats. *)
Definition truediv (a b : Z) : float :=
  SpecFloat.SFdiv 53 1024 (float_of_int a) (float_of_int b).

(** [x * y] for floats. *)
Definition mul (x y : float) : float := SpecFloat.SFmul 53 1024 x y.

(** [x < y] for floats. *)
Definition lt (x y : float) : bool := SpecFloat.SFltb x y.

(** The library functions that are not spelled out, with what is known of
    them.  [lower] is [str.lower] and [int] is [int] on a [str], [None]
    standing for [ValueError]; [max_str_digits] is the interpreter's bound
    on the digits of an integer text ([sys.get_int_max_str_digits()],
    [None] when there is no bound), which cannot be set below 640. *)
Class Python : Type := {
  lower : string -> string;
  int : string -> option Z;
  max_str_digits : option nat;
  lower_ascii : forall s, is_ascii s = true -> lower s = ascii_lower s;
  int_ascii :
    forall s, is_ascii s = true ->
      match max_str_digits with
      | Some m => (String.length s <= m)%nat
      | None => True
      end ->
      int s = ascii_int s;
  max_str_digits_min :
    forall m, max_str_digits = Some m -> (640 <= m)%nat
}.

(** An integer whose text is within the interpreter's bound: [str] gives
    its digits and [int] reads them back. *)
Definition fits {py : Python} (z : Z) : Prop :=
  match max_str_digits with
  | Some m => (String.length (str z) <= m)%nat
  | None => True
  end.

End Py.

(* ================================================================= *)
(** ** The values of floats *)

(** The powers of two, as rationals. *)
Definition bpow (e : Z) : Q := (2 ^ e)%Q.

(** The value of the float of mantissa [m] and exponent [e]. *)
Definition F2Q (m e : Z) : Q := (inject_Z m * bpow e)%Q.

(** The unit roundoff of binary64, 2^-53: rounding to nearest changes a
    number by this fraction of the result at most. *)
Definition roundoff : Q := bpow (-53).

(** [X] lies in the interval of the mantissa [m] at exponent [e]; [r]
    tells whether it is in the upper half, [s] whether it is off the lower
    end and off the middle.  These are the round bit and the sticky bit
    that the rounding keeps while it shifts a mantissa. *)
Definition inbetween (m : Z) (r s : bool) (e : Z) (X : Q) : Prop :=
  (F2Q m e <= X /\ X < F2Q (m + 1) e)%Q /\
  (r = true <-> (F2Q (2 * m + 1) e <= 2 * X)%Q) /\
  (s = false <-> (X == F2Q m e \/ 2 * X == F2Q (2 * m + 1) e)%Q).

(* ================================================================= *)
(** ** class Student *)

Record Student : Type := mkStudent {
  id : string;
  name : string;
  age : Z;
  grade : string
}.

Definition set_name (n : string) (s : Student) : Student :=
  mkStudent (id s) n (age s) (grade s).
Definition set_age (a : Z) (s : Student) : Student :=
  mkStudent (id s) (name s) a (grade s).
Definition set_grade (g : string) (s : Student) : Student :=
  mkStudent (id s) (name s) (age s) g.

(** JSON documents, as [json.load] returns them and [json.dump] takes them. *)
Inductive jvalue : Type :=
| JNull
| JBool (b : bool)
| JInt (z : Z)
| JStr (s : string)
| JList (l : list jvalue)
| JDict (kv : list (string * jvalue)).

(** [Student.to_dict] *)
Definition to_dict (s : Student) : jvalue :=
  JDict [("id", JStr (id s)); ("name", JStr (name s));
         ("age", JInt (age s)); ("grade", JStr (grade s))].

Fixpoint dict_get (k : string) (kv : list (string * jvalue)) : option jvalue :=
  match kv with
  | [] => None
  | (k', v) :: r => if (k' =? k)%string then Some v else dict_get k r
  end.

Definition is_field (k : string) : bool :=
  (k =? "id")%string || (k =? "name")%string ||
  (k =? "age")%string || (k =? "grade")%string.

(** What building a [Student] from the keywords of a dict gives. *)
Inductive Built (A : Type) : Type :=
| Made (a : A)     (* records of the model *)
| Untyped          (* records with a field that is no [str], [str], [int], [str] *)
| TypeError.       (* the call raises *)
Arguments Made {A} a.
Arguments Untyped {A}.
Arguments TypeError {A}.

(** [Student] built from the keywords of a dict: the keywords must be
    exactly the four parameters of [__init__], else [TypeError].
    [__init__] stores the values whatever their types; the records of the
    model are typed, so a dict with a value of another type gives a
    [Student] that the model has no record for. *)
Definition student_of_dict (d : jvalue) : Built Student :=
  match d with
  | JDict kv =>
      if forallb (fun p => is_field (fst p)) kv then
        match dict_get "id" kv, dict_get "name" kv,
              dict_get "age" kv, dict_get "grade" kv with
        | Some (JStr i), Some (JStr n), Some (JInt a), Some (JStr g) =>
            Made (mkStudent i n a g)
        | Some _, Some _, Some _, Some _ => Untyped
        | _, _, _, _ => TypeError
        end
      else TypeError
  | _ => TypeError
  end.

(** The list comprehension of [load_students]: one [Student] per dict.  It
    raises at the first dict that [Student] refuses. *)
Fixpoint students_of_list (l : list jvalue) : Built (list Student) :=
  match l with
  | [] => Made []
  | d :: r =>
      match student_of_dict d, students_of_list r with
      | TypeError, _ => TypeError
      | _, TypeError => TypeError
      | Made s, Made ss => Made (s :: ss)
      | _, _ => Untyped
      end
  end.

(* ================================================================= *)
(** ** The world of the store *)

(** A cell handed to [csv.writer.writerow]. *)
Inductive cell : Type :=
| CStr (s : string)
| CInt (z : Z).

Inductive File : Type :=
| FJson (v : jvalue)               (* text that json.load reads as v *)
| FCsv (rows : list (list cell))   (* text written by csv.writer *)
| FCorrupt                         (* other text that is no JSON document *)
| FUnreadable.                     (* no text: bytes that do not decode,
                                      or a file that may not be read *)

(** What the store shows and calls.  The message of a failed save or
    export ends with the text of the exception, which is left out. *)
Inductive Event : Type :=
| ShowError (title msg : string)   (* messagebox.showerror *)
| ShowInfo (title msg : string)    (* messagebox.showinfo *)
| SaveCall                         (* save_students was entered *)
| Progress (v : Py.float).         (* progress_callback(v) *)

Record State : Type := mkState {
  filename : string;                 (* self.filename *)
  students : list Student;           (* self.students *)
  files : string -> option File;     (* the file system *)
  log : list Event                   (* what happened, oldest first *)
}.

Definition M (A : Type) : Type := State -> A * State.

Definition ret {A} (a : A) : M A := fun st => (a, st).
Definition bind {A B} (m : M A) (k : A -> M B) : M B :=
  fun st => let (a, st') := m st in k a st'.

Notation "x <- m ;; k" := (bind m (fun x => k))
  (at level 61, m at next level, right associativity).
Notation "m ;; k" := (bind m (fun _ => k))
  (at level 61, right associativity).

Definition get_students : M (list Student) := fun st => (students st, st).
Definition put_students (l : list Student) : M unit := fun st =>
  (tt, mkState (filename st) l (files st) (log st)).
Definition emit (e : Event) : M unit := fun st =>
  (tt, mkState (filename st) (students st) (files st) (log st ++ [e])).
Definition showerror (title msg : string) : M unit := emit (ShowError title msg).
Definition showinfo (title msg : string) : M unit := emit (ShowInfo title msg).

Definition write (path : string) (f : File) (fs : string -> option File)
  : string -> option File :=
  fun p => if (p =? path)%string then Some f else fs p.

Definition write_file (path : string) (f : File) : M unit := fun st =>
  (tt, mkState (filename st) (students st) (write path f (files st)) (log st)).

(** How a call of [load_students] ends. *)
Inductive Ending : Type :=
| Returns    (* it returns *)
| Raises     (* an exception escapes it *)
| Beyond.    (* it returns with a collection that holds an untyped record,
                or it read CSV text that no export wrote: the model does
                not follow it further *)

Definition csv_header : list cell :=
  [CStr "ID"; CStr "Name"; CStr "Age"; CStr "Grade"].

Definition cell_eqb (a b : cell) : bool :=
  match a, b with
  | CStr x, CStr y => (x =? y)%string
  | CInt x, CInt y => (x =? y)%Z
  | _, _ => false
  end.

Fixpoint row_eqb (a b : list cell) : bool :=
  match a, b with
  | [], [] => true
  | x :: a', y :: b' => cell_eqb x y && row_eqb a' b'
  | _, _ => false
  end.

(** The rows of a file as [export_to_csv] leaves it: none, when it was
    interrupted before the header, or the header first. *)
Definition written_by_export (rows : list (list cell)) : bool :=
  match rows with
  | [] => true
  | h :: _ => row_eqb h csv_header
  end.

(* ================================================================= *)
(** ** class StudentManagementSystem *)

Section Store.
Context {py : Py.Python}.

(** [save_students] (lines 34-39).  [w] tells whether the file can be written; when it
    cannot, the exception is caught and reported, and the file stays. *)
Definition save_students (w : bool) : M unit :=
  emit SaveCall ;;
  if w then
    fun st => write_file (filename st) (FJson (JList (map to_dict (students st)))) st
  else showerror "Error" "Failed to save data".

(** The [try] block of [add_student] and [update_student]:
    [age = int(age); if age <= 0: raise ValueError]. *)
Definition positive_int (text : string) : option Z :=
  match Py.int text with
  | Some a => if a <=? 0 then None else Some a
  | None => None
  end.

Definition has_id (i : string) (l : list Student) : bool :=
  existsb (fun s => (id s =? i)%string) l.

(** [add_student] (lines 41-57) *)
Definition add_student (w : bool) (id' name' age' grade' : string) : M bool :=
  if negb (Py.truthy id') || negb (Py.truthy name') || negb (Py.truthy grade') then
    showerror "Error" "ID, Name, and Grade are required!" ;; ret false
  else
    l <- get_students ;;
    if has_id id' l then
      showerror "Error" "Student ID already exists!" ;; ret false
    else
      match positive_int age' with
      | None => showerror "Error" "Age must be a positive integer!" ;; ret false
      | Some a =>
          put_students (l ++ [mkStudent id' name' a grade']) ;;
          save_students w ;;
          ret true
      end.

(** [load_students] (lines 24-32).  Only [JSONDecodeError] is caught.  An
    exception escapes when the file cannot be read as text, when [data]
    is not iterable, and when an element is no dict of the four fields.
    Iterating a dict yields its keys and iterating a string its
    characters, which are no dicts either; so only the empty ones go
    through.  A file that the export wrote is empty or starts with the
    header line, and neither is JSON; what [json.load] makes of other
    CSV text is not modelled. *)
Definition load_students : M Ending := fun st =>
  match files st (filename st) with
  | None => (Returns, st)
  | Some (FJson data) =>
      let loaded :=
        match data with
        | JList l => students_of_list l
        | JDict [] => Made []
        | JStr EmptyString => Made []
        | _ => TypeError
        end in
      match loaded with
      | Made l => (Returns, snd (put_students l st))
      | Untyped => (Beyond, st)
      | TypeError => (Raises, st)
      end
  | Some (FCsv rows) =>
      if written_by_export rows then
        (showerror "Error" "Corrupted data file. Starting fresh." ;;
         put_students [] ;;
         ret Returns) st
      else (Beyond, st)
  | Some FCorrupt =>
      (showerror "Error" "Corrupted data file. Starting fresh." ;;
       put_students [] ;;
       ret Returns) st
  | Some FUnreadable => (Raises, st)
  end.

(** [__init__] (lines 19-22) *)
Definition init (fname : string) (fs : string -> option File)
  : Ending * State :=
  load_students (mkState fname [] fs []).

Definition sort_students {K} (key : Student -> K) (leb : K -> K -> bool)
  : M unit :=
  l <- get_students ;; put_students (Py.sort key leb l).

(** [view_students] (lines 59-69) *)
Definition view_students (sort_by : option string) : M (list Student) :=
  match sort_by with
  | Some k =>
      if Py.truthy k then
        if (k =? "id")%string then sort_students id String.leb
        else if (k =? "name")%string then
          sort_students (fun s => Py.lower (name s)) String.leb
        else if (k =? "age")%string then sort_students age Z.leb
        else if (k =? "grade")%string then
          sort_students (fun s => Py.lower (grade s)) String.leb
        else ret tt
      else ret tt
  | None => ret tt
  end ;;
  get_students.

Definition matches (q : string) (s : Student) : bool :=
  Py.contains q (Py.lower (id s)) || Py.contains q (Py.lower (name s)).

(** [search_students] (lines 71-73) *)
Definition search_students (query : string) : M (list Student) :=
  let query := Py.lower query in
  l <- get_students ;;
  ret (filter (matches query) l).

(** [if x: s.field = x] for an optional argument [x]. *)
Definition assign_if (x : option string) (set : string -> Student -> Student)
  (s : Student) : Student :=
  match x with
  | Some v => if Py.truthy v then set v s else s
  | None => s
  end.

(** The body of the loop of [update_student] on the record found: the
    record as the body leaves it, and whether the body got to the save
    ([false]: it returned from the [except] branch). *)
Definition update_record (name' age' grade' : option string) (s : Student)
  : Student * bool :=
  let s := assign_if name' set_name s in
  match age' with
  | Some a =>
      if Py.truthy a then
        match positive_int a with
        | Some n => (assign_if grade' set_grade (set_age n s), true)
        | None => (s, false)
        end
      else (assign_if grade' set_grade s, true)
  | None => (assign_if grade' set_grade s, true)
  end.

(** The loop of [update_student]: the body runs on the first record with
    the id, in place; [None] when the loop ends without finding one. *)
Fixpoint update_first (i : string) (body : Student -> Student * bool)
  (l : list Student) : option (list Student * bool) :=
  match l with
  | [] => None
  | s :: r =>
      if (id s =? i)%string then
        let (s', ok) := body s in Some (s' :: r, ok)
      else
        match update_first i body r with
        | Some (r', ok) => Some (s :: r', ok)
        | None => None
        end
  end.

(** [update_student] (lines 75-91) *)
Definition update_student (w : bool) (id' : string)
  (name' age' grade' : option string) : M bool :=
  l <- get_students ;;
  match update_first id' (update_record name' age' grade') l with
  | Some (l', true) => put_students l' ;; save_students w ;; ret true
  | Some (l', false) =>
      put_students l' ;;
      showerror "Error" "Age must be a positive integer!" ;;
      ret false
  | None => showerror "Error" "Student not found!" ;; ret false
  end.

(** The loop of [delete_student]: [self.students.remove(s)] for the first
    [s] with the id.  [remove] takes out the first element equal to [s],
    and a [Student] is equal to itself only, so it is [s] that goes. *)
Fixpoint remove_first (i : string) (l : list Student) : option (list Student) :=
  match l with
  | [] => None
  | s :: r =>
      if (id s =? i)%string then Some r
      else option_map (cons s) (remove_first i r)
  end.

(** [delete_student] (lines 93-100) *)
Definition delete_student (w : bool) (id' : string) : M bool :=
  l <- get_students ;;
  match remove_first id' l with
  | Some l' => put_students l' ;; save_students w ;; ret true
  | None => showerror "Error" "Student not found!" ;; ret false
  end.

(** [clear_all_students] (lines 102-107); [answer] is what [messagebox.askyesno] returns. *)
Definition clear_all_students (w : bool) (answer : bool) : M bool :=
  if answer then put_students [] ;; save_students w ;; ret true
  else ret false.

Definition csv_row (s : Student) : list cell :=
  [CStr (id s); CStr (name s); CInt (age s); CStr (grade s)].

(** Where an exception interrupts the [try] block of [export_to_csv].  A
    call of [writerow] that raises leaves nothing of its row in the file
    (a cell that the encoding of the file cannot hold; what a failing
    device leaves is not modelled). *)
Inductive Fault : Type :=
| NoFault                       (* nowhere *)
| OpenFault                     (* open(file_path, 'w') raises *)
| WriteFault (k : nat)          (* the k-th writerow raises; the header is 0 *)
| CallbackFault (k : nat).      (* the k-th call of the callback raises, from 0 *)

(** [writer.writerow(row)] on the file open at [path]. *)
Definition writerow (path : string) (row : list cell) : M unit := fun st =>
  let rows :=
    match files st path with
    | Some (FCsv rows) => rows
    | _ => []
    end in
  write_file path (FCsv (rows ++ [row])) st.

(** [(i + 1) / n * 100], as the interpreter computes it: an integer
    division that gives a float, then a float product. *)
Definition percent (i n : nat) : Py.float :=
  Py.mul (Py.truediv (Z.of_nat (i + 1)) (Z.of_nat n)) (Py.float_of_int 100).

(** Whether the [k]-th call of [writerow] raises; the header is number 0. *)
Definition write_fails (f : Fault) (k : nat) : bool :=
  match f with
  | WriteFault j => (j =? k)%nat
  | _ => false
  end.

(** Whether the [k]-th call of the progress callback raises, from 0. *)
Definition callback_fails (f : Fault) (k : nat) : bool :=
  match f with
  | CallbackFault j => (j =? k)%nat
  | _ => false
  end.

(** The [for i, s in enumerate(self.students)] loop of [export_to_csv],
    from index [i] on; the result tells whether the loop got to its end
    ([false]: an exception left it). *)
Fixpoint export_loop (path : string) (f : Fault) (n i : nat) (l : list Student)
  : M bool :=
  match l with
  | [] => ret true
  | s :: r =>
      if write_fails f (S i) then ret false
      else
        writerow path (csv_row s) ;;
        emit (Progress (percent i n)) ;;
        if callback_fails f i then ret false
        else export_loop path f n (S i) r
  end.

(** [export_to_csv] (lines 109-125); [file_path] is what
    [filedialog.asksaveasfilename] returns (empty when the dialog is
    cancelled), [f] tells where an exception interrupts the [try] block,
    if anywhere.  [open] empties the file; closing it on the way out
    of [with] keeps what was written. *)
Definition export_to_csv (file_path : string) (f : Fault) : M unit :=
  l <- get_students ;;
  match l with
  | [] => showerror "Error" "No students to export!"
  | _ :: _ =>
      if Py.truthy file_path then
        match f with
        | OpenFault => showerror "Error" "Failed to export"
        | _ =>
            write_file file_path (FCsv []) ;;
            done <- (if write_fails f 0 then ret false
                     else writerow file_path csv_header ;;
                          export_loop file_path f (List.length l) 0 l) ;;
            if done then showinfo "Success" "Data exported to CSV!"
            else showerror "Error" "Failed to export"
        end
      else ret tt
  end.

(** How far the loop of the export gets from index [i] with [m] records
    to go: the number of rows it writes, which is the number of calls of
    the callback, and whether it gets to its end. *)
Definition loop_done (f : Fault) (i m : nat) : nat :=
  match f with
  | WriteFault k => if (i <? k)%nat then Nat.min (k - S i) m else m
  | CallbackFault k => if (i <=? k)%nat then Nat.min (S (k - i)) m else m
  | _ => m
  end.

Definition loop_ends (f : Fault) (i m : nat) : bool :=
  match f with
  | WriteFault k => negb ((i <? k)%nat && (k <=? i + m)%nat)
  | CallbackFault k => negb ((i <=? k)%nat && (k <? i + m)%nat)
  | _ => true
  end.

(** The same for an export of [n] records whose file was opened: the data
    rows written and the calls made, and whether the [try] block gets to
    its end. *)
Definition rows_written (f : Fault) (n : nat) : nat :=
  match f with
  | WriteFault k => Nat.min (k - 1) n
  | CallbackFault k => Nat.min (S k) n
  | _ => n
  end.

Definition completes (f : Fault) (n : nat) : bool :=
  match f with
  | WriteFault k => (n <? k)%nat
  | CallbackFault k => (n <=? k)%nat
  | _ => true
  end.

(** The message that ends an export whose file was opened. *)
Definition last_message (f : Fault) (n : nat) : Event :=
  if completes f n then ShowInfo "Success" "Data exported to CSV!"
  else ShowError "Error" "Failed to export".

(* ================================================================= *)
(** ** Sequences of operations *)

Inductive Op : Type :=
| Add (w : bool) (id' name' age' grade' : string)
| Update (w : bool) (id' : string) (name' age' grade' : option string)
| Delete (w : bool) (id' : string).

Definition step (o : Op) : M bool :=
  match o with
  | Add w i n a g => add_student w i n a g
  | Update w i n a g => update_student w i n a g
  | Delete w i => delete_student w i
  end.

(** The states between the operations of [ops], the first one included. *)
Fixpoint states (ops : list Op) (st : State) : list State :=
  st :: match ops with
        | [] => []
        | o :: r => states r (snd (step o st))
        end.

(** The invariant of the collection, as far as the store keeps it. *)
Definition valid_record (s : Student) : Prop := id s <> "" /\ 0 < age s.

Definition valid_collection (l : list Student) : Prop :=
  NoDup (map id l) /\ Forall valid_record l.

(** The events of the log that are calls of [save_students]. *)
Definition is_save (e : Event) : bool :=
  match e with
  | SaveCall => true
  | _ => false
  end.

Definition saves (st : State) : nat :=
  List.length (filter is_save (log st)).

Definition progress_of (e : Event) : option Py.float :=
  match e with
  | Progress v => Some v
  | _ => None
  end.

(** The values the progress callback received, oldest first. *)
Fixpoint progress_values (evs : list Event) : list Py.float :=
  match evs with
  | [] => []
  | e :: r =>
      match progress_of e with
      | Some v => v :: progress_values r
      | None => progress_values r
      end
  end.

(** What makes [add_student] refuse, in the words of the specification. *)
Definition add_refused (i n a g : string) (l : list Student) : Prop :=
  i = "" \/ n = "" \/ g = "" \/ In i (map id l) \/
  ~ (exists k, Py.int a = Some k /\ 0 < k).

(* ================================================================= *)
(** ** The specification's words *)

(** Two strings that differ by the case of their letters at most. *)
Definition ci_equal (a b : string) : Prop := Py.lower a = Py.lower b.

(** [q] occurs in [s], whatever the case of the letters: a piece of [s]
    is [q] up to case. *)
Definition ci_substring (q s : string) : Prop :=
  exists pre mid post,
    s = (pre ++ mid ++ post)%string /\ ci_equal mid q.

(** The search as the specification words it: the records found are the
    stored ones whose id or name holds the query, whatever the case. *)
Definition search_as_specified (q : string) (st : State) : Prop :=
  forall s,
    In s (fst (search_students q st)) <->
    In s (students st) /\ (ci_substring q (id s) \/ ci_substring q (name s)).

(** The lower-case form of [q] occurs in the lower-case form of [s]. *)
Definition lowered_in (q s : string) : Prop :=
  exists pre post, Py.lower s = (pre ++ Py.lower q ++ post)%string.



(** The export as the specification words it: with no record an error and
    no file; with records the header and one row per record at the path,
    and one call of the progress callback per record, the i-th of them
    with i/n*100. *)
Definition export_as_specified (path : string) (f : Fault) (st : State) : Prop :=
  let st' := snd (export_to_csv path f st) in
  let n := List.length (students st) in
  match students st with
  | [] =>
      files st' = files st /\
      exists msg, log st' = log st ++ [ShowError "Error" msg]
  | _ :: _ =>
      files st' path = Some (FCsv (csv_header :: map csv_row (students st))) /\
      progress_values (log st') =
        progress_values (log st) ++ map (fun i => percent i n) (seq 0 n)
  end.

(* ================================================================= *)
(** ** Sample data *)

(** The store as [__init__] leaves it when there is no backing file. *)
Definition fresh : State := mkState "students.json" [] (fun _ => None) [].

Definition alice : Student := mkStudent "s1" "Alice" 20 "A".
Definition bob : Student := mkStudent "s2" "bob" 30 "B".
Definition cal : Student := mkStudent "s3" "Cal" 20 "C".

(** A name in Greek capitals; its last letter is a capital sigma. *)
Definition nikos : Student := mkStudent "n1" "ΝΙΚΟΣ" 30 "A".

Definition with_students (l : list Student) : State :=
  mkState "students.json" l (fun _ => None) [].

(* ================================================================= *)
(** ** All the operations of the store *)

(** The constraints of the four fields of a record. *)
Definition well_formed_record (s : Student) : Prop :=
  id s <> "" /\ name s <> "" /\ 0 < age s /\ grade s <> "".

Definition well_formed (l : list Student) : Prop :=
  NoDup (map id l) /\ Forall well_formed_record l.

(** A call of a method of the store after [__init__]. *)
Inductive Action : Type :=
| Do (o : Op)
| View (sort_by : option string)
| Search (query : string)
| Clear (w answer : bool)
| Export (file_path : string) (f : Fault).

Definition act (a : Action) (st : State) : State :=
  match a with
  | Do o => snd (step o st)
  | View k => snd (view_students k st)
  | Search q => snd (search_students q st)
  | Clear w answer => snd (clear_all_students w answer st)
  | Export path f => snd (export_to_csv path f st)
  end.

(** The states between the actions of [acts], the first one included. *)
Fixpoint history (acts : list Action) (st : State) : list State :=
  st :: match acts with
        | [] => []
        | a :: r => history r (act a st)
        end.

(** The collection a new store would load from the backing file. *)
Definition on_disk (st : State) : option (list Student) :=
  match files st (filename st) with
  | Some (FJson (JList l)) =>
      match students_of_list l with
      | Made ss => Some ss
      | _ => None
      end
  | _ => None
  end.


(** The value a field has after [if x: s.field = x]. *)
Definition chosen (x : option string) (old : string) : string :=
  match x with
  | Some v => if Py.truthy v then v else old
  | None => old
  end.

(** The age a record has after an update that goes through. *)
Definition chosen_age (x : option string) (old : Z) : Z :=
  match x with
  | Some v =>
      if Py.truthy v then
        match positive_int v with
        | Some k => k
        | None => old
        end
      else old
  | None => old
  end.

(** Whether the age argument lets an update go through. *)
Definition age_accepted (x : option string) : bool :=
  match x with
  | Some v =>
      if Py.truthy v then
        match positive_int v with
        | Some _ => true
        | None => false
        end
      else true
  | None => true
  end.

End Store.

(* ================================================================= *)
(** ** class StudentManagementGUI *)

(** The widgets, as far as the methods read and write them.  The layout,
    the styles, the tooltips and the focus are left out.  The list box is
    in single selection mode; emptying it empties the selection. *)
Module GUI.

Record Widgets : Type := mkWidgets {
  sms : State;                        (* self.sms *)
  listbox : list (string * string);   (* the lines: text and colour *)
  selection : option nat;             (* listbox.curselection() *)
  search_var : string;
  sort_var : string;
  id_var : string;
  name_var : string;
  age_var : string;
  grade_var : string;
  status_var : string;
  progress_bar : Q;                   (* self.progress['value'] *)
  delete_btn : bool;                  (* state is "normal" *)
  update_btn : bool
}.

Definition set_sms (st : State) (g : Widgets) : Widgets :=
  mkWidgets st (listbox g) (selection g) (search_var g) (sort_var g)
    (id_var g) (name_var g) (age_var g) (grade_var g) (status_var g)
    (progress_bar g) (delete_btn g) (update_btn g).

(** The list box with new lines and nothing selected. *)
Definition set_listbox (l : list (string * string)) (g : Widgets) : Widgets :=
  mkWidgets (sms g) l None (search_var g) (sort_var g)
    (id_var g) (name_var g) (age_var g) (grade_var g) (status_var g)
    (progress_bar g) (delete_btn g) (update_btn g).

(** The user picks line [k] of the list box. *)
Definition select (k : nat) (g : Widgets) : Widgets :=
  mkWidgets (sms g) (listbox g) (Some k) (search_var g) (sort_var g)
    (id_var g) (name_var g) (age_var g) (grade_var g) (status_var g)
    (progress_bar g) (delete_btn g) (update_btn g).

Definition set_id_var (v : string) (g : Widgets) : Widgets :=
  mkWidgets (sms g) (listbox g) (selection g) (search_var g) (sort_var g)
    v (name_var g) (age_var g) (grade_var g) (status_var g)
    (progress_bar g) (delete_btn g) (update_btn g).

Definition set_name_var (v : string) (g : Widgets) : Widgets :=
  mkWidgets (sms g) (listbox g) (selection g) (search_var g) (sort_var g)
    (id_var g) v (age_var g) (grade_var g) (status_var g)
    (progress_bar g) (delete_btn g) (update_btn g).

Definition set_age_var (v : string) (g : Widgets) : Widgets :=
  mkWidgets (sms g) (listbox g) (selection g) (search_var g) (sort_var g)
    (id_var g) (name_var g) v (grade_var g) (status_var g)
    (progress_bar g) (delete_btn g) (update_btn g).

Definition set_grade_var (v : string) (g : Widgets) : Widgets :=
  mkWidgets (sms g) (listbox g) (selection g) (search_var g) (sort_var g)
    (id_var g) (name_var g) (age_var g) v (status_var g)
    (progress_bar g) (delete_btn g) (update_btn g).

Definition set_status (v : string) (g : Widgets) : Widgets :=
  mkWidgets (sms g) (listbox g) (selection g) (search_var g) (sort_var g)
    (id_var g) (name_var g) (age_var g) (grade_var g) v
    (progress_bar g) (delete_btn g) (update_btn g).

Definition set_progress (v : Q) (g : Widgets) : Widgets :=
  mkWidgets (sms g) (listbox g) (selection g) (search_var g) (sort_var g)
    (id_var g) (name_var g) (age_var g) (grade_var g) (status_var g)
    v (delete_btn g) (update_btn g).

Definition set_buttons (b : bool) (g : Widgets) : Widgets :=
  mkWidgets (sms g) (listbox g) (selection g) (search_var g) (sort_var g)
    (id_var g) (name_var g) (age_var g) (grade_var g) (status_var g)
    (progress_bar g) b b.

(** How a handler ends: it returns, or an exception escapes it; the
    widgets are as the handler left them. *)
Inductive Outcome : Type :=
| Returned (g : Widgets)
| Raised (g : Widgets).

Section Handlers.
Context {py : Py.Python}.

(** The text of a line of the list box (line 269). *)
Definition row_text (s : Student) : string :=
  ("ID: " ++ id s ++ " | Name: " ++ name s ++ " | Age: " ++ Py.str (age s)
   ++ " | Grade: " ++ grade s)%string.

(** The colour of a line (line 268). *)
Definition row_color (s : Student) : string :=
  if (Py.upper (grade s) =? "A")%string || (Py.upper (grade s) =? "B")%string
  then "#00ff00" else "#ff4444".

(** [update_listbox] (lines 265-270) *)
Definition update_listbox (l : list Student) (g : Widgets) : Widgets :=
  set_listbox (map (fun s => (row_text s, row_color s)) l) g.

(** [update_buttons] (lines 272-276) *)
Definition update_buttons (g : Widgets) : Widgets :=
  match selection g with
  | Some _ => set_buttons true g
  | None => set_buttons false g
  end.

(** [live_search] (lines 252-258) *)
Definition live_search (g : Widgets) : Widgets :=
  let query := search_var g in
  let (results, st) :=
    if Py.truthy query then search_students query (sms g)
    else view_students None (sms g) in
  update_listbox results (set_sms st g).

(** [refresh_list] (lines 260-263) *)
Definition refresh_list (g : Widgets) : Widgets :=
  let (l, st) := view_students (Some (sort_var g)) (sms g) in
  update_buttons (update_listbox l (set_sms st g)).

(** [self.listbox.get(index)]; the empty string when there is no such line. *)
Definition listbox_get (index : nat) (g : Widgets) : string :=
  nth index (map fst (listbox g)) "".

(** [parts[k].split(": ")[1]]; [None] is [IndexError]. *)
Definition field (parts : list string) (k : nat) : option string :=
  match nth_error parts k with
  | Some p => nth_error (Py.split ": " p) 1
  | None => None
  end.

(** [on_select_student] (lines 278-288) *)
Definition on_select_student (g : Widgets) : Outcome :=
  match selection g with
  | Some index =>
      let parts := Py.split " | " (listbox_get index g) in
      match field parts 0 with
      | None => Raised g
      | Some v0 =>
          let g := set_id_var v0 g in
          match field parts 1 with
          | None => Raised g
          | Some v1 =>
              let g := set_name_var v1 g in
              match field parts 2 with
              | None => Raised g
              | Some v2 =>
                  let g := set_age_var v2 g in
                  match field parts 3 with
                  | None => Raised g
                  | Some v3 => Returned (update_buttons (set_grade_var v3 g))
                  end
              end
          end
      end
  | None => Returned g
  end.

(** [clear_fields] (lines 327-331) *)
Definition clear_fields (g : Widgets) : Widgets :=
  set_grade_var "" (set_age_var "" (set_name_var "" (set_id_var "" g))).

(** [add_student] (lines 290-299) *)
Definition add_student (w : bool) (g : Widgets) : Widgets :=
  let (ok, st) :=
    add_student w (id_var g) (name_var g) (age_var g) (grade_var g) (sms g) in
  let g := set_sms st g in
  if ok then
    set_status "Student added successfully!" (clear_fields (refresh_list g))
  else g.

(** [update_student] (lines 301-313); [answer] is the reply to the
    dialog, asked only with a line selected. *)
Definition update_student (w answer : bool) (g : Widgets) : Widgets :=
  match selection g with
  | None => g
  | Some _ =>
      if answer then
        let (ok, st) :=
          update_student w (id_var g) (Some (name_var g)) (Some (age_var g))
            (Some (grade_var g)) (sms g) in
        let g := set_sms st g in
        if ok then set_status "Student updated!" (clear_fields (refresh_list g))
        else g
      else g
  end.

(** [delete_student] (lines 315-325) *)
Definition delete_student (w answer : bool) (g : Widgets) : Outcome :=
  match selection g with
  | None => Returned g
  | Some index =>
      match field (Py.split " | " (listbox_get index g)) 0 with
      | None => Raised g
      | Some i =>
          if answer then
            let (ok, st) := delete_student w i (sms g) in
            let g := set_sms st g in
            if ok then
              Returned (set_status "Student deleted!"
                          (clear_fields (refresh_list g)))
            else Returned g
          else Returned g
      end
  end.

(** [clear_all] (lines 333-337) *)
Definition clear_all (w answer : bool) (g : Widgets) : Widgets :=
  let (ok, st) := clear_all_students w answer (sms g) in
  let g := set_sms st g in
  if ok then set_status "All students cleared!" (clear_fields (refresh_list g))
  else g.

(** [export_csv] (lines 339-345).  The callback puts each value on the
    progress bar; the values are in the log of the store. *)
Definition export_csv (file_path : string) (f : Fault) (g : Widgets) : Widgets :=
  let g := set_progress 0 g in
  let (_, st) := export_to_csv file_path f (sms g) in
  set_progress 0 (set_sms st g).

(** A field value that the separators of a line cannot be mistaken in:
    no [" | "] in it or across its ends, and no [": "] in it. *)
Definition clean (v : string) : bool :=
  negb (Py.contains " | " (" " ++ v ++ " |")%string) &&
  negb (Py.contains ": " v).

(** The widgets [__init__] sets up around a store (lines 128-238). *)
Definition start (st : State) : Widgets :=
  refresh_list
    (mkWidgets st [] None "" "id" "" "" "" ""
       "Ready - Start typing in the ID field!" 0 false false).

End Handlers.

End GUI.

(* ================================================================= *)
(** ** Instances of the library *)

(** The library on ASCII text, with no bound on digits: the case folding
    and the integer literals of ASCII, taken for every text.  The examples
    run on it; they use ASCII text only. *)
Definition ascii_python : Py.Python.
Proof.
  refine {| Py.lower := Py.ascii_lower;
            Py.int := Py.ascii_int;
            Py.max_str_digits := None |}.
  - reflexivity.
  - reflexivity.
  - discriminate.
Defined.

(** [str.lower] on two Greek words: the capital sigma becomes the small
    sigma, and the small final sigma at the end of a word of several
    letters.  Elsewhere the instance is [ascii_python]. *)
Definition greek_lower (s : string) : string :=
  if (s =? "ΝΙΚΟΣ")%string then "νικος"
  else if (s =? "Σ")%string then "σ"
  else Py.ascii_lower s.

Definition greek_python : Py.Python.
Proof.
  refine {| Py.lower := greek_lower;
            Py.int := Py.ascii_int;
            Py.max_str_digits := None |}.
  - intros s H. unfold greek_lower.
    destruct (String.eqb_spec s "ΝΙΚΟΣ") as [->|_]; [discriminate H|].
    destruct (String.eqb_spec s "Σ") as [->|_]; [discriminate H|].
    reflexivity.
  - reflexivity.
  - discriminate.
Defined.

(* ================================================================= *)
(** ** Binary64 arithmetic

    What [SpecFloat] computes for the percentages of the export: the float
    of an integer below 2^53 is exact, a quotient and a product of normal
    floats are within the unit roundoff of the exact ones, and the order
    of normal floats is the order of their values. *)

Section Binary64.
Import SpecFloat.

Lemma bpow_pos (e : Z) : (0 < bpow e)%Q.
Proof. apply Qpower_0_lt. reflexivity. Qed.

Lemma bpow_add (a b : Z) : (bpow (a + b) == bpow a * bpow b)%Q.
Proof. apply Qpower_plus. discriminate. Qed.

Lemma bpow_succ (e : Z) : (bpow (e + 1) == 2 * bpow e)%Q.
Proof. rewrite bpow_add. unfold bpow at 2. simpl. lra. Qed.

Lemma bpow_Z (k : Z) : 0 <= k -> (bpow k == inject_Z (2 ^ k))%Q.
Proof. intros H. unfold bpow. now rewrite Zpower_Qpower. Qed.

(** The number of binary digits of a mantissa. *)
Lemma digits2_size (p : positive) : digits2_pos p = Pos.size p.
Proof. induction p; simpl; congruence. Qed.

Lemma digits_bounds (p : positive) :
  2 ^ (Z.pos (digits2_pos p) - 1) <= Z.pos p < 2 ^ Z.pos (digits2_pos p).
Proof.
  rewrite digits2_size.
  pose proof (Pos.size_gt p) as H1. pose proof (Pos.size_le p) as H2.
  assert (E : 2 ^ Z.pos (Pos.size p) = Z.pos (2 ^ Pos.size p)).
  { now rewrite Pos2Z.inj_pow. }
  assert (E2 : 2 ^ Z.pos (Pos.size p) = 2 * 2 ^ (Z.pos (Pos.size p) - 1)).
  { rewrite <- Z.pow_succ_r by lia. f_equal. lia. }
  lia.
Qed.

Lemma digits_unique (p : positive) (k : Z) :
  2 ^ (k - 1) <= Z.pos p < 2 ^ k -> Z.pos (digits2_pos p) = k.
Proof.
  intros [H1 H2]. pose proof (digits_bounds p) as [H3 H4].
  assert (0 < k).
  { destruct (Z.ltb_spec 0 k); [assumption|].
    assert (2 ^ k <= 1); [|lia].
    destruct (Z.eq_dec k 0) as [->|]; [simpl; lia|].
    rewrite Z.pow_neg_r by lia. lia. }
  destruct (Z.lt_trichotomy (Z.pos (digits2_pos p)) k) as [L|[E|G]]; [|exact E|].
  - assert (2 ^ Z.pos (digits2_pos p) <= 2 ^ (k - 1))
      by (apply Z.pow_le_mono_r; lia). lia.
  - assert (2 ^ k <= 2 ^ (Z.pos (digits2_pos p) - 1))
      by (apply Z.pow_le_mono_r; lia). lia.
Qed.


(** One step of shifting a mantissa right, with the round bit and the
    sticky bit. *)
Lemma shr_1_spec (m : Z) (r s : bool) :
  0 <= m ->
  shr_1 (Build_shr_record m r s) = Build_shr_record (Z.div2 m) (Z.odd m) (r || s).
Proof. destruct m as [|[p|p|]|]; simpl; try reflexivity; lia. Qed.

Lemma inbetween_step (m : Z) (r s : bool) (e : Z) (X : Q) :
  0 <= m -> inbetween m r s e X ->
  inbetween (Z.div2 m) (Z.odd m) (r || s) (e + 1) X.
Proof.
  intros Hm ((H1 & H2) & Hr & Hs).
  pose proof (Z.div2_odd m) as E. pose proof (bpow_pos e) as Ht.
  set (h := Z.div2 m) in *. set (t := bpow e) in *.
  unfold inbetween.
  assert (Em : (inject_Z m == 2 * inject_Z h + (if Z.odd m then 1 else 0))%Q).
  { rewrite E at 1. rewrite inject_Z_plus, inject_Z_mult.
    destruct (Z.odd m); reflexivity. }
  unfold F2Q in *. fold t in H1, H2, Hr, Hs |- *.
  rewrite ?inject_Z_plus, ?inject_Z_mult in *.
  rewrite bpow_succ. fold t.
  change (inject_Z 1) with 1%Q in *. change (inject_Z 2) with 2%Q in *.
  rewrite Em in H1, H2, Hr, Hs.
  destruct (Z.odd m).
  - split; [split; lra|]. split.
    + split; [intros _; lra | reflexivity].
    + split.
      * intros H. apply orb_false_iff in H. destruct H as [-> ->].
        destruct Hs as [Hs _]. destruct (Hs eq_refl) as [Hs'|Hs'].
        -- right. lra.
        -- exfalso. destruct Hr as [_ Hr]. assert (false = true); [apply Hr; lra | discriminate].
      * intros [H|H]; [exfalso; lra|].
        apply orb_false_iff. split.
        -- destruct r; [|reflexivity]. destruct Hr as [Hr _]. specialize (Hr eq_refl). lra.
        -- apply Hs. left. lra.
  - split; [split; lra|]. split.
    + split; [discriminate | intros H; exfalso; lra].
    + split.
      * intros H. apply orb_false_iff in H. destruct H as [-> ->].
        destruct Hs as [Hs _]. destruct (Hs eq_refl) as [Hs'|Hs'].
        -- left. lra.
        -- exfalso. destruct Hr as [_ Hr]. assert (false = true); [apply Hr; lra | discriminate].
      * intros [H|H]; [|exfalso; lra].
        apply orb_false_iff. split.
        -- destruct r; [|reflexivity]. destruct Hr as [Hr _]. specialize (Hr eq_refl). lra.
        -- apply Hs. left. lra.
Qed.


Lemma iter_pos_nat {A : Type} (f : A -> A) (p : positive) :
  forall x, iter_pos f p x = Nat.iter (Pos.to_nat p) f x.
Proof.
  induction p as [p IH|p IH|]; intros x; cbn [iter_pos].
  - rewrite !IH, Pos2Nat.inj_xI.
    replace (S (2 * Pos.to_nat p)) with (S (Pos.to_nat p + Pos.to_nat p)) by lia.
    now rewrite Nat.iter_succ_r, Nat.iter_add.
  - rewrite !IH, Pos2Nat.inj_xO.
    replace (2 * Pos.to_nat p)%nat with (Pos.to_nat p + Pos.to_nat p)%nat by lia.
    now rewrite Nat.iter_add.
  - reflexivity.
Qed.

Lemma shr_iter (n : nat) (m : Z) (r s : bool) (e : Z) (X : Q) :
  0 <= m -> inbetween m r s e X ->
  let rc := Nat.iter n shr_1 (Build_shr_record m r s) in
  inbetween (shr_m rc) (shr_r rc) (shr_s rc) (e + Z.of_nat n) X /\
  shr_m rc = m / 2 ^ Z.of_nat n.
Proof.
  intros Hm Hin. induction n as [|n IH].
  - simpl. rewrite Z.add_0_r, Z.div_1_r. auto.
  - cbv zeta in *. rewrite Nat.iter_succ.
    destruct (Nat.iter n shr_1 (Build_shr_record m r s)) as [m' r' s'].
    simpl in IH. destruct IH as [I1 I2].
    assert (Hm' : 0 <= m').
    { rewrite I2. apply Z.div_pos; [assumption|]. apply Z.pow_pos_nonneg; lia. }
    rewrite (shr_1_spec m' r' s' Hm'). simpl shr_m. simpl shr_r. simpl shr_s.
    split.
    + replace (e + Z.of_nat (S n)) with (e + Z.of_nat n + 1) by lia.
      now apply inbetween_step.
    + rewrite Z.div2_div, I2, Z.div_div by (try apply Z.pow_pos_nonneg; lia).
      f_equal. rewrite Nat2Z.inj_succ, Z.pow_succ_r by lia. lia.
Qed.

Lemma shr_spec (m : Z) (r s : bool) (e k : Z) (X : Q) :
  0 <= m -> 0 <= k -> inbetween m r s e X ->
  let rc := fst (shr (Build_shr_record m r s) e k) in
  snd (shr (Build_shr_record m r s) e k) = e + k /\
  inbetween (shr_m rc) (shr_r rc) (shr_s rc) (e + k) X /\
  shr_m rc = m / 2 ^ k.
Proof.
  intros Hm Hk Hin. destruct k as [|p|p]; [| |lia].
  - simpl. rewrite Z.add_0_r, Z.div_1_r. auto.
  - cbn [shr fst snd]. rewrite iter_pos_nat.
    destruct (shr_iter (Pos.to_nat p) m r s e X Hm Hin) as [H1 H2].
    rewrite positive_nat_Z in H1, H2. auto.
Qed.


Lemma roundoff_half (t : Q) : (2 * (roundoff * (inject_Z (2 ^ 52) * t)) == t)%Q.
Proof.
  assert (E : (roundoff * inject_Z (2 ^ 52) == 1 # 2)%Q) by reflexivity.
  rewrite (Qmult_assoc roundoff), E. field.
Qed.

Lemma fexp_normal (e : Z) : -1021 <= e -> fexp 53 1024 e = e - 53.
Proof. unfold fexp, emin. lia. Qed.

Lemma record_of_loc (m : Z) (l : location) :
  shr_record_of_loc m l =
  Build_shr_record m (shr_r (shr_record_of_loc m l))
    (shr_s (shr_record_of_loc m l)).
Proof. destruct l as [|[]]; reflexivity. Qed.

Lemma inject_Z_le (a b : Z) : a <= b -> (inject_Z a <= inject_Z b)%Q.
Proof. intros H. now rewrite <- Zle_Qle. Qed.

(** Rounding to nearest, ties to even. *)
Lemma nearest_spec (m : Z) (r s : bool) (e : Z) (X : Q) :
  inbetween m r s e X ->
  let m' := round_nearest_even m (loc_of_shr_record (Build_shr_record m r s)) in
  (m' = m \/ m' = m + 1) /\
  (2 * (F2Q m' e - X) <= bpow e)%Q /\ (2 * (X - F2Q m' e) <= bpow e)%Q.
Proof.
  intros ((H1 & H2) & Hr & Hs). pose proof (bpow_pos e) as Ht.
  unfold F2Q in *. rewrite ?inject_Z_plus, ?inject_Z_mult in *.
  change (inject_Z 1) with 1%Q in *. change (inject_Z 2) with 2%Q in *.
  set (t := bpow e) in *.
  destruct r, s; cbn [loc_of_shr_record round_nearest_even].
  - destruct Hr as [Hr _]. specialize (Hr eq_refl).
    split; [now right|]. rewrite inject_Z_plus. change (inject_Z 1) with 1%Q.
    split; lra.
  - destruct Hr as [Hr _]. specialize (Hr eq_refl).
    destruct (Z.even m).
    + split; [now left|]. split; lra.
    + split; [now right|]. rewrite inject_Z_plus. change (inject_Z 1) with 1%Q.
      split; lra.
  - assert (~ ((2 * inject_Z m + 1) * t <= 2 * X)%Q).
    { intros H. destruct Hr as [_ Hr]. specialize (Hr H). discriminate. }
    split; [now left|]. split; lra.
  - assert (~ ((2 * inject_Z m + 1) * t <= 2 * X)%Q).
    { intros H. destruct Hr as [_ Hr]. specialize (Hr H). discriminate. }
    split; [now left|]. split; lra.
Qed.


Lemma Z_pos_exists (m : Z) : 0 < m -> exists p, m = Z.pos p.
Proof. destruct m; try lia. intros _. now exists p. Qed.

(** [binary_round_aux] on a mantissa of at least 53 digits, away from
    underflow and overflow: the result is a normal float within half a
    unit in the last place of the number rounded. *)
Lemma round_spec (p : positive) (ex : Z) (lx : location) (X : Q) :
  let D := Z.pos (digits2_pos p) in
  53 <= D -> -1021 <= D + ex -> D + ex <= 1023 ->
  inbetween (Z.pos p) (shr_r (shr_record_of_loc (Z.pos p) lx))
    (shr_s (shr_record_of_loc (Z.pos p) lx)) ex X ->
  exists m e,
    binary_round_aux 53 1024 false (Z.pos p) ex lx = S754_finite false m e /\
    2 ^ 52 <= Z.pos m < 2 ^ 53 /\
    D + ex - 53 <= e <= D + ex - 52 /\
    (F2Q (Z.pos m) e - X <= roundoff * F2Q (Z.pos m) e)%Q /\
    (X - F2Q (Z.pos m) e <= roundoff * F2Q (Z.pos m) e)%Q.
Proof.
  intros D HD Hlo Hhi Hin.
  pose proof (digits_bounds p) as Hp. fold D in Hp.
  unfold binary_round_aux, shr_fexp. cbn [Zdigits2]. fold D.
  rewrite fexp_normal by lia. rewrite record_of_loc.
  set (r0 := shr_r (shr_record_of_loc (Z.pos p) lx)) in *.
  set (s0 := shr_s (shr_record_of_loc (Z.pos p) lx)) in *.
  replace (D + ex - 53 - ex) with (D - 53) by lia.
  destruct (shr_spec (Z.pos p) r0 s0 ex (D - 53) X) as (E1 & I1 & M1);
    [lia | lia | exact Hin |].
  destruct (shr (Build_shr_record (Z.pos p) r0 s0) ex (D - 53)) as [[m1 r1 s1] e1].
  cbn [fst snd shr_m shr_r shr_s] in E1, I1, M1.
  replace (ex + (D - 53)) with e1 in I1 by lia.
  assert (B1 : 2 ^ 52 <= m1 < 2 ^ 53).
  { rewrite M1.
    assert (P0 : 0 < 2 ^ (D - 53)) by (apply Z.pow_pos_nonneg; lia).
    assert (P1 : 2 ^ (D - 1) = 2 ^ 52 * 2 ^ (D - 53)).
    { rewrite <- Z.pow_add_r by lia. f_equal. lia. }
    assert (P2 : 2 ^ D = 2 ^ 53 * 2 ^ (D - 53)).
    { rewrite <- Z.pow_add_r by lia. f_equal. lia. }
    split.
    - apply Z.div_le_lower_bound; [exact P0|]. lia.
    - apply Z.div_lt_upper_bound; [exact P0|]. lia. }
  destruct (nearest_spec m1 r1 s1 e1 X I1) as (Hm2 & N1 & N2).
  cbn [shr_m].
  set (m2 := round_nearest_even m1 (loc_of_shr_record (Build_shr_record m1 r1 s1))) in *.
  assert (B2 : 2 ^ 52 <= m2 <= 2 ^ 53) by lia.
  pose proof (bpow_pos e1) as Ht.
  assert (Hu : (bpow e1 <= 2 * (roundoff * F2Q m2 e1))%Q).
  { rewrite <- (roundoff_half (bpow e1)). unfold F2Q.
    apply Qmult_le_l; [reflexivity|]. apply Qmult_le_l; [reflexivity|].
    apply Qmult_le_compat_r; [apply inject_Z_le; lia | lra]. }
  destruct (Z.eq_dec m2 (2 ^ 53)) as [E2|N2'].
  - (* the rounding carried into a new digit *)
    exists (2 ^ 52)%positive, (e1 + 1). rewrite E2.
    assert (EV : (F2Q (Z.pos (2 ^ 52)) (e1 + 1) == F2Q m2 e1)%Q).
    { unfold F2Q. rewrite bpow_succ, E2.
      change (inject_Z (Z.pos (2 ^ 52))) with (inject_Z (2 ^ 52)).
      change (inject_Z (2 ^ 53)) with (2 * inject_Z (2 ^ 52))%Q. lra. }
    split.
    { change (Zdigits2 (2 ^ 53)) with 54. rewrite fexp_normal by lia.
      replace (54 + e1 - 53 - e1) with 1 by lia.
      cbn [shr_record_of_loc shr iter_pos shr_1 fst snd shr_m].
      change (2 ^ 53) with 9007199254740992. cbn [shr_1 shr_m].
      destruct (Z.leb_spec (e1 + 1) (1024 - 53)); [reflexivity | lia]. }
    split; [simpl; lia|]. split; [lia|]. rewrite EV. split; lra.
  - destruct (Z_pos_exists m2) as [q Eq]; [lia|].
    exists q, e1. rewrite Eq in *.
    assert (Dq : Z.pos (digits2_pos q) = 53) by (apply digits_unique; lia).
    split.
    { cbn [Zdigits2]. rewrite Dq, fexp_normal by lia.
      replace (53 + e1 - 53 - e1) with 0 by lia.
      cbn [shr_record_of_loc shr fst snd shr_m].
      destruct (Z.leb_spec e1 (1024 - 53)); [reflexivity | lia]. }
    split; [lia|]. split; [lia|]. split; lra.
Qed.


(** A mantissa of 53 digits that is exact stays as it is. *)
Lemma round_exact (m : positive) (e : Z) :
  Z.pos (digits2_pos m) = 53 -> -1074 <= e <= 971 ->
  binary_round_aux 53 1024 false (Z.pos m) e loc_Exact = S754_finite false m e.
Proof.
  intros Hd He. unfold binary_round_aux, shr_fexp. cbn [Zdigits2].
  rewrite Hd, fexp_normal by lia.
  replace (53 + e - 53 - e) with 0 by lia.
  cbn [shr_record_of_loc shr shr_m loc_of_shr_record round_nearest_even Zdigits2].
  rewrite Hd, fexp_normal by lia.
  replace (53 + e - 53 - e) with 0 by lia.
  cbn [shr shr_m shr_record_of_loc].
  destruct (Z.leb_spec e (1024 - 53)); [reflexivity | lia].
Qed.

Lemma iter_xO (p : positive) (k : positive) :
  Pos.iter xO p k = (p * 2 ^ k)%positive.
Proof.
  induction k as [|k IH] using Pos.peano_ind.
  - simpl. lia.
  - rewrite Pos.iter_succ, IH, Pos.pow_succ_r. lia.
Qed.

(** [float(z)] for a positive integer below 2^53: a normal float of the
    same value. *)
Lemma float_of_pos (p : positive) :
  Z.pos p < 2 ^ 53 ->
  exists m e,
    binary_normalize 53 1024 (Z.pos p) 0 false = S754_finite false m e /\
    2 ^ 52 <= Z.pos m < 2 ^ 53 /\ -52 <= e <= 0 /\
    (F2Q (Z.pos m) e == inject_Z (Z.pos p))%Q.
Proof.
  intros Hp. pose proof (digits_bounds p) as Hb.
  set (d := Z.pos (digits2_pos p)) in *.
  assert (Hd : 1 <= d <= 53).
  { split; [unfold d; lia|].
    destruct (Z.leb_spec d 53); [assumption|].
    assert (2 ^ 53 <= 2 ^ (d - 1)) by (apply Z.pow_le_mono_r; lia). lia. }
  unfold binary_normalize, binary_round. fold d.
  rewrite Z.add_0_r, fexp_normal by lia. unfold shl_align.
  rewrite Z.sub_0_r.
  destruct (Z.eq_dec d 53) as [E|N].
  - rewrite E. cbn [Z.sub Z.add Z.opp Z.pos_sub]. exists p, 0.
    split; [apply round_exact; [exact E | lia]|].
    rewrite E in Hb. split; [lia|]. split; [lia|].
    unfold F2Q, bpow. simpl. lra.
  - destruct (d - 53) as [|k|k] eqn:Ek; try lia.
    rewrite iter_xO.
    assert (Hk : Z.pos k = 53 - d) by lia.
    assert (P : 2 ^ 53 = 2 ^ d * 2 ^ Z.pos k).
    { rewrite <- Z.pow_add_r by lia. f_equal. lia. }
    assert (P' : 2 ^ 52 = 2 ^ (d - 1) * 2 ^ Z.pos k).
    { rewrite <- Z.pow_add_r by lia. f_equal. lia. }
    assert (P0 : 0 < 2 ^ Z.pos k) by (apply Z.pow_pos_nonneg; lia).
    assert (Em : Z.pos (p * 2 ^ k) = Z.pos p * 2 ^ Z.pos k).
    { now rewrite Pos2Z.inj_mul, Pos2Z.inj_pow. }
    assert (Bm : 2 ^ 52 <= Z.pos (p * 2 ^ k) < 2 ^ 53).
    { rewrite Em, P, P'. split.
      - apply Z.mul_le_mono_nonneg_r; lia.
      - apply Z.mul_lt_mono_pos_r; lia. }
    exists (p * 2 ^ k)%positive, (Z.neg k).
    split; [apply round_exact; [apply digits_unique; lia | lia]|].
    split; [exact Bm|]. split; [lia|].
    unfold F2Q. rewrite Em, inject_Z_mult, <- (bpow_Z (Z.pos k)) by lia.
    rewrite <- Qmult_assoc, <- bpow_add.
    replace (Z.pos k + Z.neg k) with 0 by lia.
    unfold bpow. simpl. lra.
Qed.


(** The position of a quotient in its interval, as [new_location] codes
    it: [r] is the remainder of the division by [b]. *)
Lemma new_location_bits (q b r : Z) :
  0 <= r < b ->
  let rc := shr_record_of_loc q (new_location b r) in
  (shr_r rc = true <-> b <= 2 * r) /\
  (shr_s rc = false <-> r = 0 \/ 2 * r = b).
Proof.
  intros Hr. unfold new_location, new_location_even, new_location_odd.
  assert (Ho : Z.even b = false -> b <> 2 * r).
  { intros Eb E. rewrite E, Z.even_mul in Eb. discriminate. }
  destruct (Z.even b);
    [|specialize (Ho eq_refl)];
    (destruct (Z.eqb_spec r 0) as [->|N];
     [|match goal with
       | |- context [Z.compare ?x ?y] => destruct (Z.compare_spec x y)
       end]);
    cbn [shr_record_of_loc shr_r shr_s]; split; split; intros G;
    first [discriminate G | reflexivity | lia | left; lia | right; lia
          | exfalso; lia].
Qed.

(** The quotient of two normal floats. *)
Lemma SFdiv_normal (ma mb : positive) (ea eb : Z) :
  2 ^ 52 <= Z.pos ma < 2 ^ 53 -> 2 ^ 52 <= Z.pos mb < 2 ^ 53 ->
  -52 <= ea <= 0 -> -52 <= eb <= 0 ->
  exists m e X,
    SFdiv 53 1024 (S754_finite false ma ea) (S754_finite false mb eb) =
      S754_finite false m e /\
    2 ^ 52 <= Z.pos m < 2 ^ 53 /\ -106 <= e <= 53 /\
    (X * F2Q (Z.pos mb) eb == F2Q (Z.pos ma) ea)%Q /\
    (F2Q (Z.pos m) e - X <= roundoff * F2Q (Z.pos m) e)%Q /\
    (X - F2Q (Z.pos m) e <= roundoff * F2Q (Z.pos m) e)%Q.
Proof.
  intros Ha Hb Hea Heb.
  assert (Da : Z.pos (digits2_pos ma) = 53) by (apply digits_unique; lia).
  assert (Db : Z.pos (digits2_pos mb) = 53) by (apply digits_unique; lia).
  unfold SFdiv, SFdiv_core_binary. cbn [Zdigits2 xorb]. rewrite Da, Db.
  replace (53 + ea - (53 + eb)) with (ea - eb) by lia.
  rewrite fexp_normal by lia.
  replace (Z.min (ea - eb - 53) (ea - eb)) with (ea - eb - 53) by lia.
  replace (ea - eb - (ea - eb - 53)) with 53 by lia.
  rewrite Z.shiftl_mul_pow2 by lia.
  pose proof (Z_div_mod (Z.pos ma * 2 ^ 53) (Z.pos mb)) as Hdiv.
  destruct (Z.div_eucl (Z.pos ma * 2 ^ 53) (Z.pos mb)) as [q r].
  destruct Hdiv as [Eq Hr]; [lia|].
  assert (Bq : 2 ^ 52 <= q < 2 ^ 54).
  { split.
    - assert (Z.pos mb * q + r < Z.pos mb * (q + 1)) by lia.
      assert (2 ^ 52 * 2 ^ 53 <= Z.pos ma * 2 ^ 53)
        by (apply Z.mul_le_mono_nonneg_r; lia).
      assert (Z.pos mb * 2 ^ 52 < 2 ^ 53 * 2 ^ 52) by lia.
      assert (Z.pos mb * (q + 1) > Z.pos mb * 2 ^ 52) by lia.
      assert (2 ^ 52 < q + 1); [|lia].
      apply (Z.mul_lt_mono_pos_l (Z.pos mb)); lia.
    - assert (Z.pos ma * 2 ^ 53 < 2 ^ 53 * 2 ^ 53) by lia.
      assert (Z.pos mb * q <= Z.pos ma * 2 ^ 53) by lia.
      assert (2 ^ 52 * q <= Z.pos mb * q) by (apply Z.mul_le_mono_nonneg_r; lia).
      assert (2 ^ 52 * q < 2 ^ 52 * 2 ^ 54) by lia.
      apply (Z.mul_lt_mono_pos_l (2 ^ 52)); lia. }
  destruct (Z_pos_exists q) as [pq Epq]; [lia|]. subst q.
  set (e' := ea - eb - 53).
  set (t := bpow e').
  set (rho := (r # mb)%Q).
  set (X := ((inject_Z (Z.pos pq) + rho) * t)%Q).
  pose proof (bpow_pos e') as Ht. fold t in Ht.
  pose proof (new_location_bits (Z.pos pq) (Z.pos mb) r Hr) as [Lr Ls].
  assert (Dq : 53 <= Z.pos (digits2_pos pq) <= 54).
  { pose proof (digits_bounds pq) as Hd.
    split.
    - destruct (Z.leb_spec 53 (Z.pos (digits2_pos pq))); [assumption|].
      assert (2 ^ Z.pos (digits2_pos pq) <= 2 ^ 52)
        by (apply Z.pow_le_mono_r; lia). lia.
    - destruct (Z.leb_spec (Z.pos (digits2_pos pq)) 54); [assumption|].
      assert (2 ^ 54 <= 2 ^ (Z.pos (digits2_pos pq) - 1))
        by (apply Z.pow_le_mono_r; lia). lia. }
  assert (Rho : (rho * inject_Z (Z.pos mb) == inject_Z r)%Q).
  { unfold rho, Qeq. cbn. lia. }
  assert (R0 : (0 <= rho)%Q) by (unfold rho, Qle; cbn; lia).
  assert (R1 : (rho < 1)%Q) by (unfold rho, Qlt; cbn; lia).
  assert (Rh : (1 <= 2 * rho)%Q <-> Z.pos mb <= 2 * r)
    by (unfold rho, Qle; cbn; lia).
  assert (Rz : (rho == 0)%Q <-> r = 0) by (unfold rho, Qeq; cbn; lia).
  assert (Rm : (2 * rho == 1)%Q <-> 2 * r = Z.pos mb)
    by (unfold rho, Qeq; cbn; lia).
  destruct (round_spec pq e' (new_location (Z.pos mb) r) X)
    as (m & e & E & Bm & Be & N1 & N2); try lia.
  { unfold inbetween, F2Q, X. fold t.
    rewrite ?inject_Z_plus, ?inject_Z_mult.
    change (inject_Z 1) with 1%Q. change (inject_Z 2) with 2%Q.
    split; [split; nra|]. split.
    - rewrite Lr, <- Rh. split; intros H; nra.
    - rewrite Ls, <- Rz, <- Rm. split.
      + intros [H|H]; [left | right]; nra.
      + intros [H|H]; [left | right]; nra. }
  exists m, e, X. split; [exact E|]. split; [exact Bm|].
  split; [unfold e' in Be; lia|]. split; [|split; assumption].
  assert (T : (t * bpow eb == bpow (ea - 53))%Q).
  { unfold t. rewrite <- bpow_add. unfold e'.
    now replace (ea - eb - 53 + eb) with (ea - 53) by lia. }
  assert (A : (inject_Z (Z.pos ma) * bpow 53 ==
               inject_Z (Z.pos pq) * inject_Z (Z.pos mb) + inject_Z r)%Q).
  { rewrite (bpow_Z 53) by lia.
    rewrite <- !inject_Z_mult, <- inject_Z_plus.
    apply inject_Z_injective. lia. }
  unfold F2Q, X.
  transitivity ((inject_Z (Z.pos pq) * inject_Z (Z.pos mb) +
                 rho * inject_Z (Z.pos mb)) * (t * bpow eb))%Q; [ring|].
  rewrite Rho, T, <- A.
  replace ea with (53 + (ea - 53)) at 2 by lia. rewrite bpow_add. ring.
Qed.


(** The product of two normal floats. *)
Lemma SFmul_normal (ma mb : positive) (ea eb : Z) :
  2 ^ 52 <= Z.pos ma < 2 ^ 53 -> 2 ^ 52 <= Z.pos mb < 2 ^ 53 ->
  -500 <= ea <= 400 -> -500 <= eb <= 400 ->
  exists m e,
    SFmul 53 1024 (S754_finite false ma ea) (S754_finite false mb eb) =
      S754_finite false m e /\
    2 ^ 52 <= Z.pos m < 2 ^ 53 /\
    (F2Q (Z.pos m) e - F2Q (Z.pos ma) ea * F2Q (Z.pos mb) eb
       <= roundoff * F2Q (Z.pos m) e)%Q /\
    (F2Q (Z.pos ma) ea * F2Q (Z.pos mb) eb - F2Q (Z.pos m) e
       <= roundoff * F2Q (Z.pos m) e)%Q.
Proof.
  intros Ha Hb Hea Heb. unfold SFmul. cbn [xorb].
  pose proof (digits_bounds (ma * mb)) as Hd.
  rewrite Pos2Z.inj_mul in Hd.
  assert (P : 2 ^ 104 <= Z.pos ma * Z.pos mb < 2 ^ 106).
  { change (2 ^ 104) with (2 ^ 52 * 2 ^ 52).
    change (2 ^ 106) with (2 ^ 53 * 2 ^ 53). split.
    - apply Z.mul_le_mono_nonneg; lia.
    - apply Z.mul_lt_mono_nonneg; lia. }
  assert (Dp : 105 <= Z.pos (digits2_pos (ma * mb)) <= 106).
  { split.
    - destruct (Z.leb_spec 105 (Z.pos (digits2_pos (ma * mb)))); [assumption|].
      assert (2 ^ Z.pos (digits2_pos (ma * mb)) <= 2 ^ 104)
        by (apply Z.pow_le_mono_r; lia). lia.
    - destruct (Z.leb_spec (Z.pos (digits2_pos (ma * mb))) 106); [assumption|].
      assert (2 ^ 106 <= 2 ^ (Z.pos (digits2_pos (ma * mb)) - 1))
        by (apply Z.pow_le_mono_r; lia). lia. }
  assert (EX : (F2Q (Z.pos (ma * mb)) (ea + eb) ==
                F2Q (Z.pos ma) ea * F2Q (Z.pos mb) eb)%Q).
  { unfold F2Q. rewrite Pos2Z.inj_mul, inject_Z_mult, bpow_add. ring. }
  destruct (round_spec (ma * mb) (ea + eb) loc_Exact
              (F2Q (Z.pos (ma * mb)) (ea + eb)))
    as (m & e & E & Bm & _ & N1 & N2); try lia.
  { pose proof (bpow_pos (ea + eb)) as Ht.
    unfold inbetween, F2Q. cbn [shr_record_of_loc shr_r shr_s].
    rewrite ?inject_Z_plus, ?inject_Z_mult.
    change (inject_Z 1) with 1%Q. change (inject_Z 2) with 2%Q.
    split; [split; lra|]. split.
    - split; [discriminate | intros H; exfalso; lra].
    - split; [intros _; left; reflexivity | reflexivity]. }
  exists m, e. rewrite <- EX. auto.
Qed.

(** The order of two normal floats is the order of their values. *)
Lemma SFltb_values (m1 m2 : positive) (e1 e2 : Z) :
  2 ^ 52 <= Z.pos m1 < 2 ^ 53 -> 2 ^ 52 <= Z.pos m2 < 2 ^ 53 ->
  (F2Q (Z.pos m1) e1 < F2Q (Z.pos m2) e2)%Q ->
  SFltb (S754_finite false m1 e1) (S754_finite false m2 e2) = true.
Proof.
  intros H1 H2 Hv. unfold SFltb, SFcompare.
  pose proof (bpow_pos e1) as T1. pose proof (bpow_pos e2) as T2.
  unfold F2Q in Hv.
  assert (I1 : (inject_Z (2 ^ 52) <= inject_Z (Z.pos m1))%Q)
    by (apply inject_Z_le; lia).
  assert (I2 : (inject_Z (Z.pos m2) <= inject_Z (2 ^ 53 - 1))%Q)
    by (apply inject_Z_le; lia).
  change (inject_Z (2 ^ 52)) with (4503599627370496 # 1)%Q in I1.
  change (inject_Z (2 ^ 53 - 1)) with (9007199254740991 # 1)%Q in I2.
  destruct (Z.compare_spec e1 e2) as [E|L|G]; [| reflexivity |].
  - subst e2. rewrite Pos.compare_cont_spec. cbn [Pos.switch_Eq].
    destruct (Pos.compare_spec m1 m2) as [E|L|G]; [| reflexivity |].
    + subst m2. exfalso. lra.
    + exfalso. assert ((inject_Z (Z.pos m2) <= inject_Z (Z.pos m1))%Q)
        by (apply inject_Z_le; lia). nra.
  - exfalso.
    assert (B : (2 * bpow e2 <= bpow e1)%Q).
    { rewrite <- bpow_succ. apply Qpower_le_compat_l; [lia | lra]. }
    nra.
Qed.


(** A percentage: a normal float within two roundings of the exact
    value. *)
Lemma percent_spec (a n : Z) :
  0 < a < 2 ^ 53 -> 0 < n < 2 ^ 53 ->
  exists m e v X,
    Py.mul (Py.truediv a n) (Py.float_of_int 100) = S754_finite false m e /\
    2 ^ 52 <= Z.pos m < 2 ^ 53 /\
    (X * inject_Z n == inject_Z a)%Q /\
    (0 < v)%Q /\
    (v - X <= roundoff * v)%Q /\ (X - v <= roundoff * v)%Q /\
    (F2Q (Z.pos m) e - 100 * v <= roundoff * F2Q (Z.pos m) e)%Q /\
    (100 * v - F2Q (Z.pos m) e <= roundoff * F2Q (Z.pos m) e)%Q.
Proof.
  intros Ha Hn.
  destruct (Z_pos_exists a) as [pa ->]; [lia|].
  destruct (Z_pos_exists n) as [pn ->]; [lia|].
  destruct (float_of_pos pa) as (ma & ea & Fa & Ba & Ea & Va); [lia|].
  destruct (float_of_pos pn) as (mn & en & Fn & Bn & En & Vn); [lia|].
  destruct (float_of_pos 100) as (mh & eh & Fh & Bh & Eh & Vh); [reflexivity|].
  destruct (SFdiv_normal ma mn ea en Ba Bn Ea En)
    as (m1 & e1 & X & D1 & B1 & E1 & VX & N1 & N2).
  destruct (SFmul_normal m1 mh e1 eh B1 Bh) as (m2 & e2 & M2 & B2 & P1 & P2);
    [lia | lia |].
  exists m2, e2, (F2Q (Z.pos m1) e1), X.
  unfold Py.truediv, Py.mul, Py.float_of_int. rewrite Fa, Fn, Fh, D1, M2.
  split; [reflexivity|]. split; [exact B2|].
  split; [now rewrite <- Va, <- Vn|].
  split.
  { unfold F2Q. apply Qmult_lt_0_compat; [|apply bpow_pos].
    rewrite <- (Zlt_Qlt 0). lia. }
  split; [exact N1|]. split; [exact N2|].
  rewrite Vh in P1, P2. change (inject_Z (Z.pos 100)) with 100%Q in P1, P2.
  split; lra.
Qed.

(** The percentages of a list of fewer than 2^50 records grow strictly. *)
Theorem percent_lt (i j n : nat) :
  (i < j)%nat -> (j < n)%nat -> Z.of_nat n < 2 ^ 50 ->
  Py.lt (percent i n) (percent j n) = true.
Proof.
  intros Hij Hjn Hn. unfold percent.
  destruct (percent_spec (Z.of_nat (i + 1)) (Z.of_nat n))
    as (ma & ea & va & Xa & Fa & Ba & Ea & Pa & A1 & A2 & A3 & A4); [lia | lia |].
  destruct (percent_spec (Z.of_nat (j + 1)) (Z.of_nat n))
    as (mb & eb & vb & Xb & Fb & Bb & Eb & Pb & B1 & B2 & B3 & B4); [lia | lia |].
  rewrite Fa, Fb. unfold Py.lt. apply SFltb_values; [exact Ba | exact Bb |].
  set (N := inject_Z (Z.of_nat n)) in *.
  assert (HN : (0 < N)%Q) by (unfold N; rewrite <- (Zlt_Qlt 0); lia).
  set (T := (/ N)%Q).
  assert (HT : (0 < T)%Q) by (apply Qinv_lt_0_compat; exact HN).
  assert (TN : (T * N == 1)%Q) by (unfold T; field; lra).
  assert (XA : (Xa == inject_Z (Z.of_nat (i + 1)) * T)%Q).
  { rewrite <- Ea. rewrite <- Qmult_assoc, (Qmult_comm N), TN. ring. }
  assert (XB : (Xb == inject_Z (Z.of_nat (j + 1)) * T)%Q).
  { rewrite <- Eb. rewrite <- Qmult_assoc, (Qmult_comm N), TN. ring. }
  assert (G1 : (Xa + T <= Xb)%Q).
  { rewrite XA, XB.
    assert ((inject_Z (Z.of_nat (i + 1)) + 1 <= inject_Z (Z.of_nat (j + 1)))%Q).
    { change 1%Q with (inject_Z 1). rewrite <- inject_Z_plus.
      apply inject_Z_le. lia. }
    nra. }
  assert (G2 : (Xa <= inject_Z (2 ^ 50) * T)%Q).
  { rewrite XA. apply Qmult_le_compat_r; [apply inject_Z_le; lia | lra]. }
  change (inject_Z (2 ^ 50)) with (1125899906842624 # 1)%Q in G2.
  assert (U : (roundoff == 1 # 9007199254740992)%Q) by reflexivity.
  rewrite U in *.
  set (wa := F2Q (Z.pos ma) ea) in *. set (wb := F2Q (Z.pos mb) eb) in *.
  lra.
Qed.

(** The last percentage is 100. *)
Theorem percent_last (n : nat) :
  (0 < n)%nat -> Z.of_nat n < 2 ^ 53 ->
  percent (n - 1) n = Py.float_of_int 100.
Proof.
  intros Hn Hb. unfold percent.
  replace (n - 1 + 1)%nat with n by lia.
  destruct (Z_pos_exists (Z.of_nat n)) as [p Ep]; [lia|]. rewrite Ep in *.
  destruct (float_of_pos p Hb) as (m & e & F & B & E & _).
  unfold Py.truediv, Py.mul, Py.float_of_int. rewrite F.
  assert (Dm : Z.pos (digits2_pos m) = 53) by (apply digits_unique; lia).
  assert (D1 : SFdiv 53 1024 (S754_finite false m e) (S754_finite false m e) =
               S754_finite false (2 ^ 52) (-52)).
  { unfold SFdiv, SFdiv_core_binary. cbn [Zdigits2 xorb]. rewrite Dm.
    replace (53 + e - (53 + e)) with 0 by lia.
    replace (e - e) with 0 by lia.
    change (Z.min (fexp 53 1024 0) 0) with (-53).
    change (0 - -53) with 53.
    rewrite Z.shiftl_mul_pow2 by lia.
    assert (Ed : Z.div_eucl (Z.pos m * 2 ^ 53) (Z.pos m) = (2 ^ 53, 0)).
    { pose proof (Z_div_mod (Z.pos m * 2 ^ 53) (Z.pos m)) as H.
      destruct (Z.div_eucl (Z.pos m * 2 ^ 53) (Z.pos m)) as [q r].
      destruct H as [H1 H2]; [lia|].
      assert (q = 2 ^ 53) by nia. subst q. f_equal. lia. }
    assert (El : new_location (Z.pos m) 0 = loc_Exact).
    { unfold new_location. now destruct (Z.even (Z.pos m)). }
    rewrite Ed, El. reflexivity. }
  rewrite D1. reflexivity.
Qed.

End Binary64.

(* ================================================================= *)
(** ** Facts about the Python primitives *)

Section Facts.
Context {py : Py.Python}.

Lemma truthy_true_iff (s : string) : Py.truthy s = true <-> s <> "".
Proof.
  unfold Py.truthy. destruct (String.eqb_spec s ""); simpl; split; congruence.
Qed.

Lemma truthy_false_iff (s : string) : Py.truthy s = false <-> s = "".
Proof.
  unfold Py.truthy. destruct (String.eqb_spec s ""); simpl; split; congruence.
Qed.

(** On short ASCII text [int] is the ASCII literal, whatever the bound on
    digits is. *)
Lemma int_of_ascii (s : string) :
  Py.is_ascii s = true -> (String.length s <= 640)%nat ->
  Py.int s = Py.ascii_int s.
Proof.
  intros Ha Hl. apply Py.int_ascii; [exact Ha|].
  destruct Py.max_str_digits as [m|] eqn:E; [|exact I].
  apply Py.max_str_digits_min in E. lia.
Qed.

Lemma lower_empty : Py.lower "" = "".
Proof. apply (Py.lower_ascii ""). reflexivity. Qed.

Lemma has_id_In (i : string) (l : list Student) :
  has_id i l = true <-> In i (map id l).
Proof.
  unfold has_id. rewrite existsb_exists, in_map_iff.
  split; intros [s [H1 H2]]; exists s.
  - apply String.eqb_eq in H2. auto.
  - rewrite H1, String.eqb_refl. auto.
Qed.

Lemma has_id_false (i : string) (l : list Student) :
  has_id i l = false <-> ~ In i (map id l).
Proof.
  rewrite <- has_id_In. destruct (has_id i l); split; congruence.
Qed.

Lemma positive_int_Some (text : string) (k : Z) :
  positive_int text = Some k <-> Py.int text = Some k /\ 0 < k.
Proof.
  unfold positive_int. destruct (Py.int text) as [a|].
  - destruct (Z.leb_spec a 0); split.
    + discriminate.
    + intros [E Hk]. inversion E. lia.
    + intros E. inversion E. subst. split; [reflexivity | lia].
    + intros [E _]. exact E.
  - split; [discriminate | intros [E _]; discriminate].
Qed.

Lemma positive_int_None (text : string) :
  positive_int text = None <-> ~ exists k, Py.int text = Some k /\ 0 < k.
Proof.
  split.
  - intros E [k Hk]. apply positive_int_Some in Hk. congruence.
  - intros H. destruct (positive_int text) as [k|] eqn:E; [|reflexivity].
    exfalso. apply H. exists k. apply positive_int_Some. exact E.
Qed.

(* ================================================================= *)
(** ** The log and the saves *)

Lemma saves_emit (e : Event) (st : State) :
  saves (snd (emit e st)) = (saves st + if is_save e then 1 else 0)%nat.
Proof.
  unfold saves, emit. simpl. rewrite filter_app, length_app. simpl.
  destruct (is_save e); reflexivity.
Qed.

Lemma save_students_students (w : bool) (st : State) :
  students (snd (save_students w st)) = students st.
Proof. destruct w; reflexivity. Qed.

Lemma save_students_filename (w : bool) (st : State) :
  filename (snd (save_students w st)) = filename st.
Proof. destruct w; reflexivity. Qed.

Lemma save_students_saves (w : bool) (st : State) :
  saves (snd (save_students w st)) = S (saves st).
Proof.
  destruct w; unfold saves; simpl; rewrite !filter_app, !length_app; simpl; lia.
Qed.

Lemma save_students_files (st : State) :
  files (snd (save_students true st)) =
  write (filename st) (FJson (JList (map to_dict (students st)))) (files st).
Proof. reflexivity. Qed.

Lemma save_students_failed (st : State) :
  files (snd (save_students false st)) = files st.
Proof. reflexivity. Qed.

(* ================================================================= *)
(** ** Add *)

(** [add_student] in closed form when it goes through. *)
Lemma add_student_true (w : bool) (i n a g : string) (st : State) :
  fst (add_student w i n a g st) = true ->
  exists k,
    i <> "" /\ n <> "" /\ g <> "" /\ ~ In i (map id (students st)) /\
    positive_int a = Some k /\
    snd (add_student w i n a g st) =
    snd (save_students w
           (snd (put_students (students st ++ [mkStudent i n k g]) st))).
Proof.
  unfold add_student.
  destruct (Py.truthy i) eqn:Ti; simpl; [|discriminate].
  destruct (Py.truthy n) eqn:Tn; simpl; [|discriminate].
  destruct (Py.truthy g) eqn:Tg; simpl; [|discriminate].
  unfold bind, get_students. simpl.
  destruct (has_id i (students st)) eqn:Hi; simpl; [discriminate|].
  destruct (positive_int a) as [k|] eqn:Ha; simpl; [|discriminate].
  intros _. exists k. apply truthy_true_iff in Ti, Tn, Tg.
  apply has_id_false in Hi. destruct w; repeat split; auto.
Qed.

Lemma add_student_false (w : bool) (i n a g : string) (st : State) :
  fst (add_student w i n a g st) = false ->
  students (snd (add_student w i n a g st)) = students st /\
  files (snd (add_student w i n a g st)) = files st /\
  saves (snd (add_student w i n a g st)) = saves st.
Proof.
  unfold add_student.
  destruct (Py.truthy i); simpl;
    [|unfold saves; simpl; rewrite filter_app, length_app; simpl;
      repeat split; lia].
  destruct (Py.truthy n); simpl;
    [|unfold saves; simpl; rewrite filter_app, length_app; simpl;
      repeat split; lia].
  destruct (Py.truthy g); simpl;
    [|unfold saves; simpl; rewrite filter_app, length_app; simpl;
      repeat split; lia].
  unfold bind, get_students. simpl.
  destruct (has_id i (students st)); simpl;
    [unfold saves; simpl; rewrite filter_app, length_app; simpl;
     repeat split; lia|].
  destruct (positive_int a); simpl;
    [destruct w; discriminate|].
  unfold saves. simpl. rewrite filter_app, length_app. simpl.
  repeat split; lia.
Qed.

(** The ages of the specification's examples, whatever the library is
    beyond ASCII: [int] refuses [abc], reads [0] and [-5], which are not
    positive, and reads [7]. *)
Lemma positive_int_examples :
  positive_int "0" = None /\ positive_int "-5" = None /\
  positive_int "abc" = None /\ positive_int "7" = Some 7.
Proof.
  unfold positive_int.
  rewrite !int_of_ascii by (try reflexivity; simpl; lia).
  repeat split.
Qed.

(** C2.  [add_student] returns [False] exactly when the id, the name or the
    grade is empty, the id is taken, or the age text is no positive integer.
    Then one error is reported, the collection and the files stay and
    [save_students] is not called.  Otherwise the record, with the parsed
    age, is appended at the end and [save_students] is called once, which
    writes the new collection when the file can be written.  The age text
    is read by [int]: with the age texts [0], [-5] and [abc] of the
    specification's examples the add is refused, and with [7] a record
    that is in order is stored with the integer 7 for its age. *)
Theorem add_student_spec (w : bool) (i n a g : string) (st : State) :
  match add_student w i n a g st with
  | (false, st') =>
      add_refused i n a g (students st) /\
      students st' = students st /\ files st' = files st /\
      saves st' = saves st /\
      exists msg, log st' = log st ++ [ShowError "Error" msg]
  | (true, st') =>
      ~ add_refused i n a g (students st) /\
      (exists k, Py.int a = Some k /\ 0 < k /\
                 students st' = students st ++ [mkStudent i n k g]) /\
      saves st' = S (saves st) /\
      files st' =
        if w then write (filename st)
                        (FJson (JList (map to_dict (students st')))) (files st)
        else files st
  end /\
  (forall bad, In bad ["0"; "-5"; "abc"] ->
               fst (add_student w i n bad g st) = false) /\
  (i <> "" -> n <> "" -> g <> "" -> ~ In i (map id (students st)) ->
   add_student w i n "7" g st =
   (true, snd (save_students w
                 (snd (put_students (students st ++ [mkStudent i n 7 g]) st))))).
Proof.
  destruct positive_int_examples as (E0 & E5 & Eabc & E7).
  split; [|split].
  2:{ intros bad Hb.
      destruct (fst (add_student w i n bad g st)) eqn:E; [|reflexivity].
      destruct (add_student_true w i n bad g st E)
        as (k & _ & _ & _ & _ & Hk & _).
      simpl in Hb. destruct Hb as [<-|[<-|[<-|[]]]]; congruence. }
  2:{ intros Hi Hn Hg Hin. unfold add_student.
      apply truthy_true_iff in Hi, Hn, Hg. rewrite Hi, Hn, Hg.
      cbn [negb orb]. unfold bind, get_students.
      apply has_id_false in Hin. rewrite Hin, E7. now destruct w. }
  unfold add_student, add_refused.
  destruct (Py.truthy i) eqn:Ti; simpl.
  2:{ apply truthy_false_iff in Ti. unfold saves. simpl.
      rewrite filter_app, length_app. simpl.
      repeat split; eauto; lia. }
  destruct (Py.truthy n) eqn:Tn; simpl.
  2:{ apply truthy_false_iff in Tn. unfold saves. simpl.
      rewrite filter_app, length_app. simpl.
      repeat split; eauto; lia. }
  destruct (Py.truthy g) eqn:Tg; simpl.
  2:{ apply truthy_false_iff in Tg. unfold saves. simpl.
      rewrite filter_app, length_app. simpl.
      repeat split; eauto; lia. }
  apply truthy_true_iff in Ti, Tn, Tg.
  unfold bind, get_students. simpl.
  destruct (has_id i (students st)) eqn:Hi; simpl.
  { apply has_id_In in Hi. unfold saves. simpl.
    rewrite filter_app, length_app. simpl.
    repeat split; eauto 6; lia. }
  apply has_id_false in Hi.
  destruct (positive_int a) as [k|] eqn:Ha; simpl.
  - apply positive_int_Some in Ha. destruct Ha as [Ha Hk].
    destruct w; unfold saves; simpl;
      rewrite ?filter_app, ?length_app; simpl.
    + repeat split; try lia; eauto.
      intros [H|[H|[H|[H|H]]]]; try contradiction. apply H. eauto.
    + repeat split; try lia; eauto.
      intros [H|[H|[H|[H|H]]]]; try contradiction. apply H. eauto.
  - apply positive_int_None in Ha. unfold saves. simpl.
    rewrite filter_app, length_app. simpl.
    repeat split; eauto 7; lia.
Qed.

(* ================================================================= *)
(** ** The loops of update and delete *)

Lemma assign_if_id (x : option string) (s : Student) :
  id (assign_if x set_name s) = id s /\ id (assign_if x set_grade s) = id s.
Proof.
  unfold assign_if. destruct x as [v|]; [destruct (Py.truthy v)|]; auto.
Qed.

Lemma assign_if_age (x : option string) (s : Student) :
  age (assign_if x set_name s) = age s /\ age (assign_if x set_grade s) = age s.
Proof.
  unfold assign_if. destruct x as [v|]; [destruct (Py.truthy v)|]; auto.
Qed.

Lemma update_record_id (n a g : option string) (s : Student) :
  id (fst (update_record n a g s)) = id s.
Proof.
  unfold update_record.
  destruct a as [a|]; [destruct (Py.truthy a); [destruct (positive_int a)|]|];
    simpl; repeat (rewrite ?(proj1 (assign_if_id _ _)), ?(proj2 (assign_if_id _ _)); simpl);
    reflexivity.
Qed.

Lemma update_record_age (n a g : option string) (s : Student) :
  0 < age s -> 0 < age (fst (update_record n a g s)).
Proof.
  intros Hs. unfold update_record.
  destruct a as [a|]; [destruct (Py.truthy a); [destruct (positive_int a) as [k|] eqn:E|]|];
    simpl; repeat (rewrite ?(proj1 (assign_if_age _ _)), ?(proj2 (assign_if_age _ _)); simpl);
    try assumption.
  apply positive_int_Some in E. apply E.
Qed.

Lemma update_first_ids (i : string) (body : Student -> Student * bool)
  (l l' : list Student) (ok : bool) :
  (forall s, id (fst (body s)) = id s) ->
  update_first i body l = Some (l', ok) -> map id l' = map id l.
Proof.
  intros Hb. revert l' ok. induction l as [|s r IH]; intros l' ok; simpl.
  - discriminate.
  - destruct (id s =? i)%string.
    + specialize (Hb s). destruct (body s) as [s' b]. intros E. inversion E.
      subst. simpl in *. now rewrite Hb.
    + destruct (update_first i body r) as [[r' b]|]; [|discriminate].
      intros E. inversion E. subst. simpl. now rewrite (IH r' ok).
Qed.

Lemma update_first_Forall (P : Student -> Prop) (i : string)
  (body : Student -> Student * bool) (l l' : list Student) (ok : bool) :
  (forall s, P s -> P (fst (body s))) ->
  Forall P l -> update_first i body l = Some (l', ok) -> Forall P l'.
Proof.
  intros Hb Hl. revert l' ok. induction Hl as [|s r Hs Hr IH]; intros l' ok; simpl.
  - discriminate.
  - destruct (id s =? i)%string.
    + specialize (Hb s Hs). destruct (body s) as [s' b]. intros E. inversion E.
      subst. constructor; assumption.
    + destruct (update_first i body r) as [[r' b]|]; [|discriminate].
      intros E. inversion E. subst. constructor; [assumption | eapply IH; eauto].
Qed.

Lemma update_first_None (i : string) (body : Student -> Student * bool)
  (l : list Student) :
  update_first i body l = None <-> ~ In i (map id l).
Proof.
  induction l as [|s r IH]; simpl.
  - tauto.
  - destruct (String.eqb_spec (id s) i) as [E|E].
    + destruct (body s). split; [discriminate | tauto].
    + destruct (update_first i body r) as [[r' b]|].
      * split; [discriminate|]. intros H. exfalso. apply H. right.
        destruct (in_dec string_dec i (map id r)) as [Hin|Hin]; [assumption|].
        apply IH in Hin. discriminate.
      * split; [|reflexivity]. intros _ [H|H]; [congruence|].
        apply (proj1 IH); auto.
Qed.

(** [remove_first] splits the list at the first record with the id. *)
Lemma remove_first_Some (i : string) (l l' : list Student) :
  remove_first i l = Some l' ->
  exists before s after,
    l = before ++ s :: after /\ id s = i /\ ~ In i (map id before) /\
    l' = before ++ after.
Proof.
  revert l'. induction l as [|s r IH]; intros l'; simpl.
  - discriminate.
  - destruct (String.eqb_spec (id s) i) as [E|E].
    + intros H. inversion H. subst l'. exists [], s, r. simpl. auto.
    + destruct (remove_first i r) as [r'|]; simpl; [|discriminate].
      intros H. inversion H. subst l'.
      destruct (IH r' eq_refl) as (b & x & a & H1 & H2 & H3 & H4).
      exists (s :: b), x, a. subst. simpl. repeat split; auto.
      intros [H'|H']; auto.
Qed.

Lemma remove_first_None (i : string) (l : list Student) :
  remove_first i l = None <-> ~ In i (map id l).
Proof.
  induction l as [|s r IH]; simpl.
  - tauto.
  - destruct (String.eqb_spec (id s) i) as [E|E].
    + split; [discriminate | tauto].
    + destruct (remove_first i r) as [r'|]; simpl.
      * split; [discriminate|]. intros H. exfalso. apply H. right.
        destruct (in_dec string_dec i (map id r)) as [Hin|Hin]; [assumption|].
        apply IH in Hin. discriminate.
      * split; [|reflexivity]. intros _ [H|H]; [congruence|].
        apply (proj1 IH); auto.
Qed.

Lemma valid_collection_remove (before after : list Student) (s : Student) :
  valid_collection (before ++ s :: after) -> valid_collection (before ++ after).
Proof.
  unfold valid_collection. rewrite !map_app, !Forall_app. simpl.
  intros [Hn (Hb & Ha)]. split.
  - eapply NoDup_remove_1. exact Hn.
  - split; [assumption | now inversion Ha].
Qed.

Lemma valid_collection_add (l : list Student) (s : Student) :
  valid_collection l -> ~ In (id s) (map id l) -> valid_record s ->
  valid_collection (l ++ [s]).
Proof.
  unfold valid_collection. intros [Hn Hf] Hi Hs. rewrite map_app, Forall_app.
  simpl. split.
  - apply NoDup_rev in Hn. rewrite <- (rev_involutive (map id l ++ [id s])).
    apply NoDup_rev. rewrite rev_app_distr. simpl. constructor; [|assumption].
    now rewrite <- in_rev.
  - split; [assumption | constructor; auto].
Qed.

(* ================================================================= *)
(** ** The invariant *)

Lemma add_student_valid (w : bool) (i n a g : string) (st : State) :
  valid_collection (students st) ->
  valid_collection (students (snd (add_student w i n a g st))).
Proof.
  intros Hv. unfold add_student.
  destruct (Py.truthy i) eqn:Ti; simpl; [|exact Hv].
  destruct (Py.truthy n); simpl; [|exact Hv].
  destruct (Py.truthy g); simpl; [|exact Hv].
  unfold bind, get_students. simpl.
  destruct (has_id i (students st)) eqn:Hi; simpl; [exact Hv|].
  destruct (positive_int a) as [k|] eqn:Ha; simpl; [|exact Hv].
  assert (Hnew : valid_collection (students st ++ [mkStudent i n k g])).
  { apply valid_collection_add; [exact Hv | now apply has_id_false |].
    split; simpl.
    - now apply truthy_true_iff.
    - apply positive_int_Some in Ha. apply Ha. }
  destruct w; simpl; exact Hnew.
Qed.

Lemma update_student_valid (w : bool) (i : string) (n a g : option string)
  (st : State) :
  valid_collection (students st) ->
  valid_collection (students (snd (update_student w i n a g st))).
Proof.
  intros [Hn Hf]. unfold update_student, bind, get_students. simpl.
  destruct (update_first i (update_record n a g) (students st))
    as [[l' ok]|] eqn:E; [|simpl; split; assumption].
  assert (Hv : valid_collection l').
  { split.
    - rewrite (update_first_ids _ _ _ _ _ (update_record_id n a g) E). exact Hn.
    - eapply update_first_Forall; [|exact Hf|exact E].
      intros s [H1 H2]. split.
      + now rewrite update_record_id.
      + now apply update_record_age. }
  destruct ok; [destruct w|]; simpl; exact Hv.
Qed.

Lemma delete_student_valid (w : bool) (i : string) (st : State) :
  valid_collection (students st) ->
  valid_collection (students (snd (delete_student w i st))).
Proof.
  intros Hv. unfold delete_student, bind, get_students. simpl.
  destruct (remove_first i (students st)) as [l'|] eqn:E; simpl; [|exact Hv].
  destruct (remove_first_Some _ _ _ E) as (b & s & a & H1 & _ & _ & H4).
  subst l'. rewrite H1 in Hv. apply valid_collection_remove in Hv.
  destruct w; simpl; exact Hv.
Qed.

Lemma step_valid (o : Op) (st : State) :
  valid_collection (students st) ->
  valid_collection (students (snd (step o st))).
Proof.
  destruct o; simpl.
  - apply add_student_valid.
  - apply update_student_valid.
  - apply delete_student_valid.
Qed.

(** C1.  From a collection whose ids are non-empty and pairwise different
    and whose ages are positive, every state between the operations of a
    sequence of adds, updates and deletes holds such a collection again. *)
Theorem invariant_preserved (ops : list Op) (st : State) :
  valid_collection (students st) ->
  Forall (fun st' => valid_collection (students st')) (states ops st).
Proof.
  revert st. induction ops as [|o r IH]; intros st Hv; simpl.
  - constructor; [assumption | constructor].
  - constructor; [assumption|]. apply IH. now apply step_valid.
Qed.

Lemma valid_collection_nil : valid_collection [].
Proof. split; constructor. Qed.

(* ================================================================= *)
(** ** Update *)

(** C3, at an input.  The name is assigned before the age is looked at:
    with a new name and the age text [abc], [update_student] returns
    [False] without a save, and the record has the new name. *)
Theorem update_student_bad_age_renames :
  let r := update_student true "s1" (Some "Bob") (Some "abc") (Some "B")
             (with_students [alice]) in
  fst r = false /\
  students (snd r) = [mkStudent "s1" "Bob" 20 "A"] /\
  students (snd r) <> students (with_students [alice]) /\
  saves (snd r) = 0%nat /\
  log (snd r) = [ShowError "Error" "Age must be a positive integer!"].
Proof.
  assert (E : positive_int "abc" = None).
  { unfold positive_int. rewrite int_of_ascii by (try reflexivity; simpl; lia).
    reflexivity. }
  unfold update_student, bind, get_students. cbn -[positive_int].
  rewrite E. cbn. repeat split. discriminate.
Qed.

(** When the age text is refused, [update_student] returns [False], does
    not save, and leaves the collection as it was but for the name of the
    record found, which is the new one when a name was given. *)
Lemma update_student_bad_age (w : bool) (i a : string) (n g : option string)
  (st : State) :
  In i (map id (students st)) -> Py.truthy a = true -> positive_int a = None ->
  let r := update_student w i n (Some a) g st in
  fst r = false /\
  update_first i (fun s => (assign_if n set_name s, false)) (students st)
    = Some (students (snd r), false) /\
  files (snd r) = files st /\ saves (snd r) = saves st.
Proof.
  intros Hin Ht Ha. unfold update_student, bind, get_students. simpl.
  assert (E : update_first i (update_record n (Some a) g) (students st) =
              update_first i (fun s => (assign_if n set_name s, false)) (students st)).
  { induction (students st) as [|s r IH]; simpl; [reflexivity|].
    destruct (id s =? i)%string eqn:Es.
    - unfold update_record. now rewrite Ht, Ha.
    - rewrite IH; [reflexivity|]. simpl in Hin. destruct Hin as [H|H]; [|exact H].
      apply String.eqb_neq in Es. congruence. }
  rewrite E. clear E.
  destruct (update_first i _ (students st)) as [[l' ok]|] eqn:E.
  - assert (ok = false).
    { clear Hin. revert l' ok E. induction (students st) as [|s r IH]; simpl; intros l' ok.
      - discriminate.
      - destruct (id s =? i)%string.
        + intros H. now inversion H.
        + destruct (update_first i _ r) as [[r' b]|]; [|discriminate].
          intros H. inversion H. subst. eapply IH. reflexivity. }
    subst ok. simpl. unfold saves. simpl. rewrite filter_app, length_app. simpl.
    repeat split. lia.
  - apply update_first_None in E. contradiction.
Qed.

(* ================================================================= *)
(** ** Delete *)

(** C4.  [delete_student] returns [False] when no record has the id: the
    collection and the files stay and there is no save.  Otherwise the
    collection splits at the first record with the id, that record goes,
    the others stay in their order, the count drops by one and
    [save_students] is called once. *)
Theorem delete_student_spec (w : bool) (i : string) (st : State) :
  match delete_student w i st with
  | (false, st') =>
      ~ In i (map id (students st)) /\
      students st' = students st /\ files st' = files st /\
      saves st' = saves st /\
      log st' = log st ++ [ShowError "Error" "Student not found!"]
  | (true, st') =>
      (exists before s after,
          students st = before ++ s :: after /\
          id s = i /\ ~ In i (map id before) /\
          students st' = before ++ after) /\
      S (List.length (students st')) = List.length (students st) /\
      saves st' = S (saves st) /\
      files st' =
        if w then write (filename st)
                        (FJson (JList (map to_dict (students st')))) (files st)
        else files st
  end.
Proof.
  unfold delete_student, bind, get_students. simpl.
  destruct (remove_first i (students st)) as [l'|] eqn:E.
  - destruct (remove_first_Some _ _ _ E) as (b & s & a & H1 & H2 & H3 & H4).
    assert (Hlen : S (List.length l') = List.length (students st)).
    { rewrite H1, H4, !length_app. simpl. lia. }
    destruct w; unfold saves; simpl; rewrite ?filter_app, ?length_app; simpl.
    + repeat split; try lia; eauto 8.
    + repeat split; try lia; eauto 8.
  - apply remove_first_None in E. unfold saves. simpl.
    rewrite filter_app, length_app. simpl. repeat split; auto; lia.
Qed.

(* ================================================================= *)
(** ** Clear all *)

(** C10.  When the answer to the dialog is no, [clear_all_students] returns
    [False] and nothing changes: the collection, the files and the log are
    the same.  When it is yes, the collection is emptied, [save_students]
    is called once and the result is [True]. *)
Theorem clear_all_students_spec (w answer : bool) (st : State) :
  match answer with
  | false => clear_all_students w false st = (false, st)
  | true =>
      let r := clear_all_students w true st in
      fst r = true /\ students (snd r) = [] /\
      saves (snd r) = S (saves st) /\
      files (snd r) =
        if w then write (filename st) (FJson (JList [])) (files st)
        else files st
  end.
Proof.
  destruct answer; [|reflexivity].
  destruct w; unfold saves; simpl; rewrite ?filter_app, ?length_app; simpl;
    repeat split; lia.
Qed.

(* ================================================================= *)
(** ** The stable sort *)

Section SortFacts.
Context {A K : Type} (key : A -> K) (leb : K -> K -> bool).
Hypothesis leb_total : forall a b, leb a b = true \/ leb b a = true.
Hypothesis leb_trans :
  forall a b c, leb a b = true -> leb b c = true -> leb a c = true.

Lemma insert_perm (x : A) (l : list A) :
  Permutation (x :: l) (Py.insert key leb x l).
Proof.
  induction l as [|y r IH]; simpl.
  - apply Permutation_refl.
  - destruct (leb (key x) (key y)).
    + apply Permutation_refl.
    + eapply perm_trans; [apply perm_swap|]. now apply perm_skip.
Qed.

Lemma sort_perm (l : list A) : Permutation l (Py.sort key leb l).
Proof.
  induction l as [|x r IH]; simpl.
  - constructor.
  - eapply perm_trans; [apply perm_skip, IH | apply insert_perm].
Qed.

Lemma insert_sorted (x : A) (l : list A) :
  StronglySorted (Py.le_by key leb) l ->
  StronglySorted (Py.le_by key leb) (Py.insert key leb x l).
Proof.
  induction 1 as [|y r Hr IH Hy]; simpl.
  - repeat constructor.
  - destruct (leb (key x) (key y)) eqn:E.
    + constructor; [constructor; assumption|].
      constructor; [exact E|].
      rewrite Forall_forall in *. intros z Hz. unfold Py.le_by.
      eapply leb_trans; [exact E | apply Hy, Hz].
    + constructor; [assumption|].
      apply (Permutation_Forall (insert_perm x r)).
      constructor; [|assumption].
      unfold Py.le_by. destruct (leb_total (key x) (key y)); congruence.
Qed.

Lemma sort_sorted (l : list A) :
  StronglySorted (Py.le_by key leb) (Py.sort key leb l).
Proof.
  induction l as [|x r IH]; simpl.
  - constructor.
  - now apply insert_sorted.
Qed.

(** Records that pairwise tie keep their order. *)
Section Stable.
Variable p : A -> bool.
Hypothesis p_ties :
  forall x y, p x = true -> p y = true -> leb (key x) (key y) = true.

Lemma insert_filter (x : A) (l : list A) :
  filter p (Py.insert key leb x l) = filter p (x :: l).
Proof.
  induction l as [|y r IH]; simpl.
  - reflexivity.
  - destruct (leb (key x) (key y)) eqn:E; simpl.
    + reflexivity.
    + rewrite IH. simpl.
      destruct (p x) eqn:Px, (p y) eqn:Py; try reflexivity.
      rewrite (p_ties x y Px Py) in E. discriminate.
Qed.

Lemma sort_filter (l : list A) :
  filter p (Py.sort key leb l) = filter p l.
Proof.
  induction l as [|x r IH]; simpl.
  - reflexivity.
  - rewrite insert_filter. simpl. now rewrite IH.
Qed.
End Stable.

(** A stable sort has one result: a list with the same elements, in the
    order of the keys, whose tied elements are in the order they had, is
    the list [Py.sort] returns.  So [Py.sort] stands for any stable sort,
    the one of [list.sort] included. *)
Section Unique.
Variable tie : A -> A -> bool.
Hypothesis tie_spec :
  forall x y, tie x y = true <->
              leb (key x) (key y) = true /\ leb (key y) (key x) = true.

Lemma leb_refl (a : K) : leb a a = true.
Proof. destruct (leb_total a a); assumption. Qed.

Lemma sorted_head_le (x y : A) (r : list A) :
  StronglySorted (Py.le_by key leb) (x :: r) -> In y (x :: r) ->
  leb (key x) (key y) = true.
Proof.
  intros Hs [<-|Hy].
  - apply leb_refl.
  - inversion Hs as [|? ? _ Hf]. subst. rewrite Forall_forall in Hf.
    now apply Hf.
Qed.

Lemma sorted_stable_unique (l1 l2 : list A) :
  Permutation l1 l2 ->
  StronglySorted (Py.le_by key leb) l1 ->
  StronglySorted (Py.le_by key leb) l2 ->
  (forall s, filter (tie s) l1 = filter (tie s) l2) ->
  l1 = l2.
Proof.
  revert l2. induction l1 as [|x r1 IH]; intros l2 Hp S1 S2 Hf.
  - apply Permutation_nil in Hp. now subst.
  - destruct l2 as [|y r2].
    { apply Permutation_sym, Permutation_nil in Hp. discriminate. }
    assert (Hxy : leb (key x) (key y) = true).
    { apply (sorted_head_le x y r1 S1).
      apply (Permutation_in y (Permutation_sym Hp)). now left. }
    assert (Hyx : leb (key y) (key x) = true).
    { apply (sorted_head_le y x r2 S2).
      apply (Permutation_in x Hp). now left. }
    assert (E : x = y).
    { specialize (Hf x). simpl in Hf.
      rewrite (proj2 (tie_spec x x)) in Hf by (split; apply leb_refl).
      rewrite (proj2 (tie_spec x y)) in Hf by (split; assumption).
      now inversion Hf. }
    subst y. f_equal. apply IH.
    + eapply Permutation_cons_inv. exact Hp.
    + now inversion S1.
    + now inversion S2.
    + intros s. specialize (Hf s). simpl in Hf.
      destruct (tie s x); [now inversion Hf | exact Hf].
Qed.

Lemma sort_unique (l l' : list A) :
  Permutation l l' ->
  StronglySorted (Py.le_by key leb) l' ->
  (forall s, filter (tie s) l' = filter (tie s) l) ->
  l' = Py.sort key leb l.
Proof.
  intros Hp Hs Hf. apply sorted_stable_unique.
  - eapply perm_trans; [apply Permutation_sym, Hp | apply sort_perm].
  - exact Hs.
  - apply sort_sorted.
  - intros s. rewrite Hf. symmetry. apply sort_filter.
    intros x y Hx Hy. apply tie_spec in Hx, Hy.
    eapply leb_trans; [apply Hx | apply Hy].
Qed.
End Unique.
End SortFacts.

(** The order of strings. *)
Lemma string_leb_iff (a b : string) :
  String.leb a b = true <-> a = b \/ OrderedTypeEx.String_as_OT.lt a b.
Proof.
  unfold String.leb. destruct (String.compare a b) eqn:E.
  - apply OrderedTypeEx.String_as_OT.cmp_eq in E. tauto.
  - apply OrderedTypeEx.String_as_OT.cmp_lt in E. tauto.
  - split; [discriminate|]. intros [H|H].
    + apply OrderedTypeEx.String_as_OT.cmp_eq in H. unfold OrderedTypeEx.String_as_OT.cmp in H. congruence.
    + apply OrderedTypeEx.String_as_OT.cmp_lt in H. unfold OrderedTypeEx.String_as_OT.cmp in H. congruence.
Qed.


Lemma string_leb_trans (a b c : string) :
  String.leb a b = true -> String.leb b c = true -> String.leb a c = true.
Proof.
  rewrite !string_leb_iff. intros [H1|H1] [H2|H2]; subst; auto.
  right. eapply OrderedTypeEx.String_as_OT.lt_trans; eassumption.
Qed.

Lemma Z_leb_total (a b : Z) : (a <=? b) = true \/ (b <=? a) = true.
Proof. rewrite !Z.leb_le. lia. Qed.

Lemma Z_leb_trans (a b c : Z) :
  (a <=? b) = true -> (b <=? c) = true -> (a <=? c) = true.
Proof. rewrite !Z.leb_le. lia. Qed.

(* ================================================================= *)
(** ** View *)

Lemma view_students_None (st : State) :
  view_students None st = (students st, st).
Proof. reflexivity. Qed.





(* ================================================================= *)
(** ** Search *)

Lemma starts_with_iff (q s : string) :
  Py.starts_with q s = true <-> exists post, s = (q ++ post)%string.
Proof.
  revert s. induction q as [|a q IH]; intros s; simpl.
  - split; [intros _; now exists s | reflexivity].
  - destruct s as [|b s].
    + split; [discriminate | intros [post H]; discriminate].
    + rewrite andb_true_iff, Ascii.eqb_eq, IH. split.
      * intros [-> [post ->]]. now exists post.
      * intros [post H]. inversion H. split; [reflexivity | now exists post].
Qed.

Lemma contains_iff (q s : string) :
  Py.contains q s = true <->
  exists pre post, s = (pre ++ q ++ post)%string.
Proof.
  induction s as [|c s IH]; simpl.
  - rewrite orb_false_r, starts_with_iff. split.
    + intros [post H]. now exists "", post.
    + intros [pre [post H]]. destruct pre; [now exists post | discriminate].
  - rewrite orb_true_iff, IH.
    pose proof (starts_with_iff q (String c s)) as Hs. simpl in Hs.
    rewrite Hs. clear Hs. split.
    + intros [[post H]|[pre [post H]]].
      * now exists "", post.
      * exists (String c pre), post. simpl. now rewrite H.
    + intros [[|c' pre] [post H]]; simpl in H.
      * left. now exists post.
      * right. inversion H. now exists pre, post.
Qed.

Lemma contains_empty (s : string) : Py.contains "" s = true.
Proof. destruct s; reflexivity. Qed.

Lemma lower_app (a b : string) :
  Py.ascii_lower (a ++ b)%string = (Py.ascii_lower a ++ Py.ascii_lower b)%string.
Proof. induction a as [|c a IH]; simpl; [reflexivity | now rewrite IH]. Qed.

Lemma lower_split (s x y : string) :
  Py.ascii_lower s = (x ++ y)%string ->
  exists s1 s2,
    s = (s1 ++ s2)%string /\ Py.ascii_lower s1 = x /\ Py.ascii_lower s2 = y.
Proof.
  revert s. induction x as [|c x IH]; intros s H; simpl in H.
  - now exists "", s.
  - destruct s as [|d s]; [discriminate|]. simpl in H. injection H as Hc Hs.
    destruct (IH s Hs) as (s1 & s2 & -> & <- & <-).
    exists (String d s1), s2. simpl. rewrite Hc. auto.
Qed.

Lemma is_ascii_app (a b : string) :
  Py.is_ascii (a ++ b)%string = Py.is_ascii a && Py.is_ascii b.
Proof.
  induction a as [|c a IH]; simpl; [reflexivity|].
  now rewrite IH, andb_assoc.
Qed.

(** [q.lower() in s.lower()] *)
Lemma contains_lower_iff (q s : string) :
  Py.contains (Py.lower q) (Py.lower s) = true <-> lowered_in q s.
Proof. apply contains_iff. Qed.

(** On ASCII text the lower-case form of [q] occurs in the one of [s]
    exactly when [q] occurs in [s] whatever the case. *)
Lemma lowered_in_ascii (q s : string) :
  Py.is_ascii q = true -> Py.is_ascii s = true ->
  lowered_in q s <-> ci_substring q s.
Proof.
  intros Hq Hs. unfold lowered_in, ci_substring, ci_equal.
  rewrite (Py.lower_ascii q Hq), (Py.lower_ascii s Hs). split.
  - intros (a & b & H).
    apply lower_split in H. destruct H as (pre & rest & -> & _ & H).
    apply lower_split in H. destruct H as (mid & post & -> & Hm & _).
    exists pre, mid, post. split; [reflexivity|].
    rewrite !is_ascii_app, !andb_true_iff in Hs.
    now rewrite (Py.lower_ascii mid) by tauto.
  - intros (pre & mid & post & -> & Hm).
    rewrite !is_ascii_app, !andb_true_iff in Hs.
    rewrite (Py.lower_ascii mid) in Hm by tauto.
    exists (Py.ascii_lower pre), (Py.ascii_lower post).
    now rewrite !lower_app, Hm.
Qed.

Lemma matches_iff (q : string) (s : Student) :
  matches (Py.lower q) s = true <->
  lowered_in q (id s) \/ lowered_in q (name s).
Proof.
  unfold matches. now rewrite orb_true_iff, !contains_lower_iff.
Qed.

(** C6, amended.  [search_students] returns the records of the
    collection, in the stored order, for which the lower-case form of the
    query occurs in the lower-case form of the id or of the name, and no
    others; the store is left as it was.  When the query, the id and the
    name are ASCII text, these are the records whose id or name holds the
    query whatever the case of the letters. *)
Theorem search_students_spec (query : string) (st : State) :
  snd (search_students query st) = st /\
  exists keep : Student -> bool,
    fst (search_students query st) = filter keep (students st) /\
    (forall s, keep s = true <->
               lowered_in query (id s) \/ lowered_in query (name s)) /\
    (Py.is_ascii query = true ->
     forall s, Py.is_ascii (id s) = true -> Py.is_ascii (name s) = true ->
               (keep s = true <->
                ci_substring query (id s) \/ ci_substring query (name s))).
Proof.
  split; [reflexivity|].
  exists (matches (Py.lower query)). split; [reflexivity|]. split.
  - intros s. apply matches_iff.
  - intros Hq s Hi Hn.
    rewrite matches_iff, (lowered_in_ascii _ _ Hq Hi), (lowered_in_ascii _ _ Hq Hn).
    reflexivity.
Qed.

(** C9.  With the empty query [search_students] returns the whole
    collection in the stored order, as [view_students] without a sort key
    does, and leaves the store as it was. *)
Theorem search_students_empty (st : State) :
  fst (search_students "" st) = students st /\
  fst (search_students "" st) = fst (view_students None st) /\
  snd (search_students "" st) = st.
Proof.
  assert (H : fst (search_students "" st) = students st).
  { unfold search_students, bind, get_students, ret. cbn [fst snd].
    rewrite lower_empty.
    induction (students st) as [|s r IH]; simpl; [reflexivity|].
    unfold matches at 1. rewrite contains_empty. simpl. now rewrite IH. }
  repeat split; exact H.
Qed.

(* ================================================================= *)
(** ** Save and load *)

Lemma student_of_dict_to_dict (s : Student) :
  student_of_dict (to_dict s) = Made s.
Proof. destruct s. reflexivity. Qed.

Lemma students_of_list_to_dict (l : list Student) :
  students_of_list (map to_dict l) = Made l.
Proof.
  induction l as [|s r IH]; cbn [students_of_list map]; [reflexivity|].
  now rewrite student_of_dict_to_dict, IH.
Qed.

Lemma write_same (path : string) (f : File) (fs : string -> option File) :
  write path f fs path = Some f.
Proof. unfold write. now rewrite String.eqb_refl. Qed.

Lemma write_other (path p : string) (f : File) (fs : string -> option File) :
  p <> path -> write path f fs p = fs p.
Proof. unfold write. intros H. apply String.eqb_neq in H. now rewrite H. Qed.


(* ================================================================= *)
(** ** Export *)

Lemma progress_values_app (a b : list Event) :
  progress_values (a ++ b) = progress_values a ++ progress_values b.
Proof.
  induction a as [|e r IH]; simpl; [reflexivity|].
  destruct (progress_of e); simpl; now rewrite IH.
Qed.

Lemma progress_values_map (f : nat -> Py.float) (l : list nat) :
  progress_values (map (fun i => Progress (f i)) l) = map f l.
Proof. induction l as [|x r IH]; simpl; [reflexivity | now rewrite IH]. Qed.

Ltac nat_cases :=
  repeat match goal with
  | |- context [(?a <? ?b)%nat] => destruct (Nat.ltb_spec a b)
  | |- context [(?a <=? ?b)%nat] => destruct (Nat.leb_spec a b)
  end.

Ltac arith_pair :=
  split; first [reflexivity | lia | exfalso; lia].

Lemma loop_done_nil (f : Fault) (i : nat) :
  loop_done f i 0 = 0%nat /\ loop_ends f i 0 = true.
Proof.
  destruct f as [| |k|k]; cbn [loop_done loop_ends]; auto; nat_cases;
    cbn [andb negb]; arith_pair.
Qed.

Lemma loop_done_stop (f : Fault) (i m : nat) :
  write_fails f (S i) = true ->
  loop_done f i (S m) = 0%nat /\ loop_ends f i (S m) = false.
Proof.
  destruct f as [| |k|k]; cbn [write_fails loop_done loop_ends];
    try discriminate.
  intros H. apply Nat.eqb_eq in H. subst k. nat_cases; cbn [andb negb];
    arith_pair.
Qed.

Lemma loop_done_call (f : Fault) (i m : nat) :
  write_fails f (S i) = false -> callback_fails f i = true ->
  loop_done f i (S m) = 1%nat /\ loop_ends f i (S m) = false.
Proof.
  destruct f as [| |k|k]; cbn [write_fails callback_fails loop_done loop_ends];
    try discriminate.
  intros _ H. apply Nat.eqb_eq in H. subst k. nat_cases; cbn [andb negb];
    arith_pair.
Qed.

Lemma loop_done_next (f : Fault) (i m : nat) :
  write_fails f (S i) = false -> callback_fails f i = false ->
  loop_done f i (S m) = S (loop_done f (S i) m) /\
  loop_ends f i (S m) = loop_ends f (S i) m.
Proof.
  destruct f as [| |k|k]; cbn [write_fails callback_fails loop_done loop_ends];
    auto; intros H1 H2;
    try apply Nat.eqb_neq in H1; try apply Nat.eqb_neq in H2;
    nat_cases; cbn [andb negb]; arith_pair.
Qed.

(** The loop of the export: it writes the rows of the first records and
    makes one call per row, up to where it is interrupted. *)
Lemma export_loop_spec (path : string) (f : Fault) (n : nat) (l : list Student) :
  forall (i : nat) (rows : list (list cell)) (st : State),
    files st path = Some (FCsv rows) ->
    let r := export_loop path f n i l st in
    let d := loop_done f i (List.length l) in
    fst r = loop_ends f i (List.length l) /\
    students (snd r) = students st /\
    filename (snd r) = filename st /\
    files (snd r) path = Some (FCsv (rows ++ map csv_row (firstn d l))) /\
    (forall p, p <> path -> files (snd r) p = files st p) /\
    log (snd r) = log st ++ map (fun k => Progress (percent k n)) (seq i d).
Proof.
  induction l as [|s r IH]; intros i rows st Hf.
  - destruct (loop_done_nil f i) as [E1 E2].
    cbn [List.length]. cbv zeta. rewrite E1, E2.
    simpl. rewrite !app_nil_r. auto 7.
  - cbn [List.length export_loop]. cbv zeta.
    destruct (write_fails f (S i)) eqn:W.
    { destruct (loop_done_stop f i (List.length r) W) as [E1 E2].
      rewrite E1, E2. simpl. rewrite !app_nil_r. auto 7. }
    destruct (callback_fails f i) eqn:C.
    { destruct (loop_done_call f i (List.length r) W C) as [E1 E2].
      rewrite E1, E2. unfold bind, writerow, write_file, emit, ret.
      simpl. rewrite Hf. simpl. rewrite write_same. repeat split.
      intros p Hp. now apply write_other. }
    destruct (loop_done_next f i (List.length r) W C) as [E1 E2].
    rewrite E1, E2. unfold bind, writerow, write_file, emit. simpl.
    rewrite Hf.
    match goal with
    | |- context [export_loop path f n (S i) r ?st1] =>
        destruct (IH (S i) (rows ++ [csv_row s]) st1)
          as (H0 & H1 & H2 & H3 & H4 & H5); [simpl; apply write_same|];
        destruct (export_loop path f n (S i) r st1) as [b st2]
    end.
    simpl in *. rewrite H0, H1, H2, H3, H5, <- !app_assoc. simpl.
    repeat split. intros p Hp. rewrite H4 by exact Hp. now apply write_other.
Qed.

Lemma rows_written_loop (f : Fault) (n : nat) :
  write_fails f 0 = false ->
  loop_done f 0 n = rows_written f n /\ loop_ends f 0 n = completes f n.
Proof.
  destruct f as [| |k|k];
    cbn [write_fails loop_done loop_ends rows_written completes]; auto;
    intros H; try apply Nat.eqb_neq in H;
    nat_cases; cbn [andb negb]; arith_pair.
Qed.

(** The export of a collection that is not empty, at a path that was
    picked, on a file that could be opened. *)
Lemma export_to_csv_opened (path : string) (f : Fault) (st : State) :
  students st <> [] -> Py.truthy path = true -> f <> OpenFault ->
  let st' := snd (export_to_csv path f st) in
  let n := List.length (students st) in
  let d := rows_written f n in
  students st' = students st /\
  filename st' = filename st /\
  files st' path =
    Some (FCsv (if write_fails f 0 then []
                else csv_header :: map csv_row (firstn d (students st)))) /\
  (forall p, p <> path -> files st' p = files st p) /\
  log st' = log st ++ map (fun i => Progress (percent i n)) (seq 0 d)
                   ++ [last_message f n].
Proof.
  intros Hne Hp Hf. unfold export_to_csv, bind, get_students.
  cbn -[export_loop]. destruct (students st) as [|s r] eqn:El; [congruence|].
  rewrite Hp. unfold last_message. cbv zeta.
  destruct (write_fails f 0) eqn:W.
  { destruct f as [| |k|k]; try discriminate W; try congruence.
    simpl in W. apply Nat.eqb_eq in W. subst k. cbn.
    rewrite write_same, El. repeat split. intros p Hq. now apply write_other. }
  destruct (rows_written_loop f (List.length (s :: r)) W) as [E1 E2].
  rewrite <- E1, <- E2.
  assert (G : forall st0, students st0 = s :: r ->
     let st1 := snd ((write_file path (FCsv []) ;;
            done <- (writerow path csv_header ;;
                     export_loop path f (List.length (s :: r)) 0 (s :: r)) ;;
            if done then showinfo "Success" "Data exported to CSV!"
            else showerror "Error" "Failed to export") st0) in
     students st1 = students st0 /\ filename st1 = filename st0 /\
     files st1 path = Some (FCsv (csv_header :: map csv_row
        (firstn (loop_done f 0 (List.length (s :: r))) (s :: r)))) /\
     (forall p, p <> path -> files st1 p = files st0 p) /\
     log st1 = log st0 ++ map (fun i => Progress (percent i (List.length (s :: r))))
                 (seq 0 (loop_done f 0 (List.length (s :: r))))
               ++ [if loop_ends f 0 (List.length (s :: r))
                   then ShowInfo "Success" "Data exported to CSV!"
                   else ShowError "Error" "Failed to export"]).
  { intros st0 E0. unfold bind, write_file, writerow. cbn -[export_loop loop_done loop_ends].
    rewrite write_same.
    match goal with
    | |- context [export_loop path f ?n ?i (s :: r) ?st1] =>
        destruct (export_loop_spec path f n (s :: r) i [csv_header] st1)
          as (H0 & H1 & H2 & H3 & H4 & H5); [cbn; apply write_same|];
        destruct (export_loop path f n i (s :: r) st1) as [b st2]
    end.
    cbn -[loop_done loop_ends] in *. subst b.
    destruct (loop_ends f 0 (S (List.length r)));
      cbn -[loop_done]; rewrite H1, H2, H3, H5, <- ?app_assoc;
      repeat split; intros p Hq; rewrite H4 by exact Hq;
      now rewrite !write_other by exact Hq. }
  destruct f as [| |k|k]; try congruence;
    (specialize (G st El); cbv zeta in G; rewrite El in G; exact G).
Qed.

Lemma export_to_csv_students (path : string) (f : Fault) (st : State) :
  students (snd (export_to_csv path f st)) = students st.
Proof.
  destruct (students st) as [|s r] eqn:El.
  { unfold export_to_csv, bind, get_students. cbn. rewrite El. exact El. }
  destruct (Py.truthy path) eqn:Hp.
  2:{ unfold export_to_csv, bind, get_students. cbn -[export_loop].
      rewrite El, Hp. exact El. }
  assert (Hne : students st <> []) by (rewrite El; discriminate).
  destruct f as [| |k|k];
    try (rewrite <- El; apply (export_to_csv_opened path _ st Hne Hp);
         discriminate).
  unfold export_to_csv, bind, get_students. cbn. rewrite El, Hp. exact El.
Qed.

Lemma progress_values_log (l : list Event) (n d : nat) (e : Event) :
  progress_of e = None ->
  progress_values (l ++ map (fun i => Progress (percent i n)) (seq 0 d) ++ [e]) =
  progress_values l ++ map (fun i => percent i n) (seq 0 d).
Proof.
  intros He. rewrite !progress_values_app.
  rewrite (progress_values_map (fun k => percent k n)). cbn. rewrite He.
  now rewrite app_nil_r.
Qed.

(** C7, amended.  With no record, [export_to_csv] reports an error and
    writes nothing.  With [n] records, a path picked in the dialog and no
    exception on the way, the file at the path holds the header row and
    one row per record in the order of the collection, no other file
    changes, and the callback is called [n] times, the call of index [i]
    (from 0) with the float [(i+1)/n*100]; then the success is shown.
    For fewer than 2^50 records these floats grow strictly, and the last
    one is 100.  With the dialog cancelled nothing happens at all.  The
    collection stays in each case. *)
Theorem export_to_csv_spec (path : string) (st : State) :
  let st' := snd (export_to_csv path NoFault st) in
  let n := List.length (students st) in
  students st' = students st /\
  match students st with
  | [] =>
      files st' = files st /\
      log st' = log st ++ [ShowError "Error" "No students to export!"]
  | _ :: _ =>
      if Py.truthy path then
        files st' path =
          Some (FCsv (csv_header :: map csv_row (students st))) /\
        (forall p, p <> path -> files st' p = files st p) /\
        log st' = log st ++ map (fun i => Progress (percent i n)) (seq 0 n)
                         ++ [ShowInfo "Success" "Data exported to CSV!"] /\
        progress_values (log st') =
          progress_values (log st) ++ map (fun i => percent i n) (seq 0 n) /\
        (Z.of_nat n < 2 ^ 50 ->
         (forall i j, (i < j < n)%nat ->
                      Py.lt (percent i n) (percent j n) = true) /\
         percent (n - 1) n = Py.float_of_int 100)
      else st' = st
  end.
Proof.
  cbv zeta. split; [apply export_to_csv_students|].
  destruct (students st) as [|s r] eqn:El.
  { unfold export_to_csv, bind, get_students. cbn. rewrite El. auto. }
  destruct (Py.truthy path) eqn:Hp.
  2:{ unfold export_to_csv, bind, get_students. cbn. now rewrite El, Hp. }
  assert (Hne : students st <> []) by (rewrite El; discriminate).
  destruct (export_to_csv_opened path NoFault st Hne Hp)
    as (_ & _ & H3 & H4 & H5); [discriminate|].
  cbn [write_fails rows_written] in H3, H5. unfold last_message in H5.
  cbn [completes] in H5. rewrite El in H3, H5.
  rewrite firstn_all in H3.
  split; [exact H3|]. split; [exact H4|]. split; [exact H5|]. split.
  - rewrite H5. now apply progress_values_log.
  - intros Hn. split.
    + intros i j [Hij Hj]. now apply percent_lt.
    + apply percent_last; [simpl; lia | lia].
Qed.


(* ================================================================= *)
(** ** More on update *)

Lemma ids_split (i : string) (l : list Student) :
  In i (map id l) ->
  exists before s after,
    l = before ++ s :: after /\ id s = i /\ ~ In i (map id before).
Proof.
  induction l as [|x r IH]; simpl; [tauto|].
  destruct (string_dec (id x) i) as [E|E].
  - intros _. exists [], x, r. simpl. auto.
  - intros [H|H]; [contradiction|].
    destruct (IH H) as (b & s & a & -> & Hs & Hb).
    exists (x :: b), s, a. simpl. repeat split; auto. tauto.
Qed.

Lemma update_first_at (i : string) (body : Student -> Student * bool)
  (before after : list Student) (s : Student) :
  id s = i -> ~ In i (map id before) ->
  update_first i body (before ++ s :: after) =
  Some (before ++ fst (body s) :: after, snd (body s)).
Proof.
  intros Hs. induction before as [|x r IH]; simpl; intros Hb.
  - rewrite Hs, String.eqb_refl. now destruct (body s).
  - destruct (String.eqb_spec (id x) i) as [E|E]; [tauto|].
    rewrite IH by tauto. reflexivity.
Qed.

Lemma remove_first_at (i : string) (before after : list Student) (s : Student) :
  id s = i -> ~ In i (map id before) ->
  remove_first i (before ++ s :: after) = Some (before ++ after).
Proof.
  intros Hs. induction before as [|x r IH]; simpl; intros Hb.
  - now rewrite Hs, String.eqb_refl.
  - destruct (String.eqb_spec (id x) i) as [E|E]; [tauto|].
    rewrite IH by tauto. reflexivity.
Qed.

Lemma assign_if_name (x : option string) (s : Student) :
  assign_if x set_name s = mkStudent (id s) (chosen x (name s)) (age s) (grade s).
Proof.
  unfold assign_if, chosen. destruct x as [v|]; [destruct (Py.truthy v)|];
    destruct s; reflexivity.
Qed.

Lemma assign_if_grade (x : option string) (s : Student) :
  assign_if x set_grade s = mkStudent (id s) (name s) (age s) (chosen x (grade s)).
Proof.
  unfold assign_if, chosen. destruct x as [v|]; [destruct (Py.truthy v)|];
    destruct s; reflexivity.
Qed.

Lemma update_record_result (n a g : option string) (s : Student) :
  update_record n a g s =
  if age_accepted a then
    (mkStudent (id s) (chosen n (name s)) (chosen_age a (age s))
       (chosen g (grade s)), true)
  else (mkStudent (id s) (chosen n (name s)) (age s) (grade s), false).
Proof.
  unfold update_record, age_accepted, chosen_age.
  rewrite assign_if_name.
  destruct a as [v|]; [destruct (Py.truthy v); [destruct (positive_int v)|]|];
    rewrite ?assign_if_grade; reflexivity.
Qed.

(** [update_student] in closed form, on a collection split at the first
    record with the id. *)
Lemma update_student_at (w : bool) (i : string) (n a g : option string)
  (st : State) (before after : list Student) (s : Student) :
  students st = before ++ s :: after -> id s = i -> ~ In i (map id before) ->
  update_student w i n a g st =
  if age_accepted a then
    (true,
     snd (save_students w
            (snd (put_students
                    (before ++ mkStudent i (chosen n (name s))
                                 (chosen_age a (age s)) (chosen g (grade s))
                            :: after) st))))
  else
    (false,
     snd (showerror "Error" "Age must be a positive integer!"
            (snd (put_students
                    (before ++ mkStudent i (chosen n (name s)) (age s) (grade s)
                            :: after) st)))).
Proof.
  intros Hl Hs Hb. unfold update_student, bind, get_students. simpl.
  rewrite Hl, (update_first_at i _ before after s Hs Hb), update_record_result.
  subst i. destruct (age_accepted a); simpl; [destruct w|]; reflexivity.
Qed.

(** X1.  When no record has the id, [update_student] returns [False],
    reports that the student is not found, and changes nothing else. *)
Theorem update_student_not_found (w : bool) (i : string)
  (n a g : option string) (st : State) :
  ~ In i (map id (students st)) ->
  update_student w i n a g st =
  (false, mkState (filename st) (students st) (files st)
            (log st ++ [ShowError "Error" "Student not found!"])).
Proof.
  intros H. unfold update_student, bind, get_students. simpl.
  apply (update_first_None i (update_record n a g)) in H. now rewrite H.
Qed.

(** X2.  When a record has the id and the age, if given, is a positive
    integer, [update_student] returns [True]: the first record with the id
    gets the fields that were given and not empty and keeps the others,
    every other record and the order stay, and [save_students] is called
    once. *)
Theorem update_student_applies (w : bool) (i : string)
  (n a g : option string) (st : State) :
  In i (map id (students st)) -> age_accepted a = true ->
  let r := update_student w i n a g st in
  fst r = true /\
  (exists before s after,
      students st = before ++ s :: after /\
      id s = i /\ ~ In i (map id before) /\
      students (snd r) =
        before ++ mkStudent i (chosen n (name s)) (chosen_age a (age s))
                    (chosen g (grade s)) :: after) /\
  saves (snd r) = S (saves st) /\
  files (snd r) =
    if w then write (filename st)
                    (FJson (JList (map to_dict (students (snd r))))) (files st)
    else files st.
Proof.
  intros Hin Ha.
  destruct (ids_split i _ Hin) as (b & s & af & Hl & Hs & Hb).
  cbv zeta. rewrite (update_student_at w i n a g st b af s Hl Hs Hb), Ha.
  split; [reflexivity|]. split.
  - exists b, s, af. repeat split; auto. now destruct w.
  - destruct w; unfold saves; simpl; rewrite ?filter_app, ?length_app; simpl;
      split; try reflexivity; lia.
Qed.

(** X3.  Whatever its arguments, [update_student] leaves the ids, their
    order and the number of records; when it returns [False] it has not
    saved, no file has changed, and no age and no grade has changed. *)
Theorem update_student_frame (w : bool) (i : string)
  (n a g : option string) (st : State) :
  let r := update_student w i n a g st in
  map id (students (snd r)) = map id (students st) /\
  List.length (students (snd r)) = List.length (students st) /\
  match fst r with
  | true => True
  | false =>
      files (snd r) = files st /\ saves (snd r) = saves st /\
      map age (students (snd r)) = map age (students st) /\
      map grade (students (snd r)) = map grade (students st)
  end.
Proof.
  cbv zeta.
  destruct (in_dec string_dec i (map id (students st))) as [Hin|Hin].
  - destruct (ids_split i _ Hin) as (b & s & af & Hl & Hs & Hb).
    rewrite (update_student_at w i n a g st b af s Hl Hs Hb).
    destruct (age_accepted a).
    + destruct w; simpl; rewrite Hl, !map_app, !length_app; simpl;
        rewrite Hs; auto.
    + simpl. unfold saves. simpl. rewrite filter_app, length_app. simpl.
      rewrite Hl, !map_app, !length_app. simpl. rewrite Hs.
      repeat split; lia.
  - unfold update_student, bind, get_students. simpl.
    rewrite (proj2 (update_first_None i (update_record n a g) _) Hin). simpl.
    unfold saves. simpl. rewrite filter_app, length_app. simpl.
    repeat split; lia.
Qed.

(** X4.  An update that gives no field, or only empty ones, of a record
    that is there returns [True] and leaves the collection as it is, and
    still calls [save_students]. *)
Theorem update_student_nothing (w : bool) (i : string)
  (n a g : option string) (st : State) :
  In i (map id (students st)) ->
  Py.truthy_opt n = false -> Py.truthy_opt a = false ->
  Py.truthy_opt g = false ->
  let r := update_student w i n a g st in
  fst r = true /\ students (snd r) = students st /\
  saves (snd r) = S (saves st).
Proof.
  intros Hin Hn Ha Hg.
  destruct (ids_split i _ Hin) as (b & s & af & Hl & Hs & Hb).
  cbv zeta. rewrite (update_student_at w i n a g st b af s Hl Hs Hb).
  assert (Ea : age_accepted a = true /\ chosen_age a (age s) = age s).
  { unfold age_accepted, chosen_age. destruct a as [v|]; simpl in Ha;
      [rewrite Ha|]; auto. }
  assert (En : chosen n (name s) = name s).
  { unfold chosen. destruct n as [v|]; simpl in Hn; [rewrite Hn|]; auto. }
  assert (Eg : chosen g (grade s) = grade s).
  { unfold chosen. destruct g as [v|]; simpl in Hg; [rewrite Hg|]; auto. }
  destruct Ea as [Ea1 Ea2]. rewrite Ea1, Ea2, En, Eg, <- Hs.
  replace (mkStudent (id s) (name s) (age s) (grade s)) with s
    by (destruct s; reflexivity).
  rewrite <- Hl.
  destruct w; unfold saves; simpl; rewrite ?filter_app, ?length_app; simpl;
    repeat split; lia.
Qed.

(* ================================================================= *)
(** ** More on add and delete *)

Lemma delete_student_at (w : bool) (i : string) (st : State)
  (before after : list Student) (s : Student) :
  students st = before ++ s :: after -> id s = i -> ~ In i (map id before) ->
  delete_student w i st =
  (true, snd (save_students w (snd (put_students (before ++ after) st)))).
Proof.
  intros Hl Hs Hb. unfold delete_student, bind, get_students. simpl.
  rewrite Hl, (remove_first_at i before after s Hs Hb).
  destruct w; reflexivity.
Qed.

Lemma delete_student_absent (w : bool) (i : string) (st : State) :
  ~ In i (map id (students st)) ->
  delete_student w i st =
  (false, snd (showerror "Error" "Student not found!" st)).
Proof.
  intros H. unfold delete_student, bind, get_students. simpl.
  apply remove_first_None in H. now rewrite H.
Qed.

(** X5.  On a collection whose ids are pairwise different, deleting an id
    that is there returns [True] and leaves no record with that id. *)
Theorem delete_student_removes_id (w : bool) (i : string) (st : State) :
  NoDup (map id (students st)) -> In i (map id (students st)) ->
  fst (delete_student w i st) = true /\
  ~ In i (map id (students (snd (delete_student w i st)))).
Proof.
  intros Hn Hin.
  destruct (ids_split i _ Hin) as (b & s & af & Hl & Hs & Hb).
  rewrite (delete_student_at w i st b af s Hl Hs Hb).
  split; [reflexivity|].
  cbn [fst snd]. rewrite save_students_students. simpl.
  rewrite Hl, map_app in Hn. simpl in Hn. apply NoDup_remove_2 in Hn.
  rewrite map_app. now rewrite Hs in Hn.
Qed.

(** X6.  Deleting the id of a record just added gives back the collection
    as it was before the add. *)
Theorem add_then_delete (w w' : bool) (i n a g : string) (st : State) :
  fst (add_student w i n a g st) = true ->
  let st1 := snd (add_student w i n a g st) in
  fst (delete_student w' i st1) = true /\
  students (snd (delete_student w' i st1)) = students st.
Proof.
  intros H. destruct (add_student_true w i n a g st H)
    as (k & _ & _ & _ & Hi & _ & E).
  cbv zeta. rewrite E.
  rewrite (delete_student_at w' i _ (students st) [] (mkStudent i n k g)).
  - split; [reflexivity|]. cbn [fst snd].
    rewrite save_students_students. simpl. apply app_nil_r.
  - now rewrite save_students_students.
  - reflexivity.
  - exact Hi.
Qed.

(** X7.  A record just added is found by a search for any text whose
    lower-case form occurs in the lower-case form of its id or of its
    name; with ASCII text for the query, the id and the name, that is any
    text the id or the name holds, whatever the case of the letters. *)
Theorem add_then_search (w : bool) (i n a g q : string) (st : State) :
  fst (add_student w i n a g st) = true ->
  (lowered_in q i \/ lowered_in q n) \/
  (Py.is_ascii q = true /\ Py.is_ascii i = true /\ Py.is_ascii n = true /\
   (ci_substring q i \/ ci_substring q n)) ->
  exists k,
    Py.int a = Some k /\
    In (mkStudent i n k g)
       (fst (search_students q (snd (add_student w i n a g st)))).
Proof.
  intros H Hq. destruct (add_student_true w i n a g st H)
    as (k & _ & _ & _ & _ & Ha & E).
  exists k. split; [apply positive_int_Some in Ha; apply Ha|].
  rewrite E. unfold search_students, bind, get_students, ret. cbn [fst snd].
  rewrite save_students_students. simpl.
  apply filter_In. split.
  - apply in_or_app. right. now left.
  - apply matches_iff. cbn [id name].
    destruct Hq as [Hq|(Aq & Ai & An & Hq)]; [exact Hq|].
    now rewrite (lowered_in_ascii q i Aq Ai), (lowered_in_ascii q n Aq An).
Qed.

(* ================================================================= *)
(** ** The file and the collection *)

Lemma on_disk_saved (st : State) :
  on_disk (snd (save_students true st)) = Some (students st).
Proof.
  unfold on_disk, save_students, bind, emit, write_file. simpl.
  now rewrite write_same, students_of_list_to_dict.
Qed.



(** X9.  An add, an update or a delete that returns [False] has not called
    [save_students] and has changed no file. *)
Theorem failed_step_no_save (o : Op) (st : State) :
  fst (step o st) = false ->
  files (snd (step o st)) = files st /\ saves (snd (step o st)) = saves st.
Proof.
  destruct o as [w i n a g|w i n a g|w i]; simpl.
  - intros H. apply add_student_false in H. tauto.
  - destruct (in_dec string_dec i (map id (students st))) as [Hin|Hin].
    + destruct (ids_split i _ Hin) as (b & s & af & Hl & Hs & Hb).
      rewrite (update_student_at w i n a g st b af s Hl Hs Hb).
      destruct (age_accepted a); simpl; [discriminate|]. intros _.
      unfold saves. simpl. rewrite filter_app, length_app. simpl.
      split; [reflexivity | lia].
    + unfold update_student, bind, get_students. simpl.
      rewrite (proj2 (update_first_None i (update_record n a g) _) Hin).
      simpl. intros _. unfold saves. simpl.
      rewrite filter_app, length_app. simpl. split; [reflexivity | lia].
  - destruct (in_dec string_dec i (map id (students st))) as [Hin|Hin].
    + destruct (ids_split i _ Hin) as (b & s & af & Hl & Hs & Hb).
      rewrite (delete_student_at w i st b af s Hl Hs Hb). discriminate.
    + rewrite (delete_student_absent w i st Hin). simpl. intros _.
      unfold saves. simpl. rewrite filter_app, length_app. simpl.
      split; [reflexivity | lia].
Qed.

(* ================================================================= *)
(** ** More on load *)


Lemma student_of_dict_bad (kv : list (string * jvalue)) :
  (exists k, is_field k = true /\ dict_get k kv = None) \/
  (exists k v, In (k, v) kv /\ is_field k = false) ->
  student_of_dict (JDict kv) = TypeError.
Proof.
  intros [(k & Hk & Hg)|(k & v & Hin & Hk)]; simpl.
  - destruct (forallb (fun p => is_field (fst p)) kv); [|reflexivity].
    unfold is_field in Hk. rewrite !orb_true_iff, !String.eqb_eq in Hk.
    destruct Hk as [[[->| ->]| ->]| ->]; rewrite Hg;
      repeat match goal with
             | |- context [dict_get ?x kv] => destruct (dict_get x kv) as [[]|]
             end; reflexivity.
  - destruct (forallb (fun p => is_field (fst p)) kv) eqn:E; [|reflexivity].
    rewrite forallb_forall in E. specialize (E _ Hin). simpl in E. congruence.
Qed.

Lemma students_of_list_bad (l : list jvalue) (d : jvalue) :
  In d l -> student_of_dict d = TypeError -> students_of_list l = TypeError.
Proof.
  induction l as [|x r IH]; simpl; [tauto|].
  intros [->|H] Hd.
  - now rewrite Hd.
  - rewrite (IH H Hd). now destruct (student_of_dict x).
Qed.

(** X11.  When some dict of the JSON list in the backing file lacks one of
    the four fields, or has a key that is none of them, [load_students]
    ends with an exception that is not caught, and the store is as it was. *)
Theorem load_students_bad_record (st : State) (l : list jvalue)
  (kv : list (string * jvalue)) :
  files st (filename st) = Some (FJson (JList l)) -> In (JDict kv) l ->
  (exists k, is_field k = true /\ dict_get k kv = None) \/
  (exists k v, In (k, v) kv /\ is_field k = false) ->
  load_students st = (Raises, st).
Proof.
  intros Hf Hin Hbad. unfold load_students. rewrite Hf.
  now rewrite (students_of_list_bad l _ Hin (student_of_dict_bad kv Hbad)).
Qed.

(* ================================================================= *)
(** ** More on view and search *)

Lemma sort_students_perm {K : Type} (key : Student -> K)
  (leb : K -> K -> bool) (st : State) :
  let st' := snd (sort_students key leb st) in
  Permutation (students st) (students st') /\
  files st' = files st /\ log st' = log st /\ filename st' = filename st.
Proof. simpl. repeat split. apply sort_perm. Qed.

(** X12.  Whatever its argument, [view_students] returns the stored list,
    which holds the records it held before; it shows nothing, saves
    nothing and changes no file.  With no key, an empty key or a key that
    is none of the four, the order stays as well. *)
Theorem view_students_frame (k : option string) (st : State) :
  let r := view_students k st in
  fst r = students (snd r) /\
  Permutation (students st) (students (snd r)) /\
  files (snd r) = files st /\ log (snd r) = log st /\
  ((forall s, k = Some s -> ~ In s ["id"; "name"; "age"; "grade"]) ->
   snd r = st).
Proof.
  destruct k as [s|]; cbv zeta.
  2:{ destruct st. simpl. repeat split. apply Permutation_refl. }
  unfold view_students, bind, get_students.
  destruct (Py.truthy s) eqn:Ts.
  2:{ apply truthy_false_iff in Ts. subst s. destruct st. simpl.
      repeat split. apply Permutation_refl. }
  destruct (String.eqb_spec s "id") as [->|N1].
  { simpl. repeat split; [apply sort_perm|].
    intros H. exfalso. apply (H "id" eq_refl). simpl. auto. }
  destruct (String.eqb_spec s "name") as [->|N2].
  { simpl. repeat split; [apply sort_perm|].
    intros H. exfalso. apply (H "name" eq_refl). simpl. auto. }
  destruct (String.eqb_spec s "age") as [->|N3].
  { simpl. repeat split; [apply sort_perm|].
    intros H. exfalso. apply (H "age" eq_refl). simpl. auto. }
  destruct (String.eqb_spec s "grade") as [->|N4].
  { simpl. repeat split; [apply sort_perm|].
    intros H. exfalso. apply (H "grade" eq_refl). simpl. auto. }
  destruct st. simpl. repeat split. apply Permutation_refl.
Qed.

Lemma insert_below {A K : Type} (key : A -> K) (leb : K -> K -> bool)
  (x : A) (l : list A) :
  StronglySorted (Py.le_by key leb) (x :: l) -> Py.insert key leb x l = x :: l.
Proof.
  destruct l as [|y r]; simpl; [reflexivity|].
  intros H. inversion H as [|? ? _ Hf]. subst. inversion Hf as [|? ? Hy _].
  subst. unfold Py.le_by in Hy. now rewrite Hy.
Qed.

Lemma sort_of_sorted {A K : Type} (key : A -> K) (leb : K -> K -> bool)
  (l : list A) :
  StronglySorted (Py.le_by key leb) l -> Py.sort key leb l = l.
Proof.
  induction l as [|x r IH]; simpl; [reflexivity|].
  intros H. rewrite IH by now inversion H. now apply insert_below.
Qed.

Lemma sort_twice {A K : Type} (key : A -> K) (leb : K -> K -> bool)
  (l : list A) :
  (forall a b, leb a b = true \/ leb b a = true) ->
  (forall a b c, leb a b = true -> leb b c = true -> leb a c = true) ->
  Py.sort key leb (Py.sort key leb l) = Py.sort key leb l.
Proof.
  intros Ht Htr. apply sort_of_sorted. apply sort_sorted; assumption.
Qed.

(** X13.  Viewing twice with the same argument changes nothing more than
    viewing once: the second call returns the list of the first and
    leaves the store as the first left it. *)
Theorem view_students_twice (k : option string) (st : State) :
  let r := view_students k st in
  view_students k (snd r) = (fst r, snd r).
Proof.
  destruct k as [s|]; [|reflexivity]. cbv zeta.
  destruct (Py.truthy s) eqn:Ts.
  2:{ unfold view_students. rewrite Ts. reflexivity. }
  destruct (String.eqb_spec s "id") as [->|N1].
  { unfold view_students, bind, sort_students, get_students, put_students.
    simpl. now rewrite (sort_twice id String.leb _
                          String.leb_total string_leb_trans). }
  destruct (String.eqb_spec s "name") as [->|N2].
  { unfold view_students, bind, sort_students, get_students, put_students.
    simpl. now rewrite (sort_twice (fun x => Py.lower (name x)) String.leb _
                          String.leb_total string_leb_trans). }
  destruct (String.eqb_spec s "age") as [->|N3].
  { unfold view_students, bind, sort_students, get_students, put_students.
    simpl. now rewrite (sort_twice age Z.leb _ Z_leb_total Z_leb_trans). }
  destruct (String.eqb_spec s "grade") as [->|N4].
  { unfold view_students, bind, sort_students, get_students, put_students.
    simpl. now rewrite (sort_twice (fun x => Py.lower (grade x)) String.leb _
                          String.leb_total string_leb_trans). }
  apply String.eqb_neq in N1, N2, N3, N4.
  unfold view_students. rewrite Ts, N1, N2, N3, N4. reflexivity.
Qed.

Lemma string_app_assoc (a b c : string) :
  ((a ++ b) ++ c)%string = (a ++ (b ++ c))%string.
Proof. induction a as [|x a IH]; simpl; [reflexivity | now rewrite IH]. Qed.

Lemma contains_trans (a b c : string) :
  Py.contains a b = true -> Py.contains b c = true -> Py.contains a c = true.
Proof.
  rewrite !contains_iff. intros (p1 & q1 & ->) (p2 & q2 & ->).
  exists (p2 ++ p1)%string, (q1 ++ q2)%string.
  now rewrite !string_app_assoc.
Qed.

Lemma filter_filter_implied {A : Type} (f h : A -> bool) (l : list A) :
  (forall x, h x = true -> f x = true) ->
  filter h (filter f l) = filter h l.
Proof.
  intros H. induction l as [|x r IH]; simpl; [reflexivity|].
  destruct (f x) eqn:Fx; simpl.
  - now rewrite IH.
  - destruct (h x) eqn:Hx; [|exact IH]. apply H in Hx. congruence.
Qed.

(** X14.  When the lower-case form of a query [q] occurs in the lower-case
    form of a query [q'], the result for [q'] is what [q'] finds among
    the records [q] finds, and it holds no other record: on ASCII text,
    typing more characters only narrows the result. *)
Theorem search_students_narrows (q q' : string) (st : State) :
  Py.contains (Py.lower q) (Py.lower q') = true ->
  fst (search_students q' st) =
    fst (search_students q'
           (snd (put_students (fst (search_students q st)) st))) /\
  incl (fst (search_students q' st)) (fst (search_students q st)).
Proof.
  intros H. unfold search_students, bind, get_students, ret. simpl.
  assert (Hm : forall x, matches (Py.lower q') x = true ->
                         matches (Py.lower q) x = true).
  { intros x. unfold matches. rewrite !orb_true_iff.
    intros [Hx|Hx]; [left | right]; eapply contains_trans; eauto. }
  split.
  - symmetry. now apply filter_filter_implied.
  - intros x Hx. apply filter_In in Hx. apply filter_In. intuition.
Qed.

(* ================================================================= *)
(** ** More on export *)

(** X15.  An export written onto the backing file replaces the saved
    collection by CSV rows: the next load finds a corrupt file, shows the
    error and starts with an empty collection. *)
Theorem export_over_backing_file (st : State) :
  students st <> [] -> Py.truthy (filename st) = true ->
  let st1 := snd (export_to_csv (filename st) NoFault st) in
  students st1 = students st /\
  on_disk st1 = None /\
  load_students st1 =
    (Returns,
     mkState (filename st) [] (files st1)
       (log st1 ++ [ShowError "Error" "Corrupted data file. Starting fresh."])).
Proof.
  intros Hne Hp.
  destruct (export_to_csv_opened (filename st) NoFault st Hne Hp)
    as (H1 & H2 & H3 & _); [discriminate|].
  cbv zeta. cbn [write_fails] in H3. split; [exact H1|]. split.
  - unfold on_disk. now rewrite H2, H3.
  - unfold load_students. rewrite H2, H3.
    unfold bind, showerror, emit, put_students, ret. simpl.
    now rewrite H2.
Qed.

(* ================================================================= *)
(** ** The invariant of all four fields, under every operation *)

Lemma well_formed_perm (l l' : list Student) :
  Permutation l l' -> well_formed l -> well_formed l'.
Proof.
  intros Hp [Hn Hf]. split.
  - eapply Permutation_NoDup; [|exact Hn]. now apply Permutation_map.
  - eapply Permutation_Forall; eassumption.
Qed.

Lemma well_formed_add (l : list Student) (s : Student) :
  well_formed l -> ~ In (id s) (map id l) -> well_formed_record s ->
  well_formed (l ++ [s]).
Proof.
  intros [Hn Hf] Hi Hs. split.
  - rewrite map_app. simpl. apply NoDup_rev in Hn.
    rewrite <- (rev_involutive (map id l ++ [id s])).
    apply NoDup_rev. rewrite rev_app_distr. simpl. constructor; [|assumption].
    now rewrite <- in_rev.
  - apply Forall_app. split; [assumption | constructor; auto].
Qed.

Lemma well_formed_replace (before after : list Student) (s s' : Student) :
  well_formed (before ++ s :: after) -> id s' = id s -> well_formed_record s' ->
  well_formed (before ++ s' :: after).
Proof.
  intros [Hn Hf] Hi Hs. split.
  - rewrite map_app in *. simpl in *. now rewrite Hi.
  - apply Forall_app in Hf. destruct Hf as [Hb Ha]. apply Forall_app.
    split; [assumption|]. constructor; [assumption | now inversion Ha].
Qed.

Lemma well_formed_remove (before after : list Student) (s : Student) :
  well_formed (before ++ s :: after) -> well_formed (before ++ after).
Proof.
  intros [Hn Hf]. split.
  - rewrite map_app in *. simpl in Hn. eapply NoDup_remove_1. exact Hn.
  - apply Forall_app in Hf. destruct Hf as [Hb Ha]. apply Forall_app.
    split; [assumption | now inversion Ha].
Qed.

Lemma chosen_nonempty (x : option string) (old : string) :
  old <> "" -> chosen x old <> "".
Proof.
  intros H. unfold chosen. destruct x as [v|]; [|exact H].
  destruct (Py.truthy v) eqn:T; [|exact H]. now apply truthy_true_iff.
Qed.

Lemma chosen_age_positive (x : option string) (old : Z) :
  0 < old -> 0 < chosen_age x old.
Proof.
  intros H. unfold chosen_age. destruct x as [v|]; [|exact H].
  destruct (Py.truthy v); [|exact H].
  destruct (positive_int v) as [k|] eqn:E; [|exact H].
  apply positive_int_Some in E. apply E.
Qed.

Lemma step_well_formed (o : Op) (st : State) :
  well_formed (students st) -> well_formed (students (snd (step o st))).
Proof.
  intros Hw. destruct o as [w i n a g|w i n a g|w i]; simpl.
  - destruct (fst (add_student w i n a g st)) eqn:E.
    + destruct (add_student_true w i n a g st E)
        as (k & Hi & Hn & Hg & Hin & Ha & Est).
      rewrite Est, save_students_students. simpl.
      apply well_formed_add; auto.
      apply positive_int_Some in Ha. repeat split; simpl; tauto.
    + apply add_student_false in E. destruct E as [E _]. now rewrite E.
  - destruct (in_dec string_dec i (map id (students st))) as [Hin|Hin].
    + destruct (ids_split i _ Hin) as (b & s & af & Hl & Hs & Hb).
      rewrite (update_student_at w i n a g st b af s Hl Hs Hb).
      rewrite Hl in Hw.
      assert (Hrec : well_formed_record s).
      { destruct Hw as [_ Hf]. apply Forall_app in Hf.
        destruct Hf as [_ Hf]. now inversion Hf. }
      destruct Hrec as (R1 & R2 & R3 & R4).
      destruct (age_accepted a); cbn [fst snd];
        rewrite ?save_students_students; simpl;
        (eapply well_formed_replace; [exact Hw | simpl; congruence |]);
        repeat split; simpl; try congruence;
        auto using chosen_nonempty, chosen_age_positive.
    + unfold update_student, bind, get_students. simpl.
      rewrite (proj2 (update_first_None i (update_record n a g) _) Hin).
      exact Hw.
  - destruct (in_dec string_dec i (map id (students st))) as [Hin|Hin].
    + destruct (ids_split i _ Hin) as (b & s & af & Hl & Hs & Hb).
      rewrite (delete_student_at w i st b af s Hl Hs Hb). cbn [fst snd].
      rewrite save_students_students. simpl.
      rewrite Hl in Hw. eapply well_formed_remove. exact Hw.
    + rewrite (delete_student_absent w i st Hin). exact Hw.
Qed.

Lemma act_well_formed (a : Action) (st : State) :
  well_formed (students st) -> well_formed (students (act a st)).
Proof.
  intros Hw. destruct a as [o|k|q|w answer|path f]; simpl.
  - now apply step_well_formed.
  - destruct k as [s|]; [|exact Hw].
    unfold view_students, bind, get_students.
    destruct (Py.truthy s); [|exact Hw].
    destruct (s =? "id")%string;
      [simpl; eapply well_formed_perm; [apply sort_perm | exact Hw]|].
    destruct (s =? "name")%string;
      [simpl; eapply well_formed_perm; [apply sort_perm | exact Hw]|].
    destruct (s =? "age")%string;
      [simpl; eapply well_formed_perm; [apply sort_perm | exact Hw]|].
    destruct (s =? "grade")%string;
      [simpl; eapply well_formed_perm; [apply sort_perm | exact Hw]|].
    exact Hw.
  - exact Hw.
  - destruct answer; [|exact Hw]. destruct w; simpl; split; constructor.
  - now rewrite export_to_csv_students.
Qed.

(** X16.  From a collection whose ids are pairwise different and whose
    records all have a non-empty id, a non-empty name, a positive age and
    a non-empty grade, every state between the calls of a sequence of
    adds, updates, deletes, views, searches, clears and exports holds
    such a collection again. *)
Theorem well_formed_preserved (acts : list Action) (st : State) :
  well_formed (students st) ->
  Forall (fun st' => well_formed (students st')) (history acts st).
Proof.
  revert st. induction acts as [|a r IH]; intros st Hw; simpl.
  - constructor; [assumption | constructor].
  - constructor; [assumption|]. apply IH. now apply act_well_formed.
Qed.

(* ================================================================= *)
(** ** Integers and their text *)

Ltac digit_step :=
  cbn [DecimalString.NilEmpty.string_of_uint Pos.of_uint_acc Py.digits_from
       Pos.of_uint Py.parse_digits Z.of_N];
  repeat match goal with
  | |- context [Py.is_digit ?c] =>
      let b := eval vm_compute in (Py.is_digit c) in
      change (Py.is_digit c) with b
  | |- context [Py.digit_val ?c] =>
      let k := eval vm_compute in (Py.digit_val c) in
      change (Py.digit_val c) with k
  end;
  cbv iota.

Ltac digit_acc :=
  match goal with
  | |- Py.digits_from ?z false _ = Some (Zpos (Pos.of_uint_acc _ ?q)) =>
      replace z with (Zpos q) by lia
  end.

Lemma digits_from_pos (d : Decimal.uint) :
  forall p : positive,
    Py.digits_from (Zpos p) false (DecimalString.NilEmpty.string_of_uint d) =
    Some (Zpos (Pos.of_uint_acc d p)).
Proof.
  induction d; intros p; digit_step; try reflexivity; digit_acc; apply IHd.
Qed.

Lemma digits_from_zero (d : Decimal.uint) :
  Py.digits_from 0 false (DecimalString.NilEmpty.string_of_uint d) =
  Some (Z.of_N (Pos.of_uint d)).
Proof.
  induction d; digit_step; try reflexivity; try exact IHd;
    digit_acc; apply digits_from_pos.
Qed.

Lemma parse_digits_uint (d : Decimal.uint) :
  d <> Decimal.Nil ->
  Py.parse_digits (DecimalString.NilEmpty.string_of_uint d) =
  Some (Z.of_N (Pos.of_uint d)).
Proof.
  destruct d; intros H; try contradiction; digit_step;
    try apply digits_from_zero; digit_acc; apply digits_from_pos.
Qed.

Lemma rstrip_uint (d : Decimal.uint) :
  Py.rstrip (DecimalString.NilEmpty.string_of_uint d) =
  DecimalString.NilEmpty.string_of_uint d.
Proof.
  induction d; simpl; try reflexivity; rewrite IHd;
    destruct (DecimalString.NilEmpty.string_of_uint d); reflexivity.
Qed.

Lemma strip_uint (d : Decimal.uint) :
  Py.strip (DecimalString.NilEmpty.string_of_uint d) =
  DecimalString.NilEmpty.string_of_uint d.
Proof.
  unfold Py.strip.
  replace (Py.lstrip (DecimalString.NilEmpty.string_of_uint d))
    with (DecimalString.NilEmpty.string_of_uint d)
    by (destruct d; reflexivity).
  apply rstrip_uint.
Qed.

Lemma int_of_uint (d : Decimal.uint) :
  d <> Decimal.Nil ->
  Py.ascii_int (DecimalString.NilEmpty.string_of_uint d) =
  Some (Z.of_N (Pos.of_uint d)).
Proof.
  intros H. unfold Py.ascii_int. rewrite strip_uint.
  rewrite <- (parse_digits_uint d H).
  destruct d; try contradiction; reflexivity.
Qed.

Lemma int_of_minus_uint (d : Decimal.uint) :
  d <> Decimal.Nil ->
  Py.ascii_int (String "-" (DecimalString.NilEmpty.string_of_uint d)) =
  Some (- Z.of_N (Pos.of_uint d)).
Proof.
  intros H. unfold Py.ascii_int, Py.strip.
  change (Py.lstrip (String "-" (DecimalString.NilEmpty.string_of_uint d)))
    with (String "-" (DecimalString.NilEmpty.string_of_uint d)).
  assert (E : Py.rstrip (String "-" (DecimalString.NilEmpty.string_of_uint d))
              = String "-" (DecimalString.NilEmpty.string_of_uint d)).
  { simpl. rewrite rstrip_uint.
    destruct (DecimalString.NilEmpty.string_of_uint d); reflexivity. }
  rewrite E, (parse_digits_uint d H). reflexivity.
Qed.

Lemma nilzero_uint (p : positive) :
  DecimalString.NilZero.string_of_uint (Pos.to_uint p) =
  DecimalString.NilEmpty.string_of_uint (Pos.to_uint p).
Proof.
  pose proof (DecimalPos.Unsigned.to_uint_nonnil p) as Hn.
  destruct (Pos.to_uint p); [contradiction | reflexivity ..].
Qed.

(** The ASCII literal of the text of an integer is the integer. *)
Lemma int_of_str (z : Z) : Py.ascii_int (Py.str z) = Some z.
Proof.
  unfold Py.str. destruct z as [|p|p]; simpl.
  - reflexivity.
  - rewrite nilzero_uint, int_of_uint
      by apply DecimalPos.Unsigned.to_uint_nonnil.
    now rewrite DecimalPos.Unsigned.of_to.
  - rewrite nilzero_uint, int_of_minus_uint
      by apply DecimalPos.Unsigned.to_uint_nonnil.
    now rewrite DecimalPos.Unsigned.of_to.
Qed.

Lemma is_ascii_uint (d : Decimal.uint) :
  Py.is_ascii (DecimalString.NilEmpty.string_of_uint d) = true.
Proof. induction d; simpl; auto. Qed.

Lemma is_ascii_str (z : Z) : Py.is_ascii (Py.str z) = true.
Proof.
  unfold Py.str. destruct z as [|p|p]; simpl; [reflexivity | |];
    rewrite nilzero_uint; apply is_ascii_uint.
Qed.

(** [int] reads back the text of an integer within the bound on digits. *)
Lemma int_of_str_fits (z : Z) : Py.fits z -> Py.int (Py.str z) = Some z.
Proof.
  intros H. rewrite Py.int_ascii; [apply int_of_str | apply is_ascii_str |].
  exact H.
Qed.

(** X17.  [int] reads back the text [str] gives for an integer, when the
    text is within the interpreter's bound on the digits of an integer (or
    the interpreter has none): the text the list box shows for such an age
    is accepted as an age exactly when the age is positive. *)
Theorem int_str (z : Z) :
  Py.fits z ->
  Py.int (Py.str z) = Some z /\
  positive_int (Py.str z) = if 0 <? z then Some z else None.
Proof.
  intros H. split; [now apply int_of_str_fits|].
  unfold positive_int. rewrite (int_of_str_fits z H).
  destruct (Z.leb_spec z 0), (Z.ltb_spec 0 z); try reflexivity; lia.
Qed.

(* ================================================================= *)
(** ** Splitting text *)

Lemma string_length_app (a b : string) :
  String.length (a ++ b)%string = (String.length a + String.length b)%nat.
Proof. induction a as [|c a IH]; simpl; [reflexivity | now rewrite IH]. Qed.

Lemma starts_with_self (q b : string) : Py.starts_with q (q ++ b)%string = true.
Proof. apply starts_with_iff. now exists b. Qed.

Lemma starts_with_short (q x y : string) :
  Py.starts_with q (x ++ y)%string = true ->
  (String.length q <= String.length x)%nat ->
  Py.starts_with q x = true.
Proof.
  revert x. induction q as [|a q IH]; intros x H Hl; [reflexivity|].
  destruct x as [|b x]; simpl in Hl; [lia|].
  simpl in *. apply andb_true_iff in H. destruct H as [H1 H2].
  rewrite H1. simpl. apply IH; [exact H2 | lia].
Qed.

Lemma split_from_skip (sep x b : string) :
  Py.split_from sep (String.length x) (x ++ b)%string = Py.split_from sep 0 b.
Proof. induction x as [|c x IH]; simpl; [reflexivity | exact IH]. Qed.

Lemma split_from_first (c0 : ascii) (sep' a b : string) :
  (forall t u, a = (t ++ u)%string -> u <> "" ->
               Py.starts_with (String c0 sep')
                 (u ++ String c0 sep' ++ b)%string = false) ->
  Py.split_from (String c0 sep') 0 (a ++ String c0 sep' ++ b)%string =
  (a, Py.split (String c0 sep') b).
Proof.
  induction a as [|c a IH]; intros H.
  - change ("" ++ String c0 sep' ++ b)%string with (String c0 (sep' ++ b)).
    cbn [Py.split_from].
    change (String c0 (sep' ++ b)) with (String c0 sep' ++ b)%string.
    rewrite starts_with_self.
    change (String.length (String c0 sep') - 1)%nat with (String.length sep' - 0)%nat.
    rewrite Nat.sub_0_r, split_from_skip. reflexivity.
  - change (String c a ++ String c0 sep' ++ b)%string
      with (String c (a ++ String c0 sep' ++ b)).
    cbn [Py.split_from].
    change (String c (a ++ String c0 sep' ++ b))
      with (String c a ++ String c0 sep' ++ b)%string.
    rewrite (H "" (String c a) eq_refl) by discriminate.
    rewrite IH; [reflexivity|].
    intros t u E Hu. apply (H (String c t) u); [now rewrite E | exact Hu].
Qed.

(** The piece before the first separator: [a], when the separator does
    not begin inside [a]. *)
Lemma split_cons (sep init a b : string) (last : ascii) :
  sep = (init ++ String last "")%string ->
  Py.contains sep (a ++ init)%string = false ->
  Py.split sep (a ++ sep ++ b)%string = a :: Py.split sep b.
Proof.
  intros Hsep Hc.
  assert (Hearly : forall t u, a = (t ++ u)%string -> u <> "" ->
                     Py.starts_with sep (u ++ sep ++ b)%string = false).
  { intros t u E Hu.
    destruct (Py.starts_with sep (u ++ sep ++ b)%string) eqn:S; [|reflexivity].
    exfalso. rewrite Hsep in S at 2.
    rewrite (string_app_assoc init), <- string_app_assoc in S.
    apply starts_with_short in S.
    - apply starts_with_iff in S. destruct S as [post S].
      assert (Py.contains sep (a ++ init)%string = true); [|congruence].
      apply contains_iff. exists t, post.
      now rewrite E, string_app_assoc, S.
    - rewrite Hsep, !string_length_app. simpl.
      destruct u; [contradiction | simpl; lia]. }
  destruct sep as [|c0 sep'].
  { destruct init; discriminate. }
  unfold Py.split at 1. now rewrite split_from_first.
Qed.

Lemma split_none (sep s : string) :
  Py.contains sep s = false -> Py.split sep s = [s].
Proof.
  unfold Py.split. induction s as [|c s IH]; intros H; [reflexivity|].
  simpl in H. apply orb_false_iff in H. destruct H as [H1 H2].
  cbn [Py.split_from].
  change (match sep with
          | "" => true
          | String a q' => (a =? c)%char && Py.starts_with q' s
          end) with (Py.starts_with sep (String c s)) in H1.
  rewrite H1. specialize (IH H2).
  destruct (Py.split_from sep 0 s) as [p ps]. now inversion IH.
Qed.

(** [(label ++ ": " ++ v).split(": ")[1]] is [v]. *)
Lemma labelled_field (label v : string) :
  Py.contains ": " (label ++ ":")%string = false ->
  Py.contains ": " v = false ->
  nth_error (Py.split ": " (label ++ ": " ++ v)%string) 1 = Some v.
Proof.
  intros Hl Hv.
  rewrite (split_cons ": " ":" label v " " eq_refl Hl).
  now rewrite (split_none ": " v Hv).
Qed.

(* ================================================================= *)
(** ** The lines of the list box *)

Lemma row_text_pieces (s : Student) :
  GUI.row_text s =
  (("ID: " ++ id s) ++ " | " ++
   ("Name: " ++ name s) ++ " | " ++
   ("Age: " ++ Py.str (age s)) ++ " | " ++
   ("Grade: " ++ grade s))%string.
Proof. unfold GUI.row_text. simpl. reflexivity. Qed.

Lemma clean_bar (v : string) :
  GUI.clean v = true -> Py.contains " | " (" " ++ v ++ " |")%string = false.
Proof.
  unfold GUI.clean. rewrite andb_true_iff, !negb_true_iff. tauto.
Qed.

Lemma clean_colon (v : string) :
  GUI.clean v = true -> Py.contains ": " v = false.
Proof.
  unfold GUI.clean. rewrite andb_true_iff, !negb_true_iff. tauto.
Qed.

Lemma contains_app_false (q a b : string) :
  Py.contains q (a ++ b)%string = false -> Py.contains q a = false.
Proof.
  intros H. destruct (Py.contains q a) eqn:E; [|reflexivity].
  apply contains_iff in E. destruct E as (p & r & ->).
  assert (Py.contains q ((p ++ q ++ r) ++ b)%string = true); [|congruence].
  apply contains_iff. exists p, (r ++ b)%string.
  now rewrite !string_app_assoc.
Qed.

Lemma uint_no_bar (d : Decimal.uint) (tail : string) :
  Py.contains " | " (DecimalString.NilEmpty.string_of_uint d ++ tail)%string =
  Py.contains " | " tail.
Proof. induction d; simpl; try reflexivity; exact IHd. Qed.

Lemma uint_no_colon (d : Decimal.uint) (tail : string) :
  Py.contains ": " (DecimalString.NilEmpty.string_of_uint d ++ tail)%string =
  Py.contains ": " tail.
Proof. induction d; simpl; try reflexivity; exact IHd. Qed.

Lemma str_clean (z : Z) : GUI.clean (Py.str z) = true.
Proof.
  assert (Hu : forall p,
             DecimalString.NilZero.string_of_uint (Pos.to_uint p) =
             DecimalString.NilEmpty.string_of_uint (Pos.to_uint p)).
  { intros p. pose proof (DecimalPos.Unsigned.to_uint_nonnil p) as Hn.
    destruct (Pos.to_uint p); [contradiction | reflexivity ..]. }
  unfold GUI.clean, Py.str. destruct z as [|p|p]; [reflexivity| |].
  - cbn [Z.to_int DecimalString.NilZero.string_of_int]. rewrite Hu.
    pose proof (DecimalPos.Unsigned.to_uint_nonnil p) as Hn.
    pose proof (uint_no_colon (Pos.to_uint p) "") as Hc.
    pose proof (uint_no_bar (Pos.to_uint p) " |") as Hb.
    assert (E : (DecimalString.NilEmpty.string_of_uint (Pos.to_uint p) ++ "")%string
                = DecimalString.NilEmpty.string_of_uint (Pos.to_uint p)).
    { generalize (DecimalString.NilEmpty.string_of_uint (Pos.to_uint p)).
      induction s as [|c s IH]; simpl; [reflexivity | now rewrite IH]. }
    rewrite E in Hc. rewrite Hc.
    change (" " ++ DecimalString.NilEmpty.string_of_uint (Pos.to_uint p) ++ " |")%string
      with (String " " (DecimalString.NilEmpty.string_of_uint (Pos.to_uint p) ++ " |")).
    cbn [Py.contains]. rewrite Hb.
    destruct (Pos.to_uint p); try contradiction; reflexivity.
  - cbn [Z.to_int DecimalString.NilZero.string_of_int]. rewrite Hu.
    pose proof (uint_no_colon (Pos.to_uint p) "") as Hc.
    pose proof (uint_no_bar (Pos.to_uint p) " |") as Hb.
    assert (E : (DecimalString.NilEmpty.string_of_uint (Pos.to_uint p) ++ "")%string
                = DecimalString.NilEmpty.string_of_uint (Pos.to_uint p)).
    { generalize (DecimalString.NilEmpty.string_of_uint (Pos.to_uint p)).
      induction s as [|c s IH]; simpl; [reflexivity | now rewrite IH]. }
    rewrite E in Hc.
    change (" " ++ String "-" (DecimalString.NilEmpty.string_of_uint (Pos.to_uint p)) ++ " |")%string
      with (String " " (String "-" (DecimalString.NilEmpty.string_of_uint (Pos.to_uint p) ++ " |"))).
    cbn [Py.contains]. rewrite Hb, Hc. reflexivity.
Qed.

(** The first piece of a line and the id in it. *)
Lemma row_first_piece (s : Student) :
  Py.contains " | " (" " ++ id s ++ " |")%string = false ->
  nth_error (Py.split " | " (GUI.row_text s)) 0 = Some ("ID: " ++ id s)%string.
Proof.
  intros H. rewrite row_text_pieces.
  now rewrite (split_cons " | " " |" ("ID: " ++ id s) _ " " eq_refl H).
Qed.

(** X18.  The id that [delete_student] and [on_select_student] read off
    a line of the list box is the id of the record of the line, when the
    id holds no [": "] and [" | "] occurs neither in the id nor across its
    ends in the line. *)
Theorem row_id (s : Student) :
  GUI.clean (id s) = true ->
  GUI.field (Py.split " | " (GUI.row_text s)) 0 = Some (id s).
Proof.
  intros H. unfold GUI.field.
  rewrite (row_first_piece s (clean_bar _ H)).
  apply (labelled_field "ID" (id s) eq_refl (clean_colon _ H)).
Qed.

(** The four pieces of a line. *)
Lemma row_pieces (s : Student) :
  GUI.clean (id s) = true -> GUI.clean (name s) = true ->
  GUI.clean (grade s) = true ->
  Py.split " | " (GUI.row_text s) =
  [("ID: " ++ id s)%string; ("Name: " ++ name s)%string;
   ("Age: " ++ Py.str (age s))%string; ("Grade: " ++ grade s)%string].
Proof.
  intros Hi Hn Hg. rewrite row_text_pieces.
  rewrite (split_cons " | " " |" ("ID: " ++ id s) _ " " eq_refl
             (clean_bar _ Hi)).
  rewrite (split_cons " | " " |" ("Name: " ++ name s) _ " " eq_refl
             (clean_bar _ Hn)).
  rewrite (split_cons " | " " |" ("Age: " ++ Py.str (age s)) _ " " eq_refl
             (clean_bar _ (str_clean (age s)))).
  rewrite split_none; [reflexivity|].
  apply clean_bar in Hg.
  apply (contains_app_false " | " (" " ++ grade s) " |").
  now rewrite string_app_assoc.
Qed.

Lemma row_fields (s : Student) :
  GUI.clean (id s) = true -> GUI.clean (name s) = true ->
  GUI.clean (grade s) = true ->
  let parts := Py.split " | " (GUI.row_text s) in
  GUI.field parts 0 = Some (id s) /\ GUI.field parts 1 = Some (name s) /\
  GUI.field parts 2 = Some (Py.str (age s)) /\
  GUI.field parts 3 = Some (grade s).
Proof.
  intros Hi Hn Hg. cbv zeta. rewrite (row_pieces s Hi Hn Hg).
  unfold GUI.field. cbn [nth_error].
  repeat split.
  - apply (labelled_field "ID" _ eq_refl (clean_colon _ Hi)).
  - apply (labelled_field "Name" _ eq_refl (clean_colon _ Hn)).
  - apply (labelled_field "Age" _ eq_refl (clean_colon _ (str_clean _))).
  - apply (labelled_field "Grade" _ eq_refl (clean_colon _ Hg)).
Qed.

(* ================================================================= *)
(** ** The handlers of the window *)

Lemma view_students_stored (k : option string) (st : State) :
  fst (view_students k st) = students (snd (view_students k st)).
Proof.
  unfold view_students, bind.
  match goal with
  | |- context [let (_, st') := ?m st in _] => destruct (m st) as [u st1]
  end.
  reflexivity.
Qed.

Lemma view_students_perm (k : option string) (st : State) :
  Permutation (students st) (students (snd (view_students k st))).
Proof.
  destruct k as [s|]; [|apply Permutation_refl].
  unfold view_students, bind, get_students.
  destruct (Py.truthy s); [|apply Permutation_refl].
  destruct (s =? "id")%string; [simpl; apply sort_perm|].
  destruct (s =? "name")%string; [simpl; apply sort_perm|].
  destruct (s =? "age")%string; [simpl; apply sort_perm|].
  destruct (s =? "grade")%string; [simpl; apply sort_perm|].
  apply Permutation_refl.
Qed.

Lemma view_students_files (k : option string) (st : State) :
  files (snd (view_students k st)) = files st /\
  filename (snd (view_students k st)) = filename st.
Proof.
  destruct k as [s|]; [|split; reflexivity].
  unfold view_students, bind, get_students.
  destruct (Py.truthy s); [|split; reflexivity].
  destruct (s =? "id")%string; [split; reflexivity|].
  destruct (s =? "name")%string; [split; reflexivity|].
  destruct (s =? "age")%string; [split; reflexivity|].
  destruct (s =? "grade")%string; split; reflexivity.
Qed.

(** What [refresh_list] leaves: the store after a view with the sort key
    of the combo box, one line per record of the stored list, no line
    selected, both buttons disabled, the fields as they were. *)
Lemma refresh_list_result (g : GUI.Widgets) :
  GUI.refresh_list g =
  GUI.mkWidgets
    (snd (view_students (Some (GUI.sort_var g)) (GUI.sms g)))
    (map (fun s => (GUI.row_text s, GUI.row_color s))
       (students (snd (view_students (Some (GUI.sort_var g)) (GUI.sms g)))))
    None (GUI.search_var g) (GUI.sort_var g)
    (GUI.id_var g) (GUI.name_var g) (GUI.age_var g) (GUI.grade_var g)
    (GUI.status_var g) (GUI.progress_bar g) false false.
Proof.
  unfold GUI.refresh_list.
  rewrite <- (view_students_stored (Some (GUI.sort_var g)) (GUI.sms g)).
  destruct (view_students (Some (GUI.sort_var g)) (GUI.sms g)) as [l st].
  reflexivity.
Qed.

Lemma listbox_get_line (g : GUI.Widgets) (k : nat) (t c : string) :
  nth_error (GUI.listbox g) k = Some (t, c) ->
  GUI.listbox_get k (GUI.select k g) = t.
Proof.
  intros H. unfold GUI.listbox_get. simpl.
  apply (map_nth_error fst) in H. simpl in H.
  now apply nth_error_nth.
Qed.

(** X19.  Picking a line of the list box whose record has an id, a name
    and a grade that the separators cannot be mistaken in puts the id, the
    name, the text of the age and the grade of the record in the four
    fields, enables both buttons and changes nothing else. *)
Theorem on_select_student_fills (g : GUI.Widgets) (k : nat) (s : Student)
  (c : string) :
  nth_error (GUI.listbox g) k = Some (GUI.row_text s, c) ->
  GUI.clean (id s) = true -> GUI.clean (name s) = true ->
  GUI.clean (grade s) = true ->
  GUI.on_select_student (GUI.select k g) =
  GUI.Returned
    (GUI.mkWidgets (GUI.sms g) (GUI.listbox g) (Some k)
       (GUI.search_var g) (GUI.sort_var g)
       (id s) (name s) (Py.str (age s)) (grade s)
       (GUI.status_var g) (GUI.progress_bar g) true true).
Proof.
  intros Hl Hi Hn Hg. unfold GUI.on_select_student.
  cbn [GUI.selection GUI.select].
  rewrite (listbox_get_line g k _ c Hl).
  destruct (row_fields s Hi Hn Hg) as (F0 & F1 & F2 & F3).
  rewrite F0, F1, F2, F3. reflexivity.
Qed.


(** X20.  With a line selected and the dialog confirmed, the window's
    [delete_student] deletes by the id read off the line: when the id of
    the record of the line cannot be mistaken, the first record of the
    store with that id goes and the others stay; the list box then has
    one line per record left, nothing is selected, the fields are empty
    and the status says so. *)
Theorem gui_delete_selected (w : bool) (g : GUI.Widgets) (k : nat)
  (s x : Student) (c : string) (before after : list Student) :
  nth_error (GUI.listbox g) k = Some (GUI.row_text s, c) ->
  GUI.clean (id s) = true ->
  students (GUI.sms g) = before ++ x :: after ->
  id x = id s -> ~ In (id s) (map id before) ->
  exists g',
    GUI.delete_student w true (GUI.select k g) = GUI.Returned g' /\
    Permutation (before ++ after) (students (GUI.sms g')) /\
    GUI.listbox g' =
      map (fun r => (GUI.row_text r, GUI.row_color r)) (students (GUI.sms g')) /\
    GUI.selection g' = None /\
    (GUI.id_var g', GUI.name_var g', GUI.age_var g', GUI.grade_var g') =
      ("", "", "", "") /\
    GUI.status_var g' = "Student deleted!".
Proof.
  intros Hl Hc Hs Hx Hb. unfold GUI.delete_student.
  cbn [GUI.selection GUI.select].
  rewrite (listbox_get_line g k _ c Hl).
  assert (F : GUI.field (Py.split " | " (GUI.row_text s)) 0 = Some (id s)).
  { unfold GUI.field. rewrite (row_first_piece s (clean_bar _ Hc)).
    apply (labelled_field "ID" (id s) eq_refl (clean_colon _ Hc)). }
  rewrite F. cbn [GUI.sms GUI.select].
  rewrite (delete_student_at w (id s) (GUI.sms g) before after x Hs Hx Hb).
  rewrite refresh_list_result.
  eexists. split; [reflexivity|].
  cbn [GUI.sms GUI.listbox GUI.selection GUI.id_var GUI.name_var GUI.age_var
       GUI.grade_var GUI.status_var GUI.set_status GUI.clear_fields
       GUI.set_grade_var GUI.set_age_var GUI.set_name_var GUI.set_id_var
       GUI.set_sms GUI.sort_var GUI.select].
  repeat split.
  eapply perm_trans; [|apply view_students_perm].
  rewrite save_students_students. apply Permutation_refl.
Qed.

Lemma chosen_same (v : string) : chosen (Some v) v = v.
Proof. unfold chosen. now destruct (Py.truthy v). Qed.

Lemma save_students_eta (w : bool) (st : State) :
  snd (save_students w (snd (put_students (students st) st))) =
  snd (save_students w st).
Proof. destruct st, w; reflexivity. Qed.

(** X21.  Picking the line of a record and confirming the update with
    the fields as they were filled changes no record: when the id, the
    name and the grade of the record cannot be mistaken and its age is
    positive (and within the bound on digits, where the interpreter has
    one), the update goes through, [save_students] is called once, and
    the store holds the same records, sorted by the sort key. *)
Theorem select_then_update (w : bool) (g : GUI.Widgets) (k : nat)
  (s : Student) (c : string) (before after : list Student) :
  nth_error (GUI.listbox g) k = Some (GUI.row_text s, c) ->
  GUI.clean (id s) = true -> GUI.clean (name s) = true ->
  GUI.clean (grade s) = true -> 0 < age s -> Py.fits (age s) ->
  students (GUI.sms g) = before ++ s :: after ->
  ~ In (id s) (map id before) ->
  exists g1,
    GUI.on_select_student (GUI.select k g) = GUI.Returned g1 /\
    GUI.sms (GUI.update_student w true g1) =
      snd (view_students (Some (GUI.sort_var g))
             (snd (save_students w (GUI.sms g)))) /\
    Permutation (students (GUI.sms g))
      (students (GUI.sms (GUI.update_student w true g1))) /\
    GUI.status_var (GUI.update_student w true g1) = "Student updated!".
Proof.
  intros Hl Hi Hn Hg Ha Hfit Hs Hb.
  eexists. split.
  { unfold GUI.on_select_student. cbn [GUI.selection GUI.select].
    rewrite (listbox_get_line g k _ c Hl).
    destruct (row_fields s Hi Hn Hg) as (F0 & F1 & F2 & F3).
    rewrite F0, F1, F2, F3. reflexivity. }
  unfold GUI.update_student, GUI.update_buttons.
  cbn [GUI.selection GUI.set_buttons GUI.set_grade_var GUI.set_age_var
       GUI.set_name_var GUI.set_id_var GUI.select GUI.id_var GUI.name_var
       GUI.age_var GUI.grade_var GUI.sms].
  rewrite (update_student_at w (id s) _ _ _ (GUI.sms g) before after s Hs
             eq_refl Hb).
  assert (Hp : positive_int (Py.str (age s)) = Some (age s)).
  { apply positive_int_Some. split; [now apply int_of_str_fits | exact Ha]. }
  assert (Hacc : age_accepted (Some (Py.str (age s))) = true).
  { unfold age_accepted. rewrite Hp. now destruct (Py.truthy _). }
  assert (Hage : chosen_age (Some (Py.str (age s))) (age s) = age s).
  { unfold chosen_age. rewrite Hp. now destruct (Py.truthy _). }
  rewrite Hacc, Hage, !chosen_same.
  replace (mkStudent (id s) (name s) (age s) (grade s)) with s
    by (destruct s; reflexivity).
  rewrite <- Hs, save_students_eta, refresh_list_result.
  cbn [GUI.sms GUI.status_var GUI.set_status GUI.clear_fields
       GUI.set_grade_var GUI.set_age_var GUI.set_name_var GUI.set_id_var
       GUI.set_sms GUI.sort_var GUI.set_buttons].
  repeat split.
  eapply perm_trans; [|apply view_students_perm].
  rewrite save_students_students. apply Permutation_refl.
Qed.

Lemma filter_matches_empty (l : list Student) : filter (matches "") l = l.
Proof.
  induction l as [|s r IH]; simpl; [reflexivity|].
  unfold matches at 1. rewrite contains_empty. simpl. now rewrite IH.
Qed.

(** X22.  After [live_search] the list box has one line per record that
    [search_students] finds for the text of the search field, in the
    stored order, and all the records when the field is empty; nothing is
    selected, and the store, the fields and the buttons are as they
    were. *)
Theorem live_search_lines (g : GUI.Widgets) :
  GUI.live_search g =
  GUI.mkWidgets (GUI.sms g)
    (map (fun s => (GUI.row_text s, GUI.row_color s))
       (fst (search_students (GUI.search_var g) (GUI.sms g))))
    None (GUI.search_var g) (GUI.sort_var g)
    (GUI.id_var g) (GUI.name_var g) (GUI.age_var g) (GUI.grade_var g)
    (GUI.status_var g) (GUI.progress_bar g)
    (GUI.delete_btn g) (GUI.update_btn g).
Proof.
  unfold GUI.live_search.
  destruct (Py.truthy (GUI.search_var g)) eqn:T.
  - reflexivity.
  - apply truthy_false_iff in T.
    assert (E : fst (search_students (GUI.search_var g) (GUI.sms g)) =
                students (GUI.sms g)).
    { rewrite T. unfold search_students, bind, get_students, ret. cbn [fst].
      rewrite lower_empty. apply filter_matches_empty. }
    rewrite E. reflexivity.
Qed.

(** X23.  The window's [add_student] hands the four fields to the store.
    When the store refuses, the fields, the list box and the status stay,
    so the entry can be corrected.  When it accepts, the fields are
    emptied, the status says so, the stored list is sorted by the sort key
    and has the new record, and the list box has one line per record;
    the file, when it could be written, has the order from before the
    sort. *)
Theorem gui_add_student (w : bool) (g : GUI.Widgets) :
  let r := add_student w (GUI.id_var g) (GUI.name_var g) (GUI.age_var g)
             (GUI.grade_var g) (GUI.sms g) in
  let g' := GUI.add_student w g in
  match fst r with
  | false => g' = GUI.set_sms (snd r) g
  | true =>
      (exists k,
          positive_int (GUI.age_var g) = Some k /\
          Permutation
            (students (GUI.sms g) ++
             [mkStudent (GUI.id_var g) (GUI.name_var g) k (GUI.grade_var g)])
            (students (GUI.sms g')) /\
          (w = true ->
           on_disk (GUI.sms g') =
             Some (students (GUI.sms g) ++
                   [mkStudent (GUI.id_var g) (GUI.name_var g) k
                      (GUI.grade_var g)]))) /\
      GUI.listbox g' =
        map (fun s => (GUI.row_text s, GUI.row_color s))
          (students (GUI.sms g')) /\
      (GUI.id_var g', GUI.name_var g', GUI.age_var g', GUI.grade_var g') =
        ("", "", "", "") /\
      GUI.status_var g' = "Student added successfully!" /\
      GUI.selection g' = None
  end.
Proof.
  cbv zeta. unfold GUI.add_student.
  destruct (add_student w (GUI.id_var g) (GUI.name_var g) (GUI.age_var g)
              (GUI.grade_var g) (GUI.sms g)) as [ok st] eqn:E.
  cbn [fst snd]. destruct ok; [|reflexivity].
  assert (H : fst (add_student w (GUI.id_var g) (GUI.name_var g)
                     (GUI.age_var g) (GUI.grade_var g) (GUI.sms g)) = true)
    by now rewrite E.
  destruct (add_student_true _ _ _ _ _ _ H) as (k & _ & _ & _ & _ & Ha & Est).
  rewrite E in Est. cbn [snd] in Est.
  rewrite refresh_list_result.
  cbn [GUI.sms GUI.listbox GUI.selection GUI.id_var GUI.name_var GUI.age_var
       GUI.grade_var GUI.status_var GUI.set_status GUI.clear_fields
       GUI.set_grade_var GUI.set_age_var GUI.set_name_var GUI.set_id_var
       GUI.set_sms GUI.sort_var].
  repeat split. exists k. split; [exact Ha|]. split.
  - eapply perm_trans; [|apply view_students_perm].
    rewrite Est, save_students_students. apply Permutation_refl.
  - intros ->. unfold on_disk.
    destruct (view_students_files (Some (GUI.sort_var g)) st) as [F1 F2].
    rewrite F1, F2.
    change (on_disk st = Some (students (GUI.sms g) ++
              [mkStudent (GUI.id_var g) (GUI.name_var g) k (GUI.grade_var g)])).
    rewrite Est. apply on_disk_saved.
Qed.

Lemma upper_char_A (c : ascii) :
  Py.upper_char c = "A"%char -> c = "A"%char \/ c = "a"%char.
Proof.
  destruct c as [[] [] [] [] [] [] [] []]; vm_compute; intros H;
    try discriminate H; auto.
Qed.

Lemma upper_char_B (c : ascii) :
  Py.upper_char c = "B"%char -> c = "B"%char \/ c = "b"%char.
Proof.
  destruct c as [[] [] [] [] [] [] [] []]; vm_compute; intros H;
    try discriminate H; auto.
Qed.

Lemma upper_is_A (v : string) : Py.upper v = "A" <-> v = "A" \/ v = "a".
Proof.
  split.
  - destruct v as [|c [|d r]]; simpl; try discriminate.
    intros H. injection H as H. apply upper_char_A in H.
    destruct H as [-> | ->]; auto.
  - intros [-> | ->]; reflexivity.
Qed.

Lemma upper_is_B (v : string) : Py.upper v = "B" <-> v = "B" \/ v = "b".
Proof.
  split.
  - destruct v as [|c [|d r]]; simpl; try discriminate.
    intros H. injection H as H. apply upper_char_B in H.
    destruct H as [-> | ->]; auto.
  - intros [-> | ->]; reflexivity.
Qed.

(** X24.  A line of the list box is green exactly when the grade of its
    record is A or B, in either case, and red for every other grade. *)
Theorem row_color_green (s : Student) :
  (GUI.row_color s = "#00ff00" <->
   grade s = "A" \/ grade s = "a" \/ grade s = "B" \/ grade s = "b") /\
  (GUI.row_color s = "#00ff00" \/ GUI.row_color s = "#ff4444").
Proof.
  unfold GUI.row_color.
  destruct (String.eqb_spec (Py.upper (grade s)) "A") as [EA|NA];
    destruct (String.eqb_spec (Py.upper (grade s)) "B") as [EB|NB]; simpl;
    (split; [|auto]); split; try discriminate; try reflexivity; intros H.
  - apply upper_is_A in EA. tauto.
  - apply upper_is_A in EA. tauto.
  - apply upper_is_B in EB. tauto.
  - exfalso. destruct H as [H|[H|[H|H]]].
    + apply NA, upper_is_A. auto.
    + apply NA, upper_is_A. auto.
    + apply NB, upper_is_B. auto.
    + apply NB, upper_is_B. auto.
Qed.

(** X25.  An id that holds [" | "] is read off its line only up to there:
    for the id [i ++ " | " ++ t] the handlers get [i], when [i] itself
    cannot be mistaken.  So the window's delete then goes for the record
    with the id [i], not for the record of the line. *)
Theorem row_id_cut (s : Student) (i t : string) :
  id s = (i ++ " | " ++ t)%string -> GUI.clean i = true ->
  GUI.field (Py.split " | " (GUI.row_text s)) 0 = Some i /\ id s <> i.
Proof.
  intros Hs Hc. split.
  - unfold GUI.field, GUI.row_text. rewrite Hs.
    replace ("ID: " ++ (i ++ " | " ++ t) ++ " | Name: " ++ name s ++ " | Age: "
             ++ Py.str (age s) ++ " | Grade: " ++ grade s)%string
      with (("ID: " ++ i) ++ " | " ++
            (t ++ " | Name: " ++ name s ++ " | Age: " ++ Py.str (age s)
             ++ " | Grade: " ++ grade s))%string
      by (simpl; now rewrite !string_app_assoc).
    rewrite (split_cons " | " " |" ("ID: " ++ i) _ " " eq_refl (clean_bar _ Hc)).
    cbn [nth_error].
    apply (labelled_field "ID" i eq_refl (clean_colon _ Hc)).
  - rewrite Hs. intros E.
    assert (L : String.length (i ++ " | " ++ t)%string = String.length i)
      by now rewrite E.
    rewrite !string_length_app in L. simpl in L. lia.
Qed.

End Facts.

(* ================================================================= *)
(** ** The examples and the witnesses, on [ascii_python] *)

Section Samples.
Existing Instance ascii_python.

(** The ages of the specification's examples, and one with white space,
    a sign and an underscore. *)
Example positive_int_run :
  positive_int "0" = None /\ positive_int "-5" = None /\
  positive_int "abc" = None /\ positive_int "" = None /\
  positive_int "7" = Some 7 /\ positive_int " +1_0 " = Some 10.
Proof. repeat split. Qed.

(** C2 at the specification's example: adding with the age text [7]
    stores the integer 7, and the age texts [0] and [abc] are refused. *)
Lemma add_student_spec_witness :
  students (snd (add_student true "s1" "Alice" "7" "A" fresh)) =
    [mkStudent "s1" "Alice" 7 "A"] /\
  saves (snd (add_student true "s1" "Alice" "7" "A" fresh)) = 1%nat /\
  add_refused "s1" "Alice" "0" "A" (students fresh) /\
  fst (add_student true "s1" "Alice" "abc" "A" fresh) = false.
Proof.
  pose proof (add_student_spec true "s1" "Alice" "7" "A" fresh) as H7.
  pose proof (add_student_spec true "s1" "Alice" "0" "A" fresh) as H0.
  destruct H7 as [(_ & _ & Hsv & _) [Hbad H7]].
  destruct H0 as [(H0 & _) _].
  assert (E : add_student true "s1" "Alice" "7" "A" fresh =
              (true, snd (save_students true
                            (snd (put_students
                                    (students fresh ++
                                     [mkStudent "s1" "Alice" 7 "A"]) fresh))))).
  { apply H7; try discriminate. simpl. tauto. }
  split; [now rewrite E|]. split; [exact Hsv|].
  split; [exact H0 | apply Hbad; simpl; auto].
Defined.

Lemma invariant_preserved_witness :
  valid_collection (students fresh) /\
  Forall (fun st' => valid_collection (students st'))
    (states [Add true "s1" "Alice" "20" "A"; Add true "s1" "Eve" "5" "B";
             Update false "s1" (Some "Al") (Some "-3") None;
             Update true "s1" None (Some "21") (Some "B");
             Delete true "s1"] fresh).
Proof.
  split.
  - split; constructor.
  - apply (invariant_preserved _ fresh). split; constructor.
Defined.


(** The orders of the specification's examples: by age, and by name
    whatever the case; records of the same age keep their order. *)
Example view_students_examples :
  fst (view_students (Some "age") (with_students [bob; alice])) = [alice; bob] /\
  fst (view_students (Some "name") (with_students [bob; alice])) = [alice; bob] /\
  fst (view_students (Some "age") (with_students [cal; bob; alice])) =
    [cal; alice; bob] /\
  fst (view_students (Some "height") (with_students [bob; alice])) = [bob; alice].
Proof. repeat split. Qed.

(** The search of the specification's example. *)
Example search_students_example :
  map name (fst (search_students "al"
                   (with_students [alice; bob; cal]))) = ["Alice"; "Cal"] /\
  map name (fst (search_students "S2"
                   (with_students [alice; bob; cal]))) = ["bob"].
Proof. split; reflexivity. Qed.

(** The export of two records. *)
Example export_to_csv_example :
  let st' := snd (export_to_csv "out.csv" NoFault (with_students [bob; alice])) in
  files st' "out.csv" =
    Some (FCsv [csv_header;
                [CStr "s2"; CStr "bob"; CInt 30; CStr "B"];
                [CStr "s1"; CStr "Alice"; CInt 20; CStr "A"]]) /\
  log st' = [Progress (percent 0 2); Progress (percent 1 2);
             ShowInfo "Success" "Data exported to CSV!"] /\
  percent 0 2 = Py.float_of_int 50 /\ percent 1 2 = Py.float_of_int 100.
Proof. repeat split. Qed.

(** Percentages that are no integers: the first of three is the float
    4691249611844266 * 2^-47, which prints as 33.33333333333333, and the
    seventh of a hundred is 7881299347898369 * 2^-50, which prints as
    7.000000000000001 and is above 7. *)
Example percent_rounded :
  percent 0 3 = SpecFloat.S754_finite false 4691249611844266 (-47) /\
  percent 6 100 = SpecFloat.S754_finite false 7881299347898369 (-50) /\
  Py.lt (Py.float_of_int 7) (percent 6 100) = true /\
  percent 2 3 = Py.float_of_int 100.
Proof. repeat split. Qed.

(** An export whose third call of [writerow] raises: the file has the
    header and the first record, the callback was called once, and the
    error is shown. *)
Example export_to_csv_interrupted :
  let st' := snd (export_to_csv "out.csv" (WriteFault 2)
                    (with_students [bob; alice; cal])) in
  files st' "out.csv" =
    Some (FCsv [csv_header; [CStr "s2"; CStr "bob"; CInt 30; CStr "B"]]) /\
  log st' = [Progress (percent 0 3); ShowError "Error" "Failed to export"].
Proof. repeat split. Qed.

Lemma update_student_not_found_witness :
  ~ In "s9" (map id (students (with_students [alice; bob]))) /\
  fst (update_student true "s9" (Some "Zoe") None None
         (with_students [alice; bob])) = false.
Proof.
  assert (H : ~ In "s9" (map id (students (with_students [alice; bob])))).
  { simpl. intros [H|[H|[]]]; discriminate. }
  split; [exact H|].
  now rewrite (update_student_not_found true "s9" (Some "Zoe") None None _ H).
Defined.

Lemma update_student_applies_witness :
  In "s2" (map id (students (with_students [alice; bob]))) /\
  age_accepted (Some "31") = true /\
  fst (update_student true "s2" (Some "") (Some "31") (Some "A")
         (with_students [alice; bob])) = true /\
  saves (snd (update_student true "s2" (Some "") (Some "31") (Some "A")
                (with_students [alice; bob]))) = 1%nat.
Proof.
  assert (H : In "s2" (map id (students (with_students [alice; bob]))))
    by (simpl; auto).
  split; [exact H|]. split; [reflexivity|].
  pose proof (update_student_applies true "s2" (Some "") (Some "31") (Some "A")
                (with_students [alice; bob]) H eq_refl) as P.
  split; [exact (proj1 P) | exact (proj1 (proj2 (proj2 P)))].
Defined.

Lemma update_student_nothing_witness :
  In "s1" (map id (students (with_students [alice; bob]))) /\
  Py.truthy_opt (Some "") = false /\ Py.truthy_opt None = false /\
  students (snd (update_student false "s1" (Some "") None None
                   (with_students [alice; bob]))) = [alice; bob] /\
  saves (snd (update_student false "s1" (Some "") None None
                (with_students [alice; bob]))) = 1%nat.
Proof.
  assert (H : In "s1" (map id (students (with_students [alice; bob]))))
    by (simpl; auto).
  split; [exact H|]. split; [reflexivity|]. split; [reflexivity|].
  pose proof (update_student_nothing false "s1" (Some "") None None
                (with_students [alice; bob]) H eq_refl eq_refl eq_refl) as P.
  split; [exact (proj1 (proj2 P)) | exact (proj2 (proj2 P))].
Defined.

Lemma delete_student_removes_id_witness :
  NoDup (map id (students (with_students [alice; bob; cal]))) /\
  In "s2" (map id (students (with_students [alice; bob; cal]))) /\
  ~ In "s2" (map id (students (snd (delete_student true "s2"
                                      (with_students [alice; bob; cal]))))).
Proof.
  assert (Hn : NoDup (map id (students (with_students [alice; bob; cal])))).
  { simpl. repeat constructor; simpl; intros H;
      repeat (destruct H as [H|H]; try discriminate H); exact H. }
  assert (Hi : In "s2" (map id (students (with_students [alice; bob; cal]))))
    by (simpl; auto).
  split; [exact Hn|]. split; [exact Hi|].
  exact (proj2 (delete_student_removes_id true "s2" _ Hn Hi)).
Defined.

Lemma add_then_delete_witness :
  fst (add_student true "s3" "Cal" "20" "C" (with_students [alice; bob])) = true /\
  students (snd (delete_student false "s3"
                   (snd (add_student true "s3" "Cal" "20" "C"
                           (with_students [alice; bob]))))) = [alice; bob].
Proof.
  split; [reflexivity|].
  exact (proj2 (add_then_delete true false "s3" "Cal" "20" "C"
                  (with_students [alice; bob]) eq_refl)).
Defined.

Lemma add_then_search_witness :
  fst (add_student true "s3" "Cal" "20" "C" (with_students [alice; bob])) = true /\
  (ci_substring "AL" "s3" \/ ci_substring "AL" "Cal") /\
  exists k,
    Py.int "20" = Some k /\
    In (mkStudent "s3" "Cal" k "C")
       (fst (search_students "AL"
               (snd (add_student true "s3" "Cal" "20" "C"
                       (with_students [alice; bob]))))).
Proof.
  assert (Hq : ci_substring "AL" "s3" \/ ci_substring "AL" "Cal").
  { right. exists "C", "al", "". split; reflexivity. }
  split; [reflexivity|]. split; [exact Hq|].
  apply (add_then_search (py := ascii_python) true "s3" "Cal" "20" "C" "AL"
           (with_students [alice; bob]) eq_refl).
  right. repeat split; try reflexivity. exact Hq.
Defined.


Lemma failed_step_no_save_witness :
  fst (step (Update true "s1" (Some "Al") (Some "0") None)
         (with_students [alice])) = false /\
  saves (snd (step (Update true "s1" (Some "Al") (Some "0") None)
                (with_students [alice]))) = 0%nat.
Proof.
  split; [reflexivity|].
  exact (proj2 (failed_step_no_save
                  (Update true "s1" (Some "Al") (Some "0") None)
                  (with_students [alice]) eq_refl)).
Defined.


Lemma load_students_bad_record_witness :
  In (JDict [("id", JStr "s2")])
     [to_dict alice; JDict [("id", JStr "s2")]] /\
  fst (load_students
         (mkState "students.json" []
            (fun p : string =>
               if (p =? "students.json")%string
               then Some (FJson (JList [to_dict alice;
                                        JDict [("id", JStr "s2")]]))
               else None) [])) = Raises.
Proof.
  assert (Hin : In (JDict [("id", JStr "s2")])
                  [to_dict alice; JDict [("id", JStr "s2")]])
    by (simpl; auto).
  split; [exact Hin|].
  rewrite (load_students_bad_record
             (mkState "students.json" []
                (fun p : string =>
                   if (p =? "students.json")%string
                   then Some (FJson (JList [to_dict alice;
                                            JDict [("id", JStr "s2")]]))
                   else None) [])
             [to_dict alice; JDict [("id", JStr "s2")]]
             [("id", JStr "s2")] eq_refl Hin).
  - reflexivity.
  - left. exists "name". split; reflexivity.
Defined.

Lemma search_students_narrows_witness :
  Py.contains (Py.lower "a") (Py.lower "AL") = true /\
  incl (fst (search_students "AL" (with_students [alice; bob; cal])))
       (fst (search_students "a" (with_students [alice; bob; cal]))).
Proof.
  split; [reflexivity|].
  exact (proj2 (search_students_narrows "a" "AL"
                  (with_students [alice; bob; cal]) eq_refl)).
Defined.

Lemma export_over_backing_file_witness :
  students (with_students [alice]) <> [] /\
  Py.truthy (filename (with_students [alice])) = true /\
  students (snd (load_students
                   (snd (export_to_csv "students.json" NoFault
                           (with_students [alice]))))) = [].
Proof.
  assert (Hne : students (with_students [alice]) <> []) by discriminate.
  split; [exact Hne|]. split; [reflexivity|].
  change (students (snd (load_students
                           (snd (export_to_csv
                                   (filename (with_students [alice])) NoFault
                                   (with_students [alice]))))) = []).
  rewrite (proj2 (proj2 (export_over_backing_file (with_students [alice])
                           Hne eq_refl))).
  reflexivity.
Defined.

Lemma well_formed_preserved_witness :
  well_formed (students fresh) /\
  Forall (fun st' => well_formed (students st'))
    (history [Do (Add true "s2" "bob" "30" "B");
              Do (Add true "s1" "Alice" "20" "A");
              View (Some "name");
              Do (Update true "s1" (Some "") (Some "x") (Some "C"));
              Export "out.csv" NoFault;
              Search "al";
              Export "out.csv" (WriteFault 1);
              Do (Delete false "s2");
              Clear true true] fresh).
Proof.
  split.
  - split; constructor.
  - apply (well_formed_preserved _ fresh). split; constructor.
Defined.

Lemma row_id_witness :
  GUI.clean (id alice) = true /\
  GUI.field (Py.split " | " (GUI.row_text alice)) 0 = Some "s1".
Proof.
  split; [reflexivity|]. exact (row_id alice eq_refl).
Defined.

Lemma on_select_student_fills_witness :
  nth_error (GUI.listbox (GUI.start (with_students [bob; alice]))) 1 =
    Some (GUI.row_text bob, "#00ff00") /\
  GUI.clean (id bob) = true /\ GUI.clean (name bob) = true /\
  GUI.clean (grade bob) = true /\
  exists g',
    GUI.on_select_student (GUI.select 1 (GUI.start (with_students [bob; alice])))
      = GUI.Returned g' /\
    GUI.id_var g' = "s2" /\ GUI.age_var g' = "30".
Proof.
  split; [reflexivity|]. split; [reflexivity|]. split; [reflexivity|].
  split; [reflexivity|].
  eexists. split.
  - exact (on_select_student_fills (GUI.start (with_students [bob; alice])) 1
             bob "#00ff00" eq_refl eq_refl eq_refl eq_refl).
  - split; reflexivity.
Defined.

Lemma gui_delete_selected_witness :
  nth_error (GUI.listbox (GUI.start (with_students [bob; alice]))) 1 =
    Some (GUI.row_text bob, "#00ff00") /\
  GUI.clean (id bob) = true /\
  exists g',
    GUI.delete_student true true
      (GUI.select 1 (GUI.start (with_students [bob; alice]))) =
      GUI.Returned g' /\
    Permutation ([alice] ++ []) (students (GUI.sms g')).
Proof.
  split; [reflexivity|]. split; [reflexivity|].
  destruct (gui_delete_selected true (GUI.start (with_students [bob; alice]))
              1 bob bob "#00ff00" [alice] [] eq_refl eq_refl eq_refl eq_refl)
    as (g' & H1 & H2 & _).
  - simpl. intros [H|[]]. discriminate H.
  - exists g'. split; assumption.
Defined.

Lemma select_then_update_witness :
  nth_error (GUI.listbox (GUI.start (with_students [bob; alice]))) 1 =
    Some (GUI.row_text bob, "#00ff00") /\
  0 < age bob /\ Py.fits (age bob) /\
  exists g1,
    GUI.on_select_student
      (GUI.select 1 (GUI.start (with_students [bob; alice]))) =
      GUI.Returned g1 /\
    GUI.status_var (GUI.update_student true true g1) = "Student updated!".
Proof.
  split; [reflexivity|]. split; [reflexivity|]. split; [exact I|].
  destruct (select_then_update (py := ascii_python) true
              (GUI.start (with_students [bob; alice]))
              1 bob "#00ff00" [alice] [] eq_refl eq_refl eq_refl eq_refl
              eq_refl I eq_refl)
    as (g1 & H1 & _ & _ & H4).
  - simpl. intros [H|[]]. discriminate H.
  - exists g1. split; assumption.
Defined.

Lemma row_id_cut_witness :
  id (mkStudent "s1 | x" "Eve" 9 "A") = ("s1" ++ " | " ++ "x")%string /\
  GUI.clean "s1" = true /\
  GUI.field (Py.split " | " (GUI.row_text (mkStudent "s1 | x" "Eve" 9 "A"))) 0
    = Some "s1".
Proof.
  split; [reflexivity|]. split; [reflexivity|].
  exact (proj1 (row_id_cut (mkStudent "s1 | x" "Eve" 9 "A") "s1" "x"
                  eq_refl eq_refl)).
Defined.

(** C6 at the specification's example: the search for [al] keeps Alice and
    Cal and drops bob. *)
Lemma search_students_spec_witness :
  exists keep : Student -> bool,
    filter keep [alice; bob; cal] = [alice; cal] /\
    (keep alice = true <-> ci_substring "al" "s1" \/ ci_substring "al" "Alice").
Proof.
  destruct (search_students_spec "al" (with_students [alice; bob; cal]))
    as (_ & keep & Hk & _ & Ha).
  exists keep. split.
  - symmetry. exact Hk.
  - exact (Ha eq_refl alice eq_refl eq_refl).
Defined.

Lemma int_str_witness :
  Py.fits 20 /\ Py.int (Py.str 20) = Some 20 /\
  positive_int (Py.str (-3)) = None.
Proof.
  split; [exact I|].
  split; [exact (proj1 (int_str (py := ascii_python) 20 I))|].
  exact (proj2 (int_str (py := ascii_python) (-3) I)).
Defined.


(** C7 at three records: three calls, with growing floats of which the
    last is 100. *)
Lemma export_to_csv_spec_witness :
  progress_values
    (log (snd (export_to_csv "out.csv" NoFault
                 (with_students [bob; alice; cal])))) =
    [percent 0 3; percent 1 3; percent 2 3] /\
  Py.lt (percent 0 3) (percent 1 3) = true /\
  Py.lt (percent 1 3) (percent 2 3) = true /\
  percent 2 3 = Py.float_of_int 100.
Proof.
  destruct (export_to_csv_spec "out.csv" (with_students [bob; alice; cal]))
    as (_ & _ & _ & _ & Hv & Ho).
  destruct Ho as [Hlt Hlast]; [reflexivity|].
  split; [exact Hv|].
  split; [apply Hlt; simpl; lia|].
  split; [apply Hlt; simpl; lia | exact Hlast].
Defined.

(** Why the number of records is bounded where the percentages are said
    to grow: with 2^55 records the quotient of the last but one call
    rounds to 1, so that call would get 100 as the last one does. *)
Example percent_coarse :
  Py.mul (Py.truediv (2 ^ 55 - 1) (2 ^ 55)) (Py.float_of_int 100) =
  Py.float_of_int 100.
Proof. reflexivity. Qed.

(** C7, as stated, fails: with a record in the collection and the file
    dialog cancelled, which gives the empty path, nothing is written and
    the callback is not called. *)
Lemma export_not_as_specified :
  ~ export_as_specified "" NoFault (with_students [alice]) /\
  snd (export_to_csv "" NoFault (with_students [alice])) =
    with_students [alice].
Proof.
  split; [|reflexivity]. intros [H _]. discriminate H.
Qed.

End Samples.

(* ================================================================= *)
(** ** A search beyond ASCII *)

(** C6, as stated, fails.  [str.lower] turns the capital sigma at the end
    of a word into the final small sigma, and a capital sigma on its own
    into the other small sigma.  So the search for a capital sigma does not
    find the record whose name, in capitals, ends with that very letter:
    the name holds the query, and the lower-case form of the name does not
    hold the lower-case form of the query. *)
Lemma search_not_as_specified :
  ci_substring (py := greek_python) "Σ" (name nikos) /\
  fst (search_students (py := greek_python) "Σ" (with_students [nikos])) = [] /\
  ~ search_as_specified (py := greek_python) "Σ" (with_students [nikos]).
Proof.
  assert (Hc : ci_substring (py := greek_python) "Σ" (name nikos)).
  { exists "ΝΙΚΟ", "Σ", "". split; reflexivity. }
  split; [exact Hc|]. split; [reflexivity|].
  intros H. destruct (H nikos) as [_ H']. apply H'.
  split; [now left | now right].
Qed.
